(** * The proctoring client: reconnecting stream, violation counters, CSV export

    A shallow embedding of the client-side monitoring code:
    - [ViolationLogger]     : the ViolationLogger class (unnamed/part_003),
                              severity classification;
    - [ProctoringWebSocket] : the useProctoringWebSocket hook (second part of
                              frontend/src/integrations/supabase/types.ts),
                              the streaming client;
    - [StudentExam]         : frontend/src/pages/StudentExam.tsx, counters,
                              browser-activity listeners and the sampler tick;
    - [PDFGenerator]        : the PDFGenerator class (second part of
                              frontend/src/utils/aiDetection.ts), CSV export.

    The hook is a React component function: its handlers are closures over
    the values of one render.  The model keeps, for every socket and timer,
    the value of [reconnectAttempts] its handlers closed over, and follows
    each handler by the re-render its state updates cause.

    JavaScript numbers that the code stores and copies (calibration angles,
    audio levels, confidences) are carried as rationals, which every finite
    double is; formatting that depends on floating point or on the locale
    is a parameter. *)

From Stdlib Require Import String Ascii List ZArith QArith Lia Bool Arith PeanoNat.
From Stdlib Require Import DecimalString DecimalNat.
From Stdlib Require DecimalFacts.
Import ListNotations.
Close Scope Q_scope.
Open Scope string_scope.

(** ** JavaScript helpers *)

Module Js.

(** Truthiness of a string: only the empty string is falsy. *)
Definition truthy (s : string) : bool :=
  match s with EmptyString => false | String _ _ => true end.

(** [a || b] on an optional string operand ([undefined] when [None]). *)
Definition or_else (a : option string) (b : string) : string :=
  match a with
  | Some s => if truthy s then s else b
  | None => b
  end.

(** [a || b] where both are optional and the result may be [undefined]. *)
Definition or_opt (a b : option string) : option string :=
  match a with
  | Some s => if truthy s then Some s else b
  | None => b
  end.

(** [s.replace(/c/g, r)] for a one-character pattern. *)
Fixpoint replace_all_char (c : ascii) (r : string) (s : string) : string :=
  match s with
  | EmptyString => EmptyString
  | String a rest =>
      if Ascii.eqb a c then r ++ replace_all_char c r rest
      else String a (replace_all_char c r rest)
  end.

(** [s.replace(pat, r)] for a string pattern: the first occurrence only. *)
Fixpoint replace_first (pat r s : string) : string :=
  if String.prefix pat s
  then r ++ substring (String.length pat) (String.length s - String.length pat) s
  else match s with
       | EmptyString => EmptyString
       | String a rest => String a (replace_first pat r rest)
       end.

(** [xs.join(sep)]. *)
Fixpoint join (sep : string) (xs : list string) : string :=
  match xs with
  | [] => EmptyString
  | [x] => x
  | x :: rest => x ++ sep ++ join sep rest
  end.

Definition underscore : ascii := "_"%char.
Definition dquote : ascii := ascii_of_nat 34.
Definition newline : string := String (ascii_of_nat 10) EmptyString.

(** Result of running a statement block: it returns or it throws. *)
Inductive Completion (S : Type) : Type :=
| Normal (s : S)
| Throw (error : string) (s : S).
Arguments Normal {S} s.
Arguments Throw {S} error s.

(** [n.toString()] for a non-negative integer. *)
Definition toString (n : nat) : string := NilZero.string_of_uint (Nat.to_uint n).

(** [s.padStart(n, c)] for a one-character filler. *)
Fixpoint filler (c : ascii) (n : nat) : string :=
  match n with O => EmptyString | S m => String c (filler c m) end.

Definition padStart (n : nat) (c : ascii) (s : string) : string :=
  filler c (n - String.length s) ++ s.

(** Character classes of the regular expressions in the code.  Text is
    read as code units below 256, one per character. *)
Definition between (lo hi : nat) (c : ascii) : bool :=
  Nat.leb lo (nat_of_ascii c) && Nat.leb (nat_of_ascii c) hi.

(** [[a-zA-Z0-9_-]] *)
Definition is_safe (c : ascii) : bool :=
  between 97 122 c || between 65 90 c || between 48 57 c
  || Ascii.eqb c "_" || Ascii.eqb c "-".

(** [\s] *)
Definition is_space (c : ascii) : bool :=
  between 9 13 c || Nat.eqb (nat_of_ascii c) 32 || Nat.eqb (nat_of_ascii c) 160.

(** [s.replace(/[^a-zA-Z0-9_-]/g, r)] for [r] empty or one character. *)
Fixpoint replace_unsafe (r : string) (s : string) : string :=
  match s with
  | EmptyString => EmptyString
  | String c rest =>
      if is_safe c then String c (replace_unsafe r rest)
      else r ++ replace_unsafe r rest
  end.

(** [s.replace(/\s+/g, "_")]: every run of white space becomes one
    underscore.  [in_run] tells that the previous character was white. *)
Fixpoint replace_space_runs (in_run : bool) (s : string) : string :=
  match s with
  | EmptyString => EmptyString
  | String c rest =>
      if is_space c then
        if in_run then replace_space_runs true rest
        else String "_" (replace_space_runs true rest)
      else String c (replace_space_runs false rest)
  end.

(** [s.split(c)[0]]: the text before the first [c]. *)
Fixpoint before_first (c : ascii) (s : string) : string :=
  match s with
  | EmptyString => EmptyString
  | String a rest => if Ascii.eqb a c then EmptyString else String a (before_first c rest)
  end.

(** The text after the first [c], empty when there is none. *)
Fixpoint after_first (c : ascii) (s : string) : string :=
  match s with
  | EmptyString => EmptyString
  | String a rest => if Ascii.eqb a c then rest else after_first c rest
  end.

(** [[0-9]] *)
Definition is_digit (c : ascii) : bool := between 48 57 c.

(** How often a character occurs. *)
Fixpoint occurrences (c : ascii) (s : string) : nat :=
  match s with
  | EmptyString => 0
  | String a rest => (if Ascii.eqb a c then 1 else 0) + occurrences c rest
  end.

(** All characters of a text satisfy a test. *)
Fixpoint all_chars (f : ascii -> bool) (s : string) : bool :=
  match s with
  | EmptyString => true
  | String a rest => f a && all_chars f rest
  end.

(** The property names of [Object.prototype].  On an object literal,
    [o[k]] for one of these finds the inherited member, not undefined. *)
Definition Object_prototype : list string :=
  [ "constructor"; "__defineGetter__"; "__defineSetter__"; "hasOwnProperty";
    "__lookupGetter__"; "__lookupSetter__"; "isPrototypeOf"; "propertyIsEnumerable";
    "toString"; "valueOf"; "__proto__"; "toLocaleString" ].

Definition inherited (k : string) : bool := existsb (String.eqb k) Object_prototype.

End Js.

(** ** utils/violationLogger *)

Module ViolationLogger.

Inductive Severity : Type := low | medium | high.

Definition determineSeverity (type : string) : Severity :=
  if String.eqb type "phone" then high
  else if String.eqb type "multiple_person" then high
  else if String.eqb type "object" then medium
  else if String.eqb type "no_person" then medium
  else if String.eqb type "looking_away" then low
  else if String.eqb type "audio_noise" then low
  else low.

(** Position of a severity on the scale low < medium < high. *)
Definition rank (s : Severity) : nat :=
  match s with low => 0 | medium => 1 | high => 2 end.

Definition getViolationMessage (type : string) : string :=
  if String.eqb type "phone" then "Mobile phone detected in exam area"
  else if String.eqb type "multiple_person" then "Multiple persons detected"
  else if String.eqb type "no_person" then "No person detected in frame"
  else if String.eqb type "object" then "Suspicious object detected"
  else if String.eqb type "looking_away" then "Student looking away from screen"
  else if String.eqb type "audio_noise" then "Suspicious audio detected"
  else if String.eqb type "tab_switch" then "Browser tab switched"
  else if String.eqb type "copy_paste" then "Copy/paste detected"
  else "Violation detected".

(** The first path segment built in [uploadSnapshot]: white-space runs
    become underscores, then every other unsafe character is dropped. *)
Definition sanitizedName (studentName : string) : string :=
  Js.replace_unsafe "" (Js.replace_space_runs false studentName).

(** The time stamp of the file name, from [new Date().toISOString()]. *)
Definition fileTimestamp (iso : string) : string :=
  Js.before_first "." (Js.replace_all_char ":" "-" iso).

(** [fileName] in [uploadSnapshot]. *)
Definition snapshotFileName (studentName examId violationType iso : string) : string :=
  sanitizedName studentName ++ "/" ++ examId ++ "/" ++ violationType ++ "_"
  ++ fileTimestamp iso ++ ".jpg".

End ViolationLogger.

(** ** hooks/useProctoringWebSocket: the streaming client *)

Module ProctoringWebSocket.
Import Js.

Definition number : Type := Q.

(** interface ViolationData *)
Record ViolationData : Type := {
  vd_type : string;
  vd_severity : string;
  vd_message : string;
  vd_confidence : option number;
  vd_timestamp : string;
  vd_snapshot_base64 : option string
}.

(** interface DetectionResult, restricted to the fields the client reads. *)
Record DetectionResult : Type := {
  violations : option (list ViolationData);
  snapshot_base64 : option string
}.

(** A parsed inbound message, by its [type] discriminator. *)
Inductive Inbound : Type :=
| detection_result (data : DetectionResult)
| violation (data : ViolationData)
| audio_level (data : number)
| pong
| unknown (type : string).

(** Outbound payloads, one constructor per [type] tag. *)
Inductive Outbound : Type :=
| frame (frame : string) (calibrated_pitch calibrated_yaw : number)
        (exam_id student_id student_name subject_code subject_name : string)
        (audio_level : option number)
| audio (audio_level : number)
        (exam_id student_id student_name subject_code subject_name : string)
| browser_activity (violation_type message : string)
        (exam_id student_id student_name subject_code subject_name : string)
| ping.

(** WebSocket.readyState *)
Inductive ReadyState : Type := CONNECTING | OPEN | CLOSING | CLOSED.

Definition ReadyState_eqb (a b : ReadyState) : bool :=
  match a, b with
  | CONNECTING, CONNECTING | OPEN, OPEN | CLOSING, CLOSING | CLOSED, CLOSED => true
  | _, _ => false
  end.

(** A socket made by [connect].  Its handlers are closures of that call:
    [attempts] is the value of [reconnectAttempts] in their scope. *)
Record WebSocket : Type := {
  url : string;
  attempts : nat;
  readyState : ReadyState
}.

Inductive TimeoutStatus : Type := scheduled | fired | cleared.

(** A timer made by [setTimeout] in [onclose]; its callback calls the
    [connect] whose [reconnectAttempts] is [timeout_attempts]. *)
Record Timeout : Type := {
  delay : Z;
  timeout_attempts : nat;
  status : TimeoutStatus
}.

Definition pending (t : Timeout) : bool :=
  match status t with scheduled => true | _ => false end.

Inductive Toast : Type :=
| toast_success (text : string)
| toast_error (text : string)
| toast_warning (text : string).

(** UseProctoringWebSocketOptions (without the handler, which the page owns). *)
Record Options : Type := {
  sessionId : string;
  examId : string;
  studentId : string;
  studentName : string;
  subjectCode : string;
  subjectName : string;
  calibratedPitch : number;
  calibratedYaw : number;
  enabled : bool
}.

(** import.meta.env *)
Record Env : Type := {
  VITE_PROCTORING_WS_URL : option string;
  VITE_PROCTORING_API_URL : option string
}.

Definition getWebSocketURL (env : Env) : string :=
  match VITE_PROCTORING_WS_URL env with
  | Some u => if truthy u then u
              else let backendURL := or_else (VITE_PROCTORING_API_URL env) "http://localhost:8001" in
                   replace_first "http://" "ws://" (replace_first "https://" "wss://" backendURL)
  | None => let backendURL := or_else (VITE_PROCTORING_API_URL env) "http://localhost:8001" in
            replace_first "http://" "ws://" (replace_first "https://" "wss://" backendURL)
  end.

Definition maxReconnectAttempts : nat := 50.

(** The refs and state of the hook, with the browser objects they reach:
    sockets and timers are numbered by creation order, [wire] is what
    was handed to the network, [toasts] what was handed to the toaster
    (which the page calls too), oldest first. *)
Record Hook : Type := mkHook {
  isConnected : bool;
  reconnectAttempts : nat;
  wsRef : option nat;
  reconnectTimeoutRef : option nat;
  sockets : list WebSocket;
  timeouts : list Timeout;
  toasts : list Toast;
  wire : list (nat * Outbound)
}.

Definition initial : Hook := mkHook false 0 None None [] [] [] [].

Definition setIsConnected (b : bool) (h : Hook) : Hook :=
  mkHook b (reconnectAttempts h) (wsRef h) (reconnectTimeoutRef h)
         (sockets h) (timeouts h) (toasts h) (wire h).

Definition setReconnectAttempts (f : nat -> nat) (h : Hook) : Hook :=
  mkHook (isConnected h) (f (reconnectAttempts h)) (wsRef h) (reconnectTimeoutRef h)
         (sockets h) (timeouts h) (toasts h) (wire h).

Definition set_wsRef (r : option nat) (h : Hook) : Hook :=
  mkHook (isConnected h) (reconnectAttempts h) r (reconnectTimeoutRef h)
         (sockets h) (timeouts h) (toasts h) (wire h).

Definition set_reconnectTimeoutRef (r : option nat) (h : Hook) : Hook :=
  mkHook (isConnected h) (reconnectAttempts h) (wsRef h) r
         (sockets h) (timeouts h) (toasts h) (wire h).

Definition set_sockets (l : list WebSocket) (h : Hook) : Hook :=
  mkHook (isConnected h) (reconnectAttempts h) (wsRef h) (reconnectTimeoutRef h)
         l (timeouts h) (toasts h) (wire h).

Definition set_timeouts (l : list Timeout) (h : Hook) : Hook :=
  mkHook (isConnected h) (reconnectAttempts h) (wsRef h) (reconnectTimeoutRef h)
         (sockets h) l (toasts h) (wire h).

Definition toast (t : Toast) (h : Hook) : Hook :=
  mkHook (isConnected h) (reconnectAttempts h) (wsRef h) (reconnectTimeoutRef h)
         (sockets h) (timeouts h) (toasts h ++ [t]) (wire h).

Definition transmit (id : nat) (m : Outbound) (h : Hook) : Hook :=
  mkHook (isConnected h) (reconnectAttempts h) (wsRef h) (reconnectTimeoutRef h)
         (sockets h) (timeouts h) (toasts h) (wire h ++ [(id, m)]).

(** In-place update of the [n]-th element; nothing happens out of range. *)
Fixpoint update {A : Type} (n : nat) (f : A -> A) (l : list A) : list A :=
  match l, n with
  | [], _ => []
  | x :: rest, O => f x :: rest
  | x :: rest, S m => x :: update m f rest
  end.

Definition set_readyState (r : ReadyState) (w : WebSocket) : WebSocket :=
  {| url := url w; attempts := attempts w; readyState := r |}.

Definition set_status (s : TimeoutStatus) (t : Timeout) : Timeout :=
  {| delay := delay t; timeout_attempts := timeout_attempts t; status := s |}.

(** [wsRef.current?.readyState] *)
Definition current_readyState (h : Hook) : option ReadyState :=
  match wsRef h with
  | Some id => option_map readyState (nth_error (sockets h) id)
  | None => None
  end.

(** The browser's [WebSocket.send]: it throws while connecting, queues
    the data when open, and discards it once closing or closed. *)
Definition ws_send (id : nat) (m : Outbound) (h : Hook) : Completion Hook :=
  match option_map readyState (nth_error (sockets h) id) with
  | Some CONNECTING => Throw "InvalidStateError" h
  | Some OPEN => Normal (transmit id m h)
  | _ => Normal h
  end.

(** The browser's [WebSocket.close]: an open or connecting socket starts
    closing (its close event comes later); otherwise nothing happens. *)
Definition ws_close (id : nat) (h : Hook) : Hook :=
  set_sockets
    (update id (fun w => match readyState w with
                         | CONNECTING | OPEN => set_readyState CLOSING w
                         | _ => w
                         end) (sockets h)) h.

(** The browser's [clearTimeout]: a timer still waiting is dropped. *)
Definition clearTimeout (tid : nat) (h : Hook) : Hook :=
  set_timeouts (update tid (fun t => if pending t then set_status cleared t else t)
                       (timeouts h)) h.

(** The browser's bookkeeping when a timer's callback starts. *)
Definition expire (tid : nat) (h : Hook) : Hook :=
  set_timeouts (update tid (set_status fired) (timeouts h)) h.

(** The socket a send would go out on: the current one, if it is open. *)
Definition live (h : Hook) : option nat :=
  match wsRef h, current_readyState h with
  | Some id, Some OPEN => Some id
  | _, _ => None
  end.

(** A property of sockets and one of timers hold of all of them. *)
Definition kept (Ps : WebSocket -> Prop) (Pt : Timeout -> Prop) (h : Hook) : Prop :=
  Forall Ps (sockets h) /\ Forall Pt (timeouts h).

Definition is_open (w : WebSocket) : bool := ReadyState_eqb (readyState w) OPEN.

(** A socket that is open or on its way to closed: its close event is
    still to come. *)
Definition unclosed (w : WebSocket) : bool :=
  ReadyState_eqb (readyState w) OPEN || ReadyState_eqb (readyState w) CLOSING.

(** The connected indicator is on only while some socket is open or
    closing. *)
Definition indicator_sound (h : Hook) : Prop :=
  isConnected h = true -> existsb unclosed (sockets h) = true.

(** The two toasts the hook raises itself. *)
Definition is_hook_toast (t : Toast) : bool :=
  match t with
  | toast_success text => String.eqb text "Real-time monitoring active"
  | toast_error text => String.eqb text "Unable to connect to proctoring service."
  | toast_warning _ => false
  end.

(** The toaster has only gained toasts of the hook. *)
Definition hook_only (before after : list Toast) : Prop :=
  exists extra, after = (before ++ extra)%list /\ forallb is_hook_toast extra = true.

(** The handlers of the current socket see the current counter. *)
Definition current_fresh (h : Hook) : Prop :=
  forall c, wsRef h = Some c ->
            nth_error (map attempts (sockets h)) c = Some (reconnectAttempts h).

Section Client.
Variable WS_URL : string.
(** Whether the browser's [WebSocket] constructor takes the URL; it throws
    otherwise. *)
Variable accepts : string -> bool.
Variable opts : Options.

(** [connect], as memoised in a render where [reconnectAttempts] was [k].
    A constructor that throws is caught. *)
Definition connect (k : nat) (h : Hook) : Hook :=
  if negb (enabled opts) || negb (truthy (sessionId opts)) then h
  else
    let wsURL := WS_URL ++ "/api/ws/proctoring/" ++ sessionId opts in
    if accepts wsURL then
      let id := List.length (sockets h) in
      set_wsRef (Some id)
        (set_sockets (sockets h ++ [ {| url := wsURL; attempts := k; readyState := CONNECTING |} ]) h)
    else setIsConnected false h.

(** ws.onopen *)
Definition onopen (id : nat) (h : Hook) : Hook :=
  toast (toast_success "Real-time monitoring active")
    (setReconnectAttempts (fun _ => 0)
       (setIsConnected true h)).

(** ws.onerror *)
Definition onerror (id : nat) (h : Hook) : Hook :=
  setIsConnected false h.

(** The delay computed in ws.onclose. *)
Definition reconnect_delay (k : nat) : Z :=
  Z.min (1000 * 2 ^ Z.of_nat k) 30000%Z.

(** ws.onclose of a socket whose closure holds [reconnectAttempts = k]. *)
Definition onclose (k : nat) (h : Hook) : Hook :=
  let h := setIsConnected false h in
  if enabled opts && Nat.ltb k maxReconnectAttempts then
    let tid := List.length (timeouts h) in
    set_reconnectTimeoutRef (Some tid)
      (set_timeouts (timeouts h ++ [ {| delay := reconnect_delay k;
                                        timeout_attempts := k;
                                        status := scheduled |} ]) h)
  else if Nat.leb maxReconnectAttempts k then
    toast (toast_error "Unable to connect to proctoring service.") h
  else h.

(** The callback given to [setTimeout] in the onclose of a socket made at
    counter [k]: it bumps the counter and calls the [connect] of its own
    scope, the one memoised at [k]. *)
Definition reconnect_callback (k : nat) (h : Hook) : Hook :=
  connect k (setReconnectAttempts (fun prev => prev + 1) h).

(** ws.onmessage: the violations handed to [onViolationRef.current],
    in order.  [None] stands for data that [JSON.parse] rejects; [now]
    is [new Date().toISOString()]. *)
Definition onmessage (now : string) (data : option Inbound) : list ViolationData :=
  match data with
  | Some (detection_result result) =>
      match violations result with
      | Some vs =>
          map (fun v => {| vd_type := vd_type v;
                           vd_severity := vd_severity v;
                           vd_message := vd_message v;
                           vd_confidence := vd_confidence v;
                           vd_timestamp := now;
                           vd_snapshot_base64 := snapshot_base64 result |}) vs
      | None => []
      end
  | Some (violation v) => [v]
  | Some (audio_level _) => []
  | Some pong => []
  | Some (unknown _) => []
  | None => []
  end.

Definition sendFrame (frameBase64 : string) (audioLevel : option number)
           (overrideStudentName : option string) (h : Hook) : Completion Hook :=
  let currentStudentName := or_else overrideStudentName (studentName opts) in
  match wsRef h, current_readyState h with
  | Some id, Some OPEN =>
      ws_send id (frame frameBase64 (calibratedPitch opts) (calibratedYaw opts)
                        (examId opts) (studentId opts) currentStudentName
                        (subjectCode opts) (subjectName opts) audioLevel) h
  | _, _ => Normal h
  end.

Definition sendAudioLevel (audioLevel : number) (h : Hook) : Completion Hook :=
  match wsRef h, current_readyState h with
  | Some id, Some OPEN =>
      ws_send id (audio audioLevel (examId opts) (studentId opts) (studentName opts)
                        (subjectCode opts) (subjectName opts)) h
  | _, _ => Normal h
  end.

Definition sendBrowserActivity (violationType message : string) (h : Hook) : Completion Hook :=
  match wsRef h, current_readyState h with
  | Some id, Some OPEN =>
      ws_send id (browser_activity violationType message (examId opts) (studentId opts)
                                   (studentName opts) (subjectCode opts) (subjectName opts)) h
  | _, _ => Normal h
  end.

Definition disconnect (h : Hook) : Hook :=
  let h := match reconnectTimeoutRef h with
           | Some tid => clearTimeout tid h
           | None => h
           end in
  let h := match wsRef h with
           | Some id => set_wsRef None (ws_close id h)
           | None => h
           end in
  setIsConnected false h.

(** The heartbeat interval's callback. *)
Definition heartbeat (h : Hook) : Completion Hook :=
  match wsRef h, current_readyState h with
  | Some id, Some OPEN => ws_send id ping h
  | _, _ => Normal h
  end.

(** The connect effect, [useEffect(..., [enabled, sessionId, connect,
    disconnect])]: [connect] is memoised on [reconnectAttempts], so a
    render that sees a new counter value runs the old effect's cleanup
    ([disconnect]) and then the effect again with the new [connect]. *)
Definition render (before after : Hook) : Hook :=
  if Nat.eqb (reconnectAttempts after) (reconnectAttempts before) then after
  else connect (reconnectAttempts after) (disconnect after).

(** First render: the effect connects with the initial counter. *)
Definition mount : Hook := connect 0 initial.

(** What the browser delivers to the hook, and what it does to a socket
    on its own.  [PeerClosing] is the start of the closing handshake by
    the server: the browser moves an open socket to CLOSING and runs no
    handler; the close event follows later. *)
Inductive Event : Type :=
| Open (id : nat)
| Error (id : nat)
| Close (id : nat)
| PeerClosing (id : nat)
| Message (id : nat) (now : string) (data : option Inbound)
| TimeoutFired (tid : nat)
| Heartbeat.

Definition socket_in (id : nat) (states : list ReadyState) (h : Hook) : bool :=
  match nth_error (sockets h) id with
  | Some w => existsb (ReadyState_eqb (readyState w)) states
  | None => false
  end.

(** When the browser can deliver an event. *)
Definition fires (e : Event) (h : Hook) : bool :=
  match e with
  | Open id => socket_in id [CONNECTING] h
  | Error id => socket_in id [CONNECTING; OPEN; CLOSING] h
  | Close id => socket_in id [CONNECTING; OPEN; CLOSING] h
  | PeerClosing id => socket_in id [OPEN] h
  | Message id _ _ => socket_in id [OPEN] h
  | TimeoutFired tid =>
      match nth_error (timeouts h) tid with
      | Some t => pending t
      | None => false
      end
  | Heartbeat => isConnected h
  end.

Definition captured (id : nat) (h : Hook) : nat :=
  match nth_error (sockets h) id with
  | Some w => attempts w
  | None => 0
  end.

(** The handler that runs for an event, after the browser's own change
    to the socket or timer, with the violations it hands to the page. *)
Definition handle (e : Event) (h : Hook) : Hook * list ViolationData :=
  match e with
  | Open id =>
      (onopen id (set_sockets (update id (set_readyState OPEN) (sockets h)) h), [])
  | Error id => (onerror id h, [])
  | Close id =>
      (onclose (captured id h)
               (set_sockets (update id (set_readyState CLOSED) (sockets h)) h), [])
  | PeerClosing id =>
      (set_sockets (update id (set_readyState CLOSING) (sockets h)) h, [])
  | Message id now data => (h, onmessage now data)
  | TimeoutFired tid =>
      match nth_error (timeouts h) tid with
      | Some t => (reconnect_callback (timeout_attempts t) (expire tid h), [])
      | None => (h, [])
      end
  | Heartbeat =>
      match heartbeat h with
      | Normal h' => (h', [])
      | Throw _ h' => (h', [])
      end
  end.

(** One event-loop turn: the handler, then the render it causes. *)
Definition step (e : Event) (h : Hook) : Hook * list ViolationData :=
  if fires e h then
    let (h', vs) := handle e h in (render h h', vs)
  else (h, []).

Fixpoint run (es : list Event) (h : Hook) : Hook :=
  match es with
  | [] => h
  | e :: rest => run rest (fst (step e h))
  end.

(** Whether the browser can deliver the events one after the other. *)
Fixpoint deliverable (es : list Event) (h : Hook) : bool :=
  match es with
  | [] => true
  | e :: rest => fires e h && deliverable rest (fst (step e h))
  end.

(** The delays of the timers in a given status, oldest first. *)
Definition delays (s : TimeoutStatus) (h : Hook) : list Z :=
  map delay (filter (fun t => match status t, s with
                              | scheduled, scheduled | fired, fired | cleared, cleared => true
                              | _, _ => false
                              end) (timeouts h)).

(** The state after a sequence of events, from the first render. *)
Definition after (es : list Event) : Hook := run es mount.

(** A server that cannot be reached, seen from the browser.  The first
    socket fails (error, then close) and its 1000ms timer fires.  From
    then on every firing leaves two sockets: the one the timer callback
    opened, which the re-run effect closed at once, and the one the effect
    opened.  In round [r] both report their failure, and the timer set by
    the former, the older and shorter of the two, fires. *)
Definition unreachable_round (r : nat) : list Event :=
  [ Error (2 * r + 1); Close (2 * r + 1);
    Error (2 * r + 2); Close (2 * r + 2);
    TimeoutFired (2 * r + 1) ].

Fixpoint unreachable_rounds (from n : nat) : list Event :=
  match n with
  | O => []
  | S m => (unreachable_round from ++ unreachable_rounds (S from) m)%list
  end.

Definition unreachable (n : nat) : list Event :=
  (Error 0 :: Close 0 :: TimeoutFired 0 :: unreachable_rounds 0 n)%list.

End Client.

End ProctoringWebSocket.

(** ** pages/StudentExam.tsx: counters, browser-activity listeners, sampler *)

Module StudentExam.
Import Js.
Import ProctoringWebSocket.

(** The component's state and refs that the monitoring code touches,
    with the hook it owns. *)
Record Page : Type := mkPage {
  violationCount : nat;
  recentWarnings : list string;
  audioLevel : number;
  tabSwitchCount : nat;
  copyPasteCount : nat;
  windowFocused : bool;
  studentNameRef : string;
  notifications : list Toast;
  ws : Hook
}.

Definition setViolationCount (f : nat -> nat) (p : Page) : Page :=
  mkPage (f (violationCount p)) (recentWarnings p) (audioLevel p) (tabSwitchCount p)
         (copyPasteCount p) (windowFocused p) (studentNameRef p) (notifications p) (ws p).

Definition setRecentWarnings (f : list string -> list string) (p : Page) : Page :=
  mkPage (violationCount p) (f (recentWarnings p)) (audioLevel p) (tabSwitchCount p)
         (copyPasteCount p) (windowFocused p) (studentNameRef p) (notifications p) (ws p).

Definition setAudioLevel (l : number) (p : Page) : Page :=
  mkPage (violationCount p) (recentWarnings p) l (tabSwitchCount p)
         (copyPasteCount p) (windowFocused p) (studentNameRef p) (notifications p) (ws p).

Definition setTabSwitchCount (f : nat -> nat) (p : Page) : Page :=
  mkPage (violationCount p) (recentWarnings p) (audioLevel p) (f (tabSwitchCount p))
         (copyPasteCount p) (windowFocused p) (studentNameRef p) (notifications p) (ws p).

Definition setCopyPasteCount (f : nat -> nat) (p : Page) : Page :=
  mkPage (violationCount p) (recentWarnings p) (audioLevel p) (tabSwitchCount p)
         (f (copyPasteCount p)) (windowFocused p) (studentNameRef p) (notifications p) (ws p).

Definition setWindowFocused (b : bool) (p : Page) : Page :=
  mkPage (violationCount p) (recentWarnings p) (audioLevel p) (tabSwitchCount p)
         (copyPasteCount p) b (studentNameRef p) (notifications p) (ws p).

(** A toast raised by page code.  The page and the hook call the same
    toaster, which is the [toasts] list kept with the hook's record;
    [notifications] lists the page's own calls. *)
Definition notify (t : Toast) (p : Page) : Page :=
  mkPage (violationCount p) (recentWarnings p) (audioLevel p) (tabSwitchCount p)
         (copyPasteCount p) (windowFocused p) (studentNameRef p) (notifications p ++ [t])
         (toast t (ws p)).

Definition set_ws (h : Hook) (p : Page) : Page :=
  mkPage (violationCount p) (recentWarnings p) (audioLevel p) (tabSwitchCount p)
         (copyPasteCount p) (windowFocused p) (studentNameRef p) (notifications p) h.

(** A call into the hook from page code: the hook's state is replaced by
    what the call leaves, whether it returned or threw. *)
Definition in_hook (c : Completion Hook) (p : Page) : Completion Page :=
  match c with
  | Normal h => Normal (set_ws h p)
  | Throw e h => Throw e (set_ws h p)
  end.

Definition state {S : Type} (c : Completion S) : S :=
  match c with Normal s => s | Throw _ s => s end.

(** [s.charAt(0).toUpperCase() + s.slice(1)] on ASCII text. *)
Definition capitalize (s : string) : string :=
  match s with
  | EmptyString => EmptyString
  | String a rest =>
      let n := nat_of_ascii a in
      String (if Nat.leb 97 n && Nat.leb n 122 then ascii_of_nat (n - 32) else a) rest
  end.

(** The video element as the sampler sees it. *)
Record VideoElement : Type := {
  videoWidth : N;
  videoHeight : N
}.

(** What one sampler tick reads from the browser: [videoRef.current],
    whether [streamRef.current] is set, whether the canvas gives a 2d
    context, the data URL the canvas encodes, and the normalised level
    computed from the analyser ([None] when [analyserRef.current] is
    null). *)
Record Media : Type := {
  video : option VideoElement;
  stream : bool;
  context2d : bool;
  dataURL : string;
  analyser : option number
}.

(** The hook's options in the first render, when neither the student nor
    the exam id is loaded.  The mount effect starts [initializeMonitoring],
    so the sampler's interval callback holds the [sendFrame] and the
    [sendAudioLevel] of that render. *)
Definition first_render : Options :=
  {| sessionId := ""; examId := ""; studentId := ""; studentName := "";
     subjectCode := ""; subjectName := "";
     calibratedPitch := 0%Q; calibratedYaw := 0%Q; enabled := false |}.

Section Exam.
Variable WS_URL : string.
Variable accepts : string -> bool.
Variable opts : Options.

(** The [onViolation] handler given to the hook. *)
Definition onViolation (v : ViolationData) (p : Page) : Page :=
  let p := setViolationCount (fun prev => prev + 1) p in
  let message :=
    if truthy (vd_message v) then vd_message v
    else replace_all_char underscore " " (vd_type v) in
  let p := setRecentWarnings (fun prev => firstn 3 (message :: prev)) p in
  notify (toast_error ("Violation: " ++ message)) p.

(** [handleVisibilityChange], with [hidden] the value of [document.hidden]. *)
Definition handleVisibilityChange (hidden : bool) (p : Page) : Completion Page :=
  let c :=
    if hidden then
      let p := setTabSwitchCount (fun prev => prev + 1) p in
      if isConnected (ws p) then
        in_hook (sendBrowserActivity opts "tab_switch"
                   "Tab switched - student navigated away from exam page" (ws p)) p
      else Normal p
    else Normal p in
  match c with
  | Normal p => Normal (setWindowFocused (negb hidden) p)
  | Throw e p => Throw e p
  end.

(** [handleCopyPaste], with [type] the event's type. *)
Definition handleCopyPaste (type : string) (p : Page) : Completion Page :=
  let eventType := if String.eqb type "copy" then "copy" else "paste" in
  let p := setCopyPasteCount (fun prev => prev + 1) p in
  if isConnected (ws p) then
    in_hook (sendBrowserActivity opts "copy_paste"
               (capitalize eventType ++ " operation attempted") (ws p)) p
  else Normal p.

(** The interval callback installed by [startAIMonitoring].  Whatever
    is thrown after the first guard is caught and logged. *)
Definition samplerTick (m : Media) (p : Page) : Completion Page :=
  match video m, stream m with
  | Some v, true =>
      if N.eqb (videoWidth v) 0 || N.eqb (videoHeight v) 0 then Normal p
      else if negb (context2d m) then Normal p
      else
        let snapshot := dataURL m in
        let currentAudioLevel := match analyser m with Some l => l | None => 0%Q end in
        let p := setAudioLevel currentAudioLevel p in
        let currentStudentName := studentNameRef p in
        match sendFrame first_render snapshot (Some currentAudioLevel)
                        (Some currentStudentName) (ws p) with
        | Normal h =>
            Normal (set_ws (state (sendAudioLevel first_render currentAudioLevel h)) p)
        | Throw _ h => Normal (set_ws h p)
        end
  | _, _ => Normal p
  end.

(** The 100ms audio interval: it only refreshes the displayed level. *)
Definition audioTick (level : option number) (p : Page) : Page :=
  match level with
  | Some l => setAudioLevel l p
  | None => p
  end.

(** The page when monitoring starts, for a student called [name]. *)
Definition start (name : string) : Page :=
  mkPage 0 [] 0%Q 0 0 true (if truthy name then name else "Unknown Student") []
         (mount WS_URL accepts opts).

(** Everything that can reach the page while it is mounted. *)
Inductive Input : Type :=
| Socket (e : Event)
| VisibilityChange (hidden : bool)
| Clipboard (type : string)
| SamplerTick (m : Media)
| AudioTick (level : option number).

(** The violations a socket event hands to [onViolation]. *)
Definition deliveries (i : Input) (p : Page) : list ViolationData :=
  match i with
  | Socket e => snd (step WS_URL accepts opts e (ws p))
  | _ => []
  end.

(** One turn of the event loop.  The document listeners are attached
    only once [examId] and [studentData] are set, which is what
    [enabled] is. *)
Definition turn (i : Input) (p : Page) : Page :=
  match i with
  | Socket e =>
      let (h, vs) := step WS_URL accepts opts e (ws p) in
      fold_left (fun q v => onViolation v q) vs (set_ws h p)
  | VisibilityChange hidden =>
      if enabled opts then state (handleVisibilityChange hidden p) else p
  | Clipboard type =>
      if enabled opts then state (handleCopyPaste type p) else p
  | SamplerTick m => state (samplerTick m p)
  | AudioTick level => audioTick level p
  end.

Fixpoint session (ins : list Input) (p : Page) : Page :=
  match ins with
  | [] => p
  | i :: rest => session rest (turn i p)
  end.

(** The violations delivered along a session, oldest first. *)
Fixpoint delivered (ins : list Input) (p : Page) : list ViolationData :=
  match ins with
  | [] => []
  | i :: rest => deliveries i p ++ delivered rest (turn i p)
  end.

(** The message [onViolation] shows for a violation. *)
Definition warning_of (v : ViolationData) : string :=
  if truthy (vd_message v) then vd_message v
  else replace_all_char underscore " " (vd_type v).

Definition is_focus_loss (i : Input) : bool :=
  match i with VisibilityChange true => enabled opts | _ => false end.

Definition is_clipboard (i : Input) : bool :=
  match i with Clipboard _ => enabled opts | _ => false end.

End Exam.

(** The toast [onViolation] raises for a violation. *)
Definition toast_of (v : ViolationData) : Toast :=
  toast_error ("Violation: " ++ (if truthy (vd_message v) then vd_message v
                                 else replace_all_char underscore " " (vd_type v))).

(** An error toast whose text announces a violation. *)
Definition is_violation_toast (t : Toast) : bool :=
  match t with
  | toast_error text => String.prefix "Violation: " text
  | _ => false
  end.

(** Reading a displayed time back: the decimal number before the colon
    counts minutes, the one after it seconds. *)
Definition readNumber (s : string) : option nat :=
  option_map Nat.of_uint (NilZero.uint_of_string s).

Definition readTime (s : string) : option nat :=
  match readNumber (before_first ":" s), readNumber (after_first ":" s) with
  | Some m, Some sec => Some (m * 60 + sec)
  | _, _ => None
  end.

(** [formatTime] *)
Definition formatTime (seconds : nat) : string :=
  let mins := seconds / 60 in
  let secs := seconds mod 60 in
  padStart 2 "0" (toString mins) ++ ":" ++ padStart 2 "0" (toString secs).

(** The exam countdown: the displayed time, whether the one-second
    interval is still installed, and how often its callback has called
    [handleSubmit]. *)
Record Countdown : Type := {
  timeRemaining : nat;
  timer : bool;
  submits : nat
}.

(** The interval callback of the countdown. *)
Definition countdownTick (c : Countdown) : Countdown :=
  if timer c then
    if Nat.leb (timeRemaining c) 1
    then {| timeRemaining := 0; timer := false; submits := submits c + 1 |}
    else {| timeRemaining := timeRemaining c - 1; timer := true; submits := submits c |}
  else c.

Fixpoint countdown (ticks : nat) (c : Countdown) : Countdown :=
  match ticks with
  | O => c
  | S n => countdown n (countdownTick c)
  end.

(** The wait for the socket in [initializeMonitoring]: elapsed time, whether
    the 100ms interval is still installed, and how often
    [startAIMonitoring] was called. *)
Record ConnectionWait : Type := {
  elapsedTime : N;
  waiting : bool;
  monitoringStarts : nat
}.

Definition maxWaitTime : N := 10000.
Definition checkInterval : N := 100.

(** One check; [ready] is the value of
    [wsConnected && examId && studentData] that the callback sees. *)
Definition waitForConnection (ready : bool) (w : ConnectionWait) : ConnectionWait :=
  if waiting w then
    let elapsed := (elapsedTime w + checkInterval)%N in
    if ready then
      {| elapsedTime := elapsed; waiting := false; monitoringStarts := monitoringStarts w + 1 |}
    else if N.leb maxWaitTime elapsed then
      {| elapsedTime := elapsed; waiting := false; monitoringStarts := monitoringStarts w + 1 |}
    else {| elapsedTime := elapsed; waiting := true; monitoringStarts := monitoringStarts w |}
  else w.

Definition waitStart : ConnectionWait :=
  {| elapsedTime := 0%N; waiting := true; monitoringStarts := 0 |}.

Fixpoint checks (ready : list bool) (w : ConnectionWait) : ConnectionWait :=
  match ready with
  | [] => w
  | r :: rest => checks rest (waitForConnection r w)
  end.

End StudentExam.

(** ** utils/pdfGenerator: CSV export *)

Module PDFGenerator.
Import Js.

Definition number : Type := Q.

(** The keys of [details] that the export reads.  [details] is untyped
    JSON in the source; here every key is absent or holds a string, and
    [confidence] is absent or holds a number. *)
Record Details : Type := {
  student_id : option string;
  studentId : option string;
  student_name : option string;
  studentName : option string;
  subject_name : option string;
  subjectName : option string;
  subject_code : option string;
  subjectCode : option string;
  message : option string;
  confidence : option number
}.

(** interface ViolationData *)
Record ViolationData : Type := {
  id : string;
  violation_type : string;
  severity : string;
  timestamp : string;
  image_url : option string;
  details : option Details
}.

Definition headers : list string :=
  [ "Timestamp"; "Student ID"; "Student Name"; "Subject Name"; "Subject Code";
    "Violation Type"; "Severity"; "Details"; "Confidence";
    "Evidence Image URL"; "Has Evidence" ].

(** [v.details?.key] *)
Definition detail (key : Details -> option string) (v : ViolationData) : option string :=
  match details v with
  | Some d => key d
  | None => None
  end.

(** A key that is missing: undefined, or present with the empty string,
    which [||] treats alike. *)
Definition absent (o : option string) : Prop := o = None \/ o = Some "".

(** A number is falsy when it is zero. *)
Definition truthy_number (x : number) : bool := negb (Qeq_bool x 0).

(** A cell as it is written: quoted, with inner quotes doubled. *)
Definition quote (cell : string) : string :=
  String dquote (replace_all_char dquote (String dquote (String dquote EmptyString)) cell
                 ++ String dquote EmptyString).

Section CsvExport.
(** [new Date(t).toLocaleString()] *)
Variable toLocaleString : string -> string.
(** [(c * 100).toFixed(1)] *)
Variable percent_toFixed1 : number -> string.

(** The array built for one violation inside [violations.map]. *)
Definition row (v : ViolationData) : list string :=
  let studentId := or_else (or_opt (detail student_id v) (detail studentId v)) "ID Not Available" in
  let studentName := or_else (or_opt (detail student_name v) (detail studentName v)) "Name Not Available" in
  let subjectName := or_else (or_opt (detail subject_name v) (detail subjectName v)) "Subject Not Available" in
  let subjectCode := or_else (or_opt (detail subject_code v) (detail subjectCode v)) "Code Not Available" in
  [ toLocaleString (timestamp v);
    studentId;
    studentName;
    subjectName;
    subjectCode;
    replace_all_char underscore " " (violation_type v);
    severity v;
    or_else (detail message v) "No details available";
    match details v with
    | Some d =>
        match confidence d with
        | Some c => if truthy_number c then percent_toFixed1 c ++ "%" else "N/A"
        | None => "N/A"
        end
    | None => "N/A"
    end;
    or_else (image_url v) "No evidence captured";
    match image_url v with
    | Some u => if truthy u then "Yes" else "No"
    | None => "No"
    end ].

(** The lines that are joined into the document. *)
Definition lines (violations : list ViolationData) : list string :=
  join "," headers :: map (fun r => join "," (map quote r)) (map row violations).

Definition exportToCSV (violations : list ViolationData) : string :=
  join newline (lines violations).

End CsvExport.

(** A row of the [violations] table ([Tables.violations.Row] in
    integrations/supabase/types.ts).  The report pages hand the rows they
    read from the database to the export as they are; [severity] and
    [timestamp] can be null there, [violation_type] cannot. *)
Record StoredViolation : Type := {
  stored_id : string;
  stored_exam_id : option string;
  stored_student_id : option string;
  stored_violation_type : string;
  stored_severity : option string;
  stored_timestamp : option string;
  stored_image_url : option string;
  stored_details : option Details
}.

(** What the export reads in a stored row.  [v.severity] is used as a
    cell only, and every cell goes through [String(cell)], which makes
    the text null of null.  [v.timestamp] is used under [new Date(...)]
    only, and [new Date(null)] is the date of time value 0, the same as
    for the epoch's ISO text. *)
Definition as_exported (r : StoredViolation) : ViolationData :=
  {| id := stored_id r;
     violation_type := stored_violation_type r;
     severity := match stored_severity r with Some s => s | None => "null" end;
     timestamp := match stored_timestamp r with
                  | Some t => t
                  | None => "1970-01-01T00:00:00.000Z"
                  end;
     image_url := stored_image_url r;
     details := stored_details r |}.

(** In the specification's words: a cell fed from optional sources shows
    the first of them that is present and not empty, and its placeholder
    when none is. *)
Definition falls_back (first second : option string) (placeholder cell : string) : Prop :=
  (forall s, first = Some s -> s <> "" -> cell = s) /\
  (absent first -> forall s, second = Some s -> s <> "" -> cell = s) /\
  (absent first -> absent second -> cell = placeholder).

(** [exportToCSV] called with stored rows. *)
Definition exportStored (toLocaleString : string -> string)
           (percent_toFixed1 : number -> string) (rows : list StoredViolation) : string :=
  exportToCSV toLocaleString percent_toFixed1 (map as_exported rows).

(** One written line of the document, for the cells of a row. *)
Definition line (r : list string) : string := join "," (map quote r).

(** [v.image_url] as a condition. *)
Definition has_image (v : ViolationData) : bool :=
  match image_url v with
  | Some u => truthy u
  | None => false
  end.

(** The update of [violationCounts] for one violation.  The object is
    kept as an association list in insertion order. *)
Fixpoint bump (type : string) (counts : list (string * nat)) : list (string * nat) :=
  match counts with
  | [] => [(type, 1)]
  | (k, n) :: rest =>
      if String.eqb k type then (k, n + 1) :: rest
      else (k, n) :: bump type rest
  end.

(** The key under which a violation is counted:
    [v.violation_type || "unknown"]. *)
Definition counted_as (v : ViolationData) : string :=
  if truthy (violation_type v) then violation_type v else "unknown".

(** [violationCounts] in [generateStudentReport].  For a type that is
    [inherited], [violationCounts[type] || 0] finds a member of
    [Object.prototype], and what is assigned is text, not a number.  For
    the key [__proto__] that assignment is ignored and the table stays as
    it was; for every other inherited name the text becomes the entry,
    and the result is [None], no table of numbers. *)
Definition violationCounts (violations : list ViolationData) : option (list (string * nat)) :=
  fold_left (fun counts v =>
               match counts with
               | Some c => if String.eqb (counted_as v) "__proto__" then Some c
                           else if inherited (counted_as v) then None
                           else Some (bump (counted_as v) c)
               | None => None
               end)
            violations (Some []).

(** The count listed for a type, 0 when the type is not listed. *)
Fixpoint count_of (type : string) (counts : list (string * nat)) : nat :=
  match counts with
  | [] => 0
  | (k, n) :: rest => if String.eqb k type then n else count_of type rest
  end.

(** [s.replace(/[^a-zA-Z0-9_-]/g, "_").substring(0, 50)] *)
Definition sanitized (s : string) : string :=
  substring 0 50 (replace_unsafe "_" s).

(** [fileName] of the uploaded report; [now] is [Date.now()]. *)
Definition reportFileName (studentName studentId : string) (now : nat) : string :=
  let safeStudentName := if truthy studentName then studentName else "Unknown Student" in
  let safeStudentId := if truthy studentId then studentId else "Unknown" in
  sanitized safeStudentName ++ "_" ++ sanitized safeStudentId
  ++ "/reports/violation_report_" ++ toString now ++ ".pdf".

(** Vertical positions of the report, in the document's unit.  [yPos]
    after the student block, with or without the score block. *)
Definition separatorY (hasScore : bool) : nat :=
  40 + 8 + 8 + 8 + 8 + (if hasScore then 8 + 8 + 10 else 0) + 5.

(** [tableYPos] after the breakdown table of [types] rows. *)
Definition tableEnd (hasScore : bool) (types : nat) : nat :=
  separatorY hasScore + 56 + 15 + 10 * types.

(** [yPos] of the first detailed violation: after the table or on a new
    page, below the section title. *)
Definition detailsStart (hasScore : bool) (types : nat) : nat :=
  (if Nat.ltb 200 (tableEnd hasScore types) then 20 else tableEnd hasScore types + 10) + 10.

(** The loop over [violationsToShow]: for each violation, whether a page
    is added before it and the [yPos] it is drawn at. *)
Fixpoint detailLayout (yPos : nat) (violations : list ViolationData) : list (bool * nat) :=
  match violations with
  | [] => []
  | v :: rest =>
      let break := Nat.ltb 220 yPos in
      let y := if break then 20 else yPos in
      (break, y) :: detailLayout (y + (if has_image v then 45 else 30)) rest
  end.

(** The detailed section of a report whose breakdown table has [types]
    rows. *)
Definition detailedViolations (hasScore : bool) (types : nat) (violations : list ViolationData)
  : list (bool * nat) :=
  detailLayout (detailsStart hasScore types) (firstn 10 violations).

(** The loop of the evidence appendix, over the violations that have an
    image: the number printed, whether a page is added, and the position. *)
Fixpoint evidenceLayout (idx evidenceYPos : nat) (violations : list ViolationData)
  : list (nat * bool * nat) :=
  match violations with
  | [] => []
  | v :: rest =>
      let break := Nat.ltb 270 evidenceYPos in
      let y := if break then 20 else evidenceYPos in
      (idx + 1, break, y) :: evidenceLayout (idx + 1) (y + 7) rest
  end.

Definition evidenceAppendix (violations : list ViolationData) : list (nat * bool * nat) :=
  evidenceLayout 0 44 (filter has_image violations).

End PDFGenerator.

(** ** utils/aiDetection: post-processing of the object detector *)

Module AIProctorDetector.
Import Js.

(** A prediction of the COCO-SSD model. *)
Record Prediction : Type := {
  class : string;
  score : Q;
  bbox : list Q
}.

(** interface DetectionResult *)
Record DetectionResult : Type := {
  type : string;
  confidence : Q;
  timestamp : string;
  result_bbox : option (list Q)
}.

(** The double written [0.6]. *)
Definition confidenceThreshold : Q := 5404319552844595 # 9007199254740992.

(** The double written [0.9]. *)
Definition no_person_confidence : Q := 8106479329266893 # 9007199254740992.

Definition confident (p : Prediction) : bool := Qle_bool confidenceThreshold (score p).

Definition is_person (p : Prediction) : bool := String.eqb (class p) "person".

Definition is_phone (p : Prediction) : bool :=
  String.eqb (class p) "cell phone" || String.eqb (class p) "phone"
  || String.eqb (class p) "remote".

Definition is_suspicious (p : Prediction) : bool :=
  existsb (String.eqb (class p)) ["laptop"; "tablet"; "book"; "monitor"; "keyboard"; "mouse"].

(** [Math.max(first, ...rest)] *)
Definition maximum (first : Q) (rest : list Q) : Q :=
  fold_left (fun m x => if Qle_bool m x then x else m) rest first.

(** [detectObjects] after the model has answered.  [cocoModel] is [None]
    when the model is not loaded, in which case the method throws;
    otherwise it holds the model's predictions for the frame.  [now] is
    [new Date()]. *)
Definition detectObjects (cocoModel : option (list Prediction)) (now : string)
  : Completion (list DetectionResult) :=
  match cocoModel with
  | None => Throw "Models not initialized" []
  | Some predictions =>
      let confidePredictions := filter confident predictions in
      let persons := filter is_person confidePredictions in
      let person_violation :=
        match persons with
        | [] => [ {| type := "no_person"; confidence := no_person_confidence;
                     timestamp := now; result_bbox := None |} ]
        | [ _ ] => []
        | p :: others =>
            [ {| type := "multiple_person";
                 confidence := maximum (score p) (map score others);
                 timestamp := now; result_bbox := Some (bbox p) |} ]
        end in
      let phone_violation :=
        match filter is_phone confidePredictions with
        | [] => []
        | p :: _ => [ {| type := "phone"; confidence := score p;
                         timestamp := now; result_bbox := Some (bbox p) |} ]
        end in
      let object_violation :=
        match filter is_suspicious confidePredictions with
        | [] => []
        | p :: _ => [ {| type := "object"; confidence := score p;
                         timestamp := now; result_bbox := Some (bbox p) |} ]
        end in
      Normal (person_violation ++ phone_violation ++ object_violation)%list
  end.

(** What a completed call returned. *)
Definition returned {A : Type} (c : Completion (list A)) : list A :=
  match c with Normal l => l | Throw _ _ => [] end.

(** [violationCounts] of the detector, with the threshold of 3 for both
    kinds. *)
Record ViolationCounts : Type := {
  lookingAway : nat;
  audioNoise : nat
}.

Inductive Kind : Type := LookingAway | AudioNoise.

Definition violationThreshold (k : Kind) : nat := 3.

Definition incrementViolation (k : Kind) (c : ViolationCounts) : ViolationCounts * bool :=
  match k with
  | LookingAway =>
      ({| lookingAway := lookingAway c + 1; audioNoise := audioNoise c |},
       Nat.leb (violationThreshold k) (lookingAway c + 1))
  | AudioNoise =>
      ({| lookingAway := lookingAway c; audioNoise := audioNoise c + 1 |},
       Nat.leb (violationThreshold k) (audioNoise c + 1))
  end.

Definition resetViolation (k : Kind) (c : ViolationCounts) : ViolationCounts :=
  match k with
  | LookingAway => {| lookingAway := 0; audioNoise := audioNoise c |}
  | AudioNoise => {| lookingAway := lookingAway c; audioNoise := 0 |}
  end.

Definition counter (k : Kind) (c : ViolationCounts) : nat :=
  match k with LookingAway => lookingAway c | AudioNoise => audioNoise c end.

(** [n] calls in a row for one kind: the state and the last answer. *)
Fixpoint incrementTimes (n : nat) (k : Kind) (c : ViolationCounts) : ViolationCounts * bool :=
  match n with
  | O => (c, false)
  | S O => incrementViolation k c
  | S m => incrementTimes m k (fst (incrementViolation k c))
  end.

End AIProctorDetector.

(** ** A reader of comma-separated text

    The export is written for spreadsheet tools; this is the reading they
    do (RFC 4180): fields separated by commas, records by line feeds, a
    field either bare or quoted with inner quotes doubled. *)

Module CsvReader.
Import Js.

Inductive Mode : Type :=
| FieldStart
| Bare (field : string)
| Quoted (field : string)
| QuoteSeen (field : string).

Definition snoc (s : string) (c : ascii) : string := s ++ String c EmptyString.

(** [fields] and [records] are kept newest first. *)
Fixpoint read (mode : Mode) (fields : list string) (records : list (list string))
         (input : string) : option (list (list string)) :=
  match input with
  | EmptyString =>
      match mode with
      | FieldStart => Some (rev (rev (EmptyString :: fields) :: records))
      | Bare f | QuoteSeen f => Some (rev (rev (f :: fields) :: records))
      | Quoted _ => None
      end
  | String c rest =>
      let comma := Ascii.eqb c ","%char in
      let quote := Ascii.eqb c dquote in
      let feed := Ascii.eqb c (ascii_of_nat 10) in
      match mode with
      | FieldStart =>
          if quote then read (Quoted EmptyString) fields records rest
          else if comma then read FieldStart (EmptyString :: fields) records rest
          else if feed then read FieldStart [] (rev (EmptyString :: fields) :: records) rest
          else read (Bare (String c EmptyString)) fields records rest
      | Bare f =>
          if quote then None
          else if comma then read FieldStart (f :: fields) records rest
          else if feed then read FieldStart [] (rev (f :: fields) :: records) rest
          else read (Bare (snoc f c)) fields records rest
      | Quoted f =>
          if quote then read (QuoteSeen f) fields records rest
          else read (Quoted (snoc f c)) fields records rest
      | QuoteSeen f =>
          if quote then read (Quoted (snoc f c)) fields records rest
          else if comma then read FieldStart (f :: fields) records rest
          else if feed then read FieldStart [] (rev (f :: fields) :: records) rest
          else None
      end
  end.

Definition parse (text : string) : option (list (list string)) :=
  read FieldStart [] [] text.

End CsvReader.

(** * Concrete inputs *)

Definition sample_options : ProctoringWebSocket.Options :=
  {| ProctoringWebSocket.sessionId := "exam-42";
     ProctoringWebSocket.examId := "exam-42";
     ProctoringWebSocket.studentId := "s-7";
     ProctoringWebSocket.studentName := "Ada";
     ProctoringWebSocket.subjectCode := "CS101";
     ProctoringWebSocket.subjectName := "Computing";
     ProctoringWebSocket.calibratedPitch := 0%Q;
     ProctoringWebSocket.calibratedYaw := 0%Q;
     ProctoringWebSocket.enabled := true |}.

Definition sample_endpoint : string := "wss://proctor.example".

Definition sample_accepts (u : string) : bool :=
  String.prefix "ws://" u || String.prefix "wss://" u.

Definition service_violation : ProctoringWebSocket.ViolationData :=
  {| ProctoringWebSocket.vd_type := "phone_detected";
     ProctoringWebSocket.vd_severity := "high";
     ProctoringWebSocket.vd_message := "Mobile phone detected";
     ProctoringWebSocket.vd_confidence := Some (9 # 10)%Q;
     ProctoringWebSocket.vd_timestamp := "2025-01-01T00:00:00.000Z";
     ProctoringWebSocket.vd_snapshot_base64 := None |}.

Definition bare_violation : PDFGenerator.ViolationData :=
  {| PDFGenerator.id := "v-1";
     PDFGenerator.violation_type := "tab_switch";
     PDFGenerator.severity := "medium";
     PDFGenerator.timestamp := "2025-01-01T00:00:00.000Z";
     PDFGenerator.image_url := None;
     PDFGenerator.details := None |}.

(** A violation of the declared type whose severity is the empty text. *)
Definition blank_severity_violation : PDFGenerator.ViolationData :=
  {| PDFGenerator.id := "v-2";
     PDFGenerator.violation_type := "tab_switch";
     PDFGenerator.severity := "";
     PDFGenerator.timestamp := "2025-01-01T00:00:00.000Z";
     PDFGenerator.image_url := None;
     PDFGenerator.details := None |}.

(** A stored row with the nullable columns null. *)
Definition stored_without_severity : PDFGenerator.StoredViolation :=
  {| PDFGenerator.stored_id := "v-3";
     PDFGenerator.stored_exam_id := None;
     PDFGenerator.stored_student_id := None;
     PDFGenerator.stored_violation_type := "tab_switch";
     PDFGenerator.stored_severity := None;
     PDFGenerator.stored_timestamp := None;
     PDFGenerator.stored_image_url := None;
     PDFGenerator.stored_details := None |}.

Definition not_ready_media : StudentExam.Media :=
  {| StudentExam.video := Some {| StudentExam.videoWidth := 0%N; StudentExam.videoHeight := 0%N |};
     StudentExam.stream := true;
     StudentExam.context2d := true;
     StudentExam.dataURL := "data:,";
     StudentExam.analyser := Some 40%Q |}.

Definition four_at_once : ProctoringWebSocket.Inbound :=
  ProctoringWebSocket.detection_result
    {| ProctoringWebSocket.violations :=
         Some [service_violation; service_violation; service_violation; service_violation];
       ProctoringWebSocket.snapshot_base64 := None |}.

(** * Properties *)

(** ** Severity classification *)

Import ViolationLogger.

(** C7: [determineSeverity] depends on the violation type alone and is
    defined for every type: phone and multiple_person are high, object and
    no_person are medium, looking_away and audio_noise are low, and every
    other type is low; so each presence or object type ranks strictly
    above each gaze or audio type. *)
Theorem determineSeverity_by_type :
  determineSeverity "phone" = high /\
  determineSeverity "multiple_person" = high /\
  determineSeverity "object" = medium /\
  determineSeverity "no_person" = medium /\
  determineSeverity "looking_away" = low /\
  determineSeverity "audio_noise" = low /\
  (forall type : string,
      In type ["phone"; "multiple_person"; "object"; "no_person"] \/
      determineSeverity type = low) /\
  Forall (fun presence =>
            Forall (fun gaze =>
                      rank (determineSeverity gaze) < rank (determineSeverity presence))
                   ["looking_away"; "audio_noise"])
         ["phone"; "multiple_person"; "object"; "no_person"].
Proof.
  repeat split; try reflexivity.
  - intros type. unfold determineSeverity.
    destruct (String.eqb_spec type "phone") as [->|_]; [left; simpl; tauto|].
    destruct (String.eqb_spec type "multiple_person") as [->|_]; [left; simpl; tauto|].
    destruct (String.eqb_spec type "object") as [->|_]; [left; simpl; tauto|].
    destruct (String.eqb_spec type "no_person") as [->|_]; [left; simpl; tauto|].
    right.
    destruct (String.eqb type "looking_away"), (String.eqb type "audio_noise"); reflexivity.
  - repeat constructor.
Qed.

(** ** The streaming client: sending and connecting *)

Section ClientFacts.
Import Js ProctoringWebSocket.
Variable WS_URL : string.
Variable accepts : string -> bool.
Variable opts : Options.

Lemma send_guard (h : Hook) (k : nat -> Completion Hook) :
  current_readyState h <> Some OPEN ->
  match wsRef h, current_readyState h with
  | Some id, Some OPEN => k id
  | _, _ => Normal h
  end = Normal h.
Proof.
  intros Hn. destruct (wsRef h); [|reflexivity].
  destruct (current_readyState h) as [[]|]; try reflexivity.
  now elim Hn.
Qed.

End ClientFacts.

(** C4: whenever the current socket is absent or in any state but OPEN,
    each of the three send functions returns normally and leaves the whole
    client state, the wire and the connection state included, as it was. *)
Theorem send_when_not_open_is_noop
        (opts : ProctoringWebSocket.Options) (h : ProctoringWebSocket.Hook)
        (frameBase64 : string) (audioLevel : option ProctoringWebSocket.number)
        (overrideStudentName : option string) (level : ProctoringWebSocket.number)
        (violationType message : string) :
  ProctoringWebSocket.current_readyState h <> Some ProctoringWebSocket.OPEN ->
  ProctoringWebSocket.sendFrame opts frameBase64 audioLevel overrideStudentName h = Js.Normal h /\
  ProctoringWebSocket.sendAudioLevel opts level h = Js.Normal h /\
  ProctoringWebSocket.sendBrowserActivity opts violationType message h = Js.Normal h.
Proof.
  intros Hn. unfold ProctoringWebSocket.sendFrame, ProctoringWebSocket.sendAudioLevel,
    ProctoringWebSocket.sendBrowserActivity.
  repeat split; apply send_guard; exact Hn.
Qed.

Lemma send_when_not_open_is_noop_witness :
  let h := ProctoringWebSocket.mount sample_endpoint sample_accepts sample_options in
  ProctoringWebSocket.current_readyState h = Some ProctoringWebSocket.CONNECTING /\
  ProctoringWebSocket.sendFrame sample_options "data:image/jpeg;base64,AAAA" (Some 12%Q) (Some "Ada") h = Js.Normal h /\
  ProctoringWebSocket.sendAudioLevel sample_options 12%Q h = Js.Normal h /\
  ProctoringWebSocket.sendBrowserActivity sample_options "tab_switch" "Tab switched" h = Js.Normal h.
Proof.
  split; [reflexivity|].
  apply (send_when_not_open_is_noop sample_options
           (ProctoringWebSocket.mount sample_endpoint sample_accepts sample_options)).
  vm_compute. discriminate.
Defined.

(** C5 as stated fails: the socket is opened under /api/ws/proctoring/,
    not under /ws/proctoring/. *)
Lemma connect_path_is_not_ws_proctoring :
  option_map ProctoringWebSocket.url
    (nth_error (ProctoringWebSocket.sockets
                  (ProctoringWebSocket.mount sample_endpoint sample_accepts sample_options)) 0)
  = Some "wss://proctor.example/api/ws/proctoring/exam-42"
  /\ "wss://proctor.example/api/ws/proctoring/exam-42"
     <> sample_endpoint ++ "/ws/proctoring/" ++ ProctoringWebSocket.sessionId sample_options.
Proof.
  split; [reflexivity | vm_compute; discriminate].
Qed.

(** C5, amended: when the hook is enabled, the session id is not empty
    and the browser takes the URL, [connect] opens exactly one new socket,
    at the endpoint followed by /api/ws/proctoring/ and the session id,
    and makes it the current one. *)
Theorem connect_opens_api_ws_proctoring
        (WS_URL : string) (accepts : string -> bool) (opts : ProctoringWebSocket.Options) (k : nat)
        (h : ProctoringWebSocket.Hook) :
  ProctoringWebSocket.enabled opts = true ->
  ProctoringWebSocket.sessionId opts <> "" ->
  accepts (WS_URL ++ "/api/ws/proctoring/" ++ ProctoringWebSocket.sessionId opts) = true ->
  let h' := ProctoringWebSocket.connect WS_URL accepts opts k h in
  ProctoringWebSocket.sockets h' =
    (ProctoringWebSocket.sockets h ++
      [ {| ProctoringWebSocket.url := WS_URL ++ "/api/ws/proctoring/" ++ ProctoringWebSocket.sessionId opts;
           ProctoringWebSocket.attempts := k;
           ProctoringWebSocket.readyState := ProctoringWebSocket.CONNECTING |} ])%list /\
  ProctoringWebSocket.wsRef h' = Some (List.length (ProctoringWebSocket.sockets h)).
Proof.
  intros He Hs Ha. unfold ProctoringWebSocket.connect. rewrite He, Ha.
  destruct (ProctoringWebSocket.sessionId opts) as [|a s] eqn:E; [now elim Hs|].
  cbn [negb orb Js.truthy]. split; reflexivity.
Qed.

Lemma connect_opens_api_ws_proctoring_witness :
  let h' := ProctoringWebSocket.connect sample_endpoint sample_accepts sample_options 0
              ProctoringWebSocket.initial in
  ProctoringWebSocket.sockets h' =
    [ {| ProctoringWebSocket.url := "wss://proctor.example/api/ws/proctoring/exam-42";
         ProctoringWebSocket.attempts := 0;
         ProctoringWebSocket.readyState := ProctoringWebSocket.CONNECTING |} ] /\
  ProctoringWebSocket.wsRef h' = Some 0.
Proof.
  apply (connect_opens_api_ws_proctoring sample_endpoint sample_accepts sample_options 0
           ProctoringWebSocket.initial); [reflexivity | discriminate | reflexivity].
Defined.

(** ** The sampler *)

(** C6: a sampler tick that finds the video with zero width or zero height
    returns normally and changes nothing: no audio level is stored and
    nothing is sent. *)
Theorem samplerTick_skips_zero_dimension
        (m : StudentExam.Media)
        (v : StudentExam.VideoElement) (p : StudentExam.Page) :
  StudentExam.video m = Some v ->
  StudentExam.videoWidth v = 0%N \/ StudentExam.videoHeight v = 0%N ->
  StudentExam.samplerTick m p = Js.Normal p.
Proof.
  intros Hv Hz. unfold StudentExam.samplerTick. rewrite Hv.
  destruct (StudentExam.stream m); [|reflexivity].
  destruct Hz as [-> | ->]; simpl; [reflexivity|].
  now rewrite orb_true_r.
Qed.

Lemma samplerTick_skips_zero_dimension_witness :
  StudentExam.samplerTick not_ready_media
    (StudentExam.start sample_endpoint sample_accepts sample_options "Ada")
  = Js.Normal (StudentExam.start sample_endpoint sample_accepts sample_options "Ada").
Proof.
  apply (samplerTick_skips_zero_dimension not_ready_media
           {| StudentExam.videoWidth := 0%N; StudentExam.videoHeight := 0%N |});
    [reflexivity | left; reflexivity].
Defined.

(** ** Inbound messages *)

(** C9: for a detection_result carrying violations, the handler receives
    one violation per entry, in order, each with the local receive time as
    its timestamp whatever the service wrote there (and with the result's
    snapshot), the other fields kept; a standalone violation message is
    handed over as it came. *)
Theorem onmessage_restamps_detection_results
        (now : string) (vs : list ProctoringWebSocket.ViolationData)
        (snapshot : option string) (v : ProctoringWebSocket.ViolationData) :
  let delivered :=
    ProctoringWebSocket.onmessage now
      (Some (ProctoringWebSocket.detection_result
               {| ProctoringWebSocket.violations := Some vs;
                  ProctoringWebSocket.snapshot_base64 := snapshot |})) in
  List.length delivered = List.length vs /\
  Forall (fun d => ProctoringWebSocket.vd_timestamp d = now) delivered /\
  Forall (fun d => ProctoringWebSocket.vd_snapshot_base64 d = snapshot) delivered /\
  map ProctoringWebSocket.vd_type delivered = map ProctoringWebSocket.vd_type vs /\
  map ProctoringWebSocket.vd_severity delivered = map ProctoringWebSocket.vd_severity vs /\
  map ProctoringWebSocket.vd_message delivered = map ProctoringWebSocket.vd_message vs /\
  map ProctoringWebSocket.vd_confidence delivered = map ProctoringWebSocket.vd_confidence vs /\
  ProctoringWebSocket.onmessage now (Some (ProctoringWebSocket.violation v)) = [v].
Proof.
  simpl. repeat split.
  - apply length_map.
  - induction vs; simpl; constructor; auto.
  - induction vs; simpl; constructor; auto.
  - induction vs; simpl; congruence.
  - induction vs; simpl; congruence.
  - induction vs; simpl; congruence.
  - induction vs; simpl; congruence.
Qed.

(** ** CSV export *)

Section CsvFacts.
Import Js PDFGenerator.

Lemma or_else_truthy (a : option string) (b : string) :
  truthy b = true -> truthy (or_else a b) = true.
Proof.
  intros Hb. unfold or_else. destruct a as [s|]; [|exact Hb].
  destruct (truthy s) eqn:E; auto.
Qed.

Lemma truthy_nonempty (s : string) : truthy s = true -> s <> "".
Proof. destruct s; simpl; congruence. Qed.

Lemma append_nonempty_r (a b : string) : b <> "" -> a ++ b <> "".
Proof. destruct a; simpl; [auto | discriminate]. Qed.

End CsvFacts.

(** ** The streaming client: reconnection *)

Section ReconnectFacts.
Import Js ProctoringWebSocket.
Variable WS_URL : string.
Variable accepts : string -> bool.
Variable opts : Options.

Lemma map_update_invariant {A B : Type} (g : A -> B) (f : A -> A) (n : nat) (l : list A) :
  (forall x, g (f x) = g x) -> map g (update n f l) = map g l.
Proof.
  intros Hg. revert n. induction l as [|x l IH]; intros [|n]; simpl; auto.
  - now rewrite Hg.
  - now rewrite IH.
Qed.

Lemma captured_fresh (h : Hook) (c : nat) :
  current_fresh h -> wsRef h = Some c -> captured c h = reconnectAttempts h.
Proof.
  intros Hf Hc. specialize (Hf c Hc). unfold captured.
  rewrite nth_error_map in Hf.
  destruct (nth_error (sockets h) c); simpl in Hf; congruence.
Qed.

Lemma disconnect_wsRef (h : Hook) : wsRef (disconnect h) = None.
Proof.
  unfold disconnect, clearTimeout, set_timeouts.
  destruct (reconnectTimeoutRef h); simpl; destruct (wsRef h) eqn:E; simpl;
    rewrite ?E; reflexivity.
Qed.

Lemma disconnect_reconnectAttempts (h : Hook) :
  reconnectAttempts (disconnect h) = reconnectAttempts h.
Proof.
  unfold disconnect, clearTimeout, set_timeouts.
  destruct (reconnectTimeoutRef h); simpl; destruct (wsRef h) eqn:E; simpl;
    rewrite ?E; reflexivity.
Qed.

Lemma connect_reconnectAttempts (k : nat) (h : Hook) :
  reconnectAttempts (connect WS_URL accepts opts k h) = reconnectAttempts h.
Proof.
  unfold connect.
  destruct (negb (enabled opts) || negb (truthy (sessionId opts))); [reflexivity|].
  destruct (accepts _); reflexivity.
Qed.

Lemma connect_fresh (h : Hook) :
  wsRef h = None -> current_fresh (connect WS_URL accepts opts (reconnectAttempts h) h).
Proof.
  intros Hn c. unfold connect.
  destruct (negb (enabled opts) || negb (truthy (sessionId opts))).
  - rewrite Hn. discriminate.
  - destruct (accepts _).
    + simpl. intros [= <-]. rewrite map_app, nth_error_app2; rewrite length_map; [|lia].
      now rewrite Nat.sub_diag.
    + simpl. rewrite Hn. discriminate.
Qed.

Lemma render_fresh (before after : Hook) :
  (reconnectAttempts after = reconnectAttempts before -> current_fresh after) ->
  current_fresh (render WS_URL accepts opts before after).
Proof.
  intros H. unfold render.
  destruct (Nat.eqb_spec (reconnectAttempts after) (reconnectAttempts before)) as [E|E]; auto.
  rewrite <- (disconnect_reconnectAttempts after).
  apply connect_fresh, disconnect_wsRef.
Qed.

Lemma fresh_same (h h' : Hook) :
  wsRef h' = wsRef h ->
  reconnectAttempts h' = reconnectAttempts h ->
  map attempts (sockets h') = map attempts (sockets h) ->
  current_fresh h -> current_fresh h'.
Proof.
  intros Hw Hr Hs Hf c Hc. rewrite Hs, Hr. apply Hf. congruence.
Qed.

Lemma onclose_same (k : nat) (h : Hook) :
  wsRef (onclose opts k h) = wsRef h /\
  reconnectAttempts (onclose opts k h) = reconnectAttempts h /\
  sockets (onclose opts k h) = sockets h.
Proof.
  unfold onclose.
  destruct (enabled opts && Nat.ltb k maxReconnectAttempts); [repeat split|].
  destruct (Nat.leb maxReconnectAttempts k); repeat split.
Qed.

Lemma ws_send_same (id : nat) (m : Outbound) (h : Hook) :
  let h' := match ws_send id m h with Normal x => x | Throw _ x => x end in
  wsRef h' = wsRef h /\ reconnectAttempts h' = reconnectAttempts h /\
  sockets h' = sockets h /\ isConnected h' = isConnected h.
Proof.
  unfold ws_send.
  destruct (option_map readyState (nth_error (sockets h) id)) as [[]|]; repeat split.
Qed.

Lemma step_fresh (e : Event) (h : Hook) :
  current_fresh h -> current_fresh (fst (step WS_URL accepts opts e h)).
Proof.
  intros Hf. unfold step. destruct (fires e h); [|exact Hf].
  destruct e as [id|id|id|id|id now data|tid|]; simpl.
  - apply render_fresh. simpl. intros E c Hc. simpl in *.
    rewrite map_update_invariant by reflexivity. rewrite E. now apply Hf.
  - apply render_fresh. intros _. revert Hf. now apply fresh_same.
  - apply render_fresh. intros _.
    destruct (onclose_same (captured id h)
                (set_sockets (update id (set_readyState CLOSED) (sockets h)) h)) as (Hw & Hr & Hs).
    revert Hf. apply fresh_same; [exact Hw | exact Hr |].
    rewrite Hs. simpl. now apply map_update_invariant.
  - apply render_fresh. intros _. revert Hf.
    apply fresh_same; [reflexivity | reflexivity |].
    simpl. now apply map_update_invariant.
  - apply render_fresh. intros _. exact Hf.
  - destruct (nth_error (timeouts h) tid) as [t|]; simpl.
    + apply render_fresh. unfold reconnect_callback.
      rewrite connect_reconnectAttempts. simpl. lia.
    + apply render_fresh. intros _. exact Hf.
  - unfold heartbeat.
    destruct (wsRef h) as [c|] eqn:Ec; simpl; [|apply render_fresh; intros _; exact Hf].
    destruct (current_readyState h) as [[]|]; simpl;
      try (apply render_fresh; intros _; exact Hf).
    pose proof (ws_send_same c ping h) as (Hw & Hr & Hs & _).
    destruct (ws_send c ping h); simpl in *;
      apply render_fresh; intros _; revert Hf; apply fresh_same; congruence.
Qed.

Lemma run_app (es1 es2 : list Event) (h : Hook) :
  run WS_URL accepts opts (es1 ++ es2) h =
  run WS_URL accepts opts es2 (run WS_URL accepts opts es1 h).
Proof.
  revert h. induction es1 as [|e es1 IH]; intros h; simpl; [reflexivity|apply IH].
Qed.

Lemma mount_fresh : current_fresh (mount WS_URL accepts opts).
Proof.
  unfold mount. apply (connect_fresh initial). reflexivity.
Qed.

Lemma run_fresh (es : list Event) (h : Hook) :
  current_fresh h -> current_fresh (run WS_URL accepts opts es h).
Proof.
  revert h. induction es as [|e es IH]; intros h Hf; simpl; [exact Hf|].
  apply IH, step_fresh, Hf.
Qed.

Lemma after_fresh (es : list Event) : current_fresh (after WS_URL accepts opts es).
Proof. apply run_fresh, mount_fresh. Qed.

(** What [onclose] does, by the counter its closure holds: below the
    bound it sets one timer with the doubled, capped delay; from the bound
    on it sets none and raises the error toast. *)
Lemma onclose_below_bound (k : nat) (h : Hook) :
  enabled opts = true -> k < maxReconnectAttempts ->
  timeouts (onclose opts k h) =
    (timeouts h ++ [ {| delay := reconnect_delay k; timeout_attempts := k; status := scheduled |} ])%list /\
  reconnectTimeoutRef (onclose opts k h) = Some (List.length (timeouts h)) /\
  toasts (onclose opts k h) = toasts h.
Proof.
  intros He Hk. unfold onclose. rewrite He.
  apply Nat.ltb_lt in Hk. rewrite Hk. simpl. repeat split.
Qed.

Lemma onclose_at_bound (k : nat) (h : Hook) :
  maxReconnectAttempts <= k ->
  timeouts (onclose opts k h) = timeouts h /\
  toasts (onclose opts k h) =
    (toasts h ++ [ toast_error "Unable to connect to proctoring service." ])%list.
Proof.
  intros Hk. unfold onclose.
  assert (Nat.ltb k maxReconnectAttempts = false) as -> by (apply Nat.ltb_ge; exact Hk).
  rewrite andb_false_r. apply Nat.leb_le in Hk. rewrite Hk. split; reflexivity.
Qed.

(** In any run, when the current socket closes, its handler works from
    the current value of the counter. *)
Lemma close_of_current (es : list Event) (c : nat) :
  let h := after WS_URL accepts opts es in
  wsRef h = Some c ->
  fires (Close c) h = true ->
  let h' := fst (step WS_URL accepts opts (Close c) h) in
  reconnectAttempts h' = reconnectAttempts h /\
  timeouts h' = timeouts (onclose opts (reconnectAttempts h) h) /\
  reconnectTimeoutRef h' = reconnectTimeoutRef (onclose opts (reconnectAttempts h) h) /\
  toasts h' = toasts (onclose opts (reconnectAttempts h) h).
Proof.
  intros h Hc Hfire h'. subst h'. unfold step. rewrite Hfire.
  cbn [handle fst]. rewrite (captured_fresh h c (after_fresh es) Hc).
  set (hc := set_sockets _ h).
  destruct (onclose_same (reconnectAttempts h) hc) as (_ & Hr & _).
  unfold render. rewrite Hr. change (reconnectAttempts hc) with (reconnectAttempts h).
  rewrite Nat.eqb_refl. cbn [fst]. split; [exact Hr|].
  unfold onclose, hc.
  destruct (enabled opts && Nat.ltb (reconnectAttempts h) maxReconnectAttempts);
    [repeat split|].
  destruct (Nat.leb maxReconnectAttempts (reconnectAttempts h)); repeat split.
Qed.

End ReconnectFacts.

Example reconnect_delay_schedule :
  map ProctoringWebSocket.reconnect_delay [0; 1; 2; 3; 4; 5; 49]
  = [1000; 2000; 4000; 8000; 16000; 30000; 30000]%Z.
Proof. reflexivity. Qed.

Example getWebSocketURL_from_api_url :
  ProctoringWebSocket.getWebSocketURL
    {| ProctoringWebSocket.VITE_PROCTORING_WS_URL := None;
       ProctoringWebSocket.VITE_PROCTORING_API_URL := Some "https://api.proctor.example" |}
  = "wss://api.proctor.example".
Proof. reflexivity. Qed.

(** X25: in any run, when a socket's open event is handled the reconnect
    counter is 0 afterwards, and so is the counter held by the handlers of
    the socket that is current after the re-render (which need not be the
    socket that opened); if that socket closes next, exactly one reconnect
    is scheduled, at the base delay of 1000ms, with no error toast. *)
Theorem socket_current_after_open_restarts_backoff
        (WS_URL : string) (accepts : string -> bool) (opts : ProctoringWebSocket.Options)
        (es : list ProctoringWebSocket.Event) (id : nat) :
  ProctoringWebSocket.enabled opts = true ->
  let h := ProctoringWebSocket.after WS_URL accepts opts es in
  ProctoringWebSocket.fires (ProctoringWebSocket.Open id) h = true ->
  let h' := fst (ProctoringWebSocket.step WS_URL accepts opts (ProctoringWebSocket.Open id) h) in
  ProctoringWebSocket.reconnectAttempts h' = 0 /\
  ProctoringWebSocket.maxReconnectAttempts - ProctoringWebSocket.reconnectAttempts h' = 50 /\
  forall c,
    ProctoringWebSocket.wsRef h' = Some c ->
    ProctoringWebSocket.captured c h' = 0 /\
    (ProctoringWebSocket.fires (ProctoringWebSocket.Close c) h' = true ->
     let h'' := fst (ProctoringWebSocket.step WS_URL accepts opts (ProctoringWebSocket.Close c) h') in
     ProctoringWebSocket.timeouts h'' =
       (ProctoringWebSocket.timeouts h' ++
          [ {| ProctoringWebSocket.delay := 1000;
               ProctoringWebSocket.timeout_attempts := 0;
               ProctoringWebSocket.status := ProctoringWebSocket.scheduled |} ])%list /\
     ProctoringWebSocket.reconnectTimeoutRef h'' =
       Some (List.length (ProctoringWebSocket.timeouts h')) /\
     ProctoringWebSocket.toasts h'' = ProctoringWebSocket.toasts h' /\
     ProctoringWebSocket.reconnectAttempts h'' = 0).
Proof.
  intros He h Hfire h'.
  assert (H0 : ProctoringWebSocket.reconnectAttempts h' = 0).
  { subst h'. unfold ProctoringWebSocket.step. rewrite Hfire. simpl.
    unfold ProctoringWebSocket.render. simpl.
    destruct (ProctoringWebSocket.reconnectAttempts h); [reflexivity|].
    rewrite connect_reconnectAttempts, disconnect_reconnectAttempts. reflexivity. }
  split; [exact H0|]. split; [rewrite H0; reflexivity|].
  intros c Hc.
  assert (Hrun : h' = ProctoringWebSocket.after WS_URL accepts opts
                        (es ++ [ProctoringWebSocket.Open id])).
  { unfold ProctoringWebSocket.after. rewrite run_app. reflexivity. }
  split.
  { rewrite (captured_fresh h' c); [exact H0 | | exact Hc].
    rewrite Hrun. apply after_fresh. }
  intros Hclose h''. subst h''. rewrite Hrun in Hc, Hclose |- *.
  destruct (close_of_current WS_URL accepts opts _ c Hc Hclose) as (Hr & Ht & Href & Hto).
  rewrite <- Hrun in *. rewrite Hr, Ht, Href, Hto, H0.
  destruct (onclose_below_bound opts 0 h' He) as (Ht' & Href' & Hto').
  { unfold ProctoringWebSocket.maxReconnectAttempts. lia. }
  rewrite Ht', Href', Hto'. repeat split.
Qed.

Lemma socket_current_after_open_restarts_backoff_witness :
  let h := ProctoringWebSocket.after sample_endpoint sample_accepts sample_options
             [ ProctoringWebSocket.Close 0; ProctoringWebSocket.TimeoutFired 0;
               ProctoringWebSocket.Close 1 ] in
  ProctoringWebSocket.reconnectAttempts h = 1 /\
  ProctoringWebSocket.reconnectAttempts
    (fst (ProctoringWebSocket.step sample_endpoint sample_accepts sample_options (ProctoringWebSocket.Open 2) h)) = 0.
Proof.
  split; [reflexivity|].
  apply (socket_current_after_open_restarts_backoff sample_endpoint sample_accepts sample_options
           [ ProctoringWebSocket.Close 0; ProctoringWebSocket.TimeoutFired 0;
             ProctoringWebSocket.Close 1 ] 2); reflexivity.
Defined.

(** C2 against a server that cannot be reached.  Every event of the run
    is one the browser delivers.  When the first timer has fired there are
    two new sockets: the one its callback opened, whose handlers still hold
    counter 0 and which the effect's cleanup is closing, and the one the
    re-run effect opened at counter 1.  All five reconnects of the first rounds
    are set off by timers of 1000ms, and the timers of 2000, 4000, 8000
    and 16000ms are cleared before they fire.  After 49 rounds the counter
    is at the bound of 50; one round later the error toast has been
    raised, yet the counter is 51 and a new socket is connecting. *)
Theorem unreachable_server_retries_every_second_without_end :
  let client := ProctoringWebSocket.after sample_endpoint sample_accepts sample_options in
  ProctoringWebSocket.deliverable sample_endpoint sample_accepts sample_options
    (ProctoringWebSocket.unreachable 50)
    (ProctoringWebSocket.mount sample_endpoint sample_accepts sample_options) = true /\
  map (fun w => (ProctoringWebSocket.attempts w, ProctoringWebSocket.readyState w))
      (ProctoringWebSocket.sockets (client (ProctoringWebSocket.unreachable 0)))
    = [ (0, ProctoringWebSocket.CLOSED); (0, ProctoringWebSocket.CLOSING);
        (1, ProctoringWebSocket.CONNECTING) ] /\
  ProctoringWebSocket.delays ProctoringWebSocket.fired (client (ProctoringWebSocket.unreachable 4))
    = [1000; 1000; 1000; 1000; 1000]%Z /\
  ProctoringWebSocket.delays ProctoringWebSocket.cleared (client (ProctoringWebSocket.unreachable 4))
    = [2000; 4000; 8000; 16000]%Z /\
  ProctoringWebSocket.delays ProctoringWebSocket.scheduled (client (ProctoringWebSocket.unreachable 4))
    = [] /\
  ProctoringWebSocket.reconnectAttempts (client (ProctoringWebSocket.unreachable 49)) = 50 /\
  ProctoringWebSocket.toasts (client (ProctoringWebSocket.unreachable 50))
    = [ ProctoringWebSocket.toast_error "Unable to connect to proctoring service." ] /\
  ProctoringWebSocket.reconnectAttempts (client (ProctoringWebSocket.unreachable 50)) = 51 /\
  ProctoringWebSocket.current_readyState (client (ProctoringWebSocket.unreachable 50))
    = Some ProctoringWebSocket.CONNECTING.
Proof.
  vm_compute. repeat split.
Qed.

(** ** The exam page: counters *)

Section PageFacts.
Import Js ProctoringWebSocket StudentExam.
Variable WS_URL : string.
Variable accepts : string -> bool.
Variable opts : Options.

Lemma firstn_app_firstn {A : Type} (n : nat) (l1 l2 : list A) :
  firstn n (l1 ++ firstn n l2) = firstn n (l1 ++ l2).
Proof.
  rewrite !firstn_app, firstn_firstn. do 2 f_equal. lia.
Qed.

(** The four tallies the page shows. *)
Lemma in_hook_tallies (c : Completion Hook) (p : Page) :
  let p' := state (in_hook c p) in
  violationCount p' = violationCount p /\ recentWarnings p' = recentWarnings p /\
  tabSwitchCount p' = tabSwitchCount p /\ copyPasteCount p' = copyPasteCount p.
Proof. destruct c; repeat split. Qed.

Lemma handleVisibilityChange_tallies (hidden : bool) (p : Page) :
  let p' := state (handleVisibilityChange opts hidden p) in
  violationCount p' = violationCount p /\ recentWarnings p' = recentWarnings p /\
  tabSwitchCount p' = tabSwitchCount p + (if hidden then 1 else 0) /\
  copyPasteCount p' = copyPasteCount p.
Proof.
  unfold handleVisibilityChange. destruct hidden; simpl.
  - destruct (isConnected (ws p)); simpl; [|repeat split].
    destruct (sendBrowserActivity opts _ _ (ws p)); simpl; repeat split.
  - repeat split. lia.
Qed.

Lemma handleCopyPaste_tallies (type : string) (p : Page) :
  let p' := state (handleCopyPaste opts type p) in
  violationCount p' = violationCount p /\ recentWarnings p' = recentWarnings p /\
  tabSwitchCount p' = tabSwitchCount p /\
  copyPasteCount p' = copyPasteCount p + 1.
Proof.
  unfold handleCopyPaste. simpl.
  destruct (isConnected (ws p)); simpl; [|repeat split].
  destruct (sendBrowserActivity opts _ _ (ws p)); simpl; repeat split.
Qed.

Lemma samplerTick_tallies (m : Media) (p : Page) :
  let p' := state (samplerTick m p) in
  violationCount p' = violationCount p /\ recentWarnings p' = recentWarnings p /\
  tabSwitchCount p' = tabSwitchCount p /\ copyPasteCount p' = copyPasteCount p.
Proof.
  unfold samplerTick.
  destruct (video m) as [v|]; [|repeat split].
  destruct (stream m); [|repeat split].
  destruct (N.eqb (videoWidth v) 0 || N.eqb (videoHeight v) 0); [repeat split|].
  destruct (negb (context2d m)); [repeat split|].
  simpl. destruct (sendFrame first_render _ _ _ (ws p)); repeat split.
Qed.

Lemma onViolation_tallies (v : ViolationData) (p : Page) :
  violationCount (onViolation v p) = violationCount p + 1 /\
  recentWarnings (onViolation v p) = firstn 3 (warning_of v :: recentWarnings p) /\
  tabSwitchCount (onViolation v p) = tabSwitchCount p /\
  copyPasteCount (onViolation v p) = copyPasteCount p.
Proof. repeat split. Qed.

Lemma onViolations_tallies (vs : list ViolationData) (p : Page) :
  List.length (recentWarnings p) <= 3 ->
  let p' := fold_left (fun q v => onViolation v q) vs p in
  violationCount p' = violationCount p + List.length vs /\
  recentWarnings p' = firstn 3 (rev (map warning_of vs) ++ recentWarnings p) /\
  tabSwitchCount p' = tabSwitchCount p /\
  copyPasteCount p' = copyPasteCount p.
Proof.
  revert p. induction vs as [|v vs IH]; intros p Hlen; cbn [fold_left].
  - cbn [map rev app List.length]. rewrite firstn_all2 by exact Hlen. repeat split. lia.
  - destruct (onViolation_tallies v p) as (Hv & Hr & Ht & Hc).
    destruct (IH (onViolation v p)) as (Hv' & Hr' & Ht' & Hc').
    { rewrite Hr. apply firstn_le_length. }
    cbv zeta in *. rewrite Hv', Hr', Ht', Hc', Hv, Hr, Ht, Hc.
    repeat split; [cbn [List.length]; lia|].
    rewrite firstn_app_firstn. cbn [map rev]. now rewrite <- app_assoc.
Qed.

(** One turn, by the kind of input. *)
Lemma turn_tallies (i : Input) (p : Page) :
  List.length (recentWarnings p) <= 3 ->
  let p' := turn WS_URL accepts opts i p in
  violationCount p' = violationCount p + List.length (deliveries WS_URL accepts opts i p) /\
  recentWarnings p' =
    firstn 3 (rev (map warning_of (deliveries WS_URL accepts opts i p)) ++ recentWarnings p) /\
  tabSwitchCount p' = tabSwitchCount p + (if is_focus_loss opts i then 1 else 0) /\
  copyPasteCount p' = copyPasteCount p + (if is_clipboard opts i then 1 else 0).
Proof.
  intros Hlen. destruct i as [e|hidden|type|m|level]; cbn [turn deliveries is_focus_loss is_clipboard].
  - destruct (step WS_URL accepts opts e (ws p)) as [h vs]. cbn [snd].
    destruct (onViolations_tallies vs (set_ws h p) Hlen) as (Hv & Hr & Ht & Hc).
    cbv zeta in *. rewrite Hv, Hr, Ht, Hc. cbn. repeat split; lia.
  - cbn [map rev app List.length]. rewrite firstn_all2 by exact Hlen.
    destruct (enabled opts).
    + destruct (handleVisibilityChange_tallies hidden p) as (Hv & Hr & Ht & Hc).
      cbv zeta in *. rewrite Hv, Hr, Ht, Hc. destruct hidden; repeat split; lia.
    + destruct hidden; repeat split; lia.
  - cbn [map rev app List.length]. rewrite firstn_all2 by exact Hlen.
    destruct (enabled opts).
    + destruct (handleCopyPaste_tallies type p) as (Hv & Hr & Ht & Hc).
      cbv zeta in *. rewrite Hv, Hr, Ht, Hc. repeat split; lia.
    + repeat split; lia.
  - cbn [map rev app List.length]. rewrite firstn_all2 by exact Hlen.
    destruct (samplerTick_tallies m p) as (Hv & Hr & Ht & Hc).
    cbv zeta in *. rewrite Hv, Hr, Ht, Hc. repeat split; lia.
  - cbn [map rev app List.length]. rewrite firstn_all2 by exact Hlen.
    destruct level; cbn; repeat split; lia.
Qed.

(** A whole session: each counter is the number of inputs of its own
    kind, and the warnings are the latest three messages. *)
Lemma session_tallies (ins : list Input) (p : Page) :
  List.length (recentWarnings p) <= 3 ->
  let p' := session WS_URL accepts opts ins p in
  violationCount p' = violationCount p + List.length (delivered WS_URL accepts opts ins p) /\
  recentWarnings p' =
    firstn 3 (rev (map warning_of (delivered WS_URL accepts opts ins p)) ++ recentWarnings p) /\
  tabSwitchCount p' = tabSwitchCount p + List.length (filter (is_focus_loss opts) ins) /\
  copyPasteCount p' = copyPasteCount p + List.length (filter (is_clipboard opts) ins).
Proof.
  revert p. induction ins as [|i ins IH]; intros p Hlen; cbn [session delivered filter].
  - cbn [map rev app List.length]. rewrite firstn_all2 by exact Hlen. repeat split; lia.
  - destruct (turn_tallies i p Hlen) as (Hv & Hr & Ht & Hc).
    destruct (IH (turn WS_URL accepts opts i p)) as (Hv' & Hr' & Ht' & Hc').
    { cbv zeta in Hr. rewrite Hr. apply firstn_le_length. }
    cbv zeta in *. rewrite Hv', Hr', Ht', Hc', Hv, Hr, Ht, Hc.
    rewrite length_app, map_app, rev_app_distr, firstn_app_firstn, <- app_assoc.
    repeat split; try lia.
    + destruct (is_focus_loss opts i); cbn [List.length]; lia.
    + destruct (is_clipboard opts i); cbn [List.length]; lia.
Qed.

End PageFacts.

(** C1 as stated fails.  A focus loss while the socket is not open raises
    [tabSwitchCount] and leaves every list the client keeps or sends as it
    was, so no event was recorded for it; and four violations delivered
    at once raise [violationCount] to 4 while the only list of violations
    the page keeps holds 3 entries. *)
Lemma counters_move_without_a_log_entry :
  let p0 := StudentExam.start sample_endpoint sample_accepts sample_options "Ada" in
  let p1 := StudentExam.turn sample_endpoint sample_accepts sample_options (StudentExam.VisibilityChange true) p0 in
  let p4 := StudentExam.session sample_endpoint sample_accepts sample_options
              [ StudentExam.Socket (ProctoringWebSocket.Open 0);
                StudentExam.Socket (ProctoringWebSocket.Message 0 "2025-01-01T00:00:05.000Z"
                                                                (Some four_at_once)) ] p0 in
  (StudentExam.tabSwitchCount p1 = 1 /\
   StudentExam.violationCount p1 = 0 /\
   StudentExam.recentWarnings p1 = [] /\
   StudentExam.notifications p1 = [] /\
   ProctoringWebSocket.wire (StudentExam.ws p1) = []) /\
  (StudentExam.violationCount p4 = 4 /\
   List.length (StudentExam.recentWarnings p4) = 3).
Proof.
  vm_compute. repeat split.
Qed.

(** C1, amended: after any sequence of inputs from the start of
    monitoring, [violationCount] is the number of violations the socket
    handler delivered, [tabSwitchCount] the number of focus losses and
    [copyPasteCount] the number of copy and paste events, each counter
    moved by inputs of its own kind only; the page keeps no log, only the
    messages of the three latest delivered violations, newest first. *)
Theorem counters_tally_inputs_of_their_own_kind
        (WS_URL : string) (accepts : string -> bool) (opts : ProctoringWebSocket.Options) (name : string)
        (ins : list StudentExam.Input) :
  let p0 := StudentExam.start WS_URL accepts opts name in
  let p := StudentExam.session WS_URL accepts opts ins p0 in
  let remote := StudentExam.delivered WS_URL accepts opts ins p0 in
  StudentExam.violationCount p = List.length remote /\
  StudentExam.recentWarnings p = firstn 3 (rev (map StudentExam.warning_of remote)) /\
  StudentExam.tabSwitchCount p = List.length (filter (StudentExam.is_focus_loss opts) ins) /\
  StudentExam.copyPasteCount p = List.length (filter (StudentExam.is_clipboard opts) ins).
Proof.
  cbv zeta.
  destruct (session_tallies WS_URL accepts opts ins (StudentExam.start WS_URL accepts opts name))
    as (Hv & Hr & Ht & Hc).
  { simpl. lia. }
  cbv zeta in *. rewrite Hv, Hr, Ht, Hc. simpl StudentExam.recentWarnings.
  rewrite app_nil_r. repeat split.
Qed.

(** C3 as stated fails: after two focus losses while the socket is still
    connecting, [tabSwitchCount] is 2, but nothing was sent and nothing
    was added to any list of the page, so no tab_switch event exists. *)
Lemma focus_losses_leave_no_event_when_not_open :
  let p0 := StudentExam.start sample_endpoint sample_accepts sample_options "Ada" in
  let p2 := StudentExam.session sample_endpoint sample_accepts sample_options
              [ StudentExam.VisibilityChange true; StudentExam.VisibilityChange false;
                StudentExam.VisibilityChange true ] p0 in
  ProctoringWebSocket.current_readyState (StudentExam.ws p0) = Some ProctoringWebSocket.CONNECTING /\
  StudentExam.tabSwitchCount p2 = 2 /\
  ProctoringWebSocket.wire (StudentExam.ws p2) = [] /\
  StudentExam.recentWarnings p2 = [] /\
  StudentExam.violationCount p2 = 0 /\
  StudentExam.notifications p2 = [].
Proof.
  vm_compute. repeat split.
Qed.

(** C3, amended: a focus loss always returns normally, raises
    [tabSwitchCount] by one (so two of them raise it by two) and marks the
    window unfocused, whatever the connection state; it sends one
    tab_switch browser_activity message exactly when the hook reports
    connected and the current socket is open, and otherwise sends
    nothing; it never touches [violationCount] or the warnings. *)
Theorem focus_loss_always_counts_and_sends_only_when_open
        (opts : ProctoringWebSocket.Options) (p : StudentExam.Page) :
  let tab_switch :=
    ProctoringWebSocket.browser_activity
      "tab_switch" "Tab switched - student navigated away from exam page"
      (ProctoringWebSocket.examId opts) (ProctoringWebSocket.studentId opts)
      (ProctoringWebSocket.studentName opts) (ProctoringWebSocket.subjectCode opts)
      (ProctoringWebSocket.subjectName opts) in
  let p1 := StudentExam.state (StudentExam.handleVisibilityChange opts true p) in
  let p2 := StudentExam.state (StudentExam.handleVisibilityChange opts true p1) in
  StudentExam.handleVisibilityChange opts true p = Js.Normal p1 /\
  StudentExam.tabSwitchCount p1 = StudentExam.tabSwitchCount p + 1 /\
  StudentExam.tabSwitchCount p2 = StudentExam.tabSwitchCount p + 2 /\
  StudentExam.windowFocused p1 = false /\
  StudentExam.violationCount p1 = StudentExam.violationCount p /\
  StudentExam.recentWarnings p1 = StudentExam.recentWarnings p /\
  ProctoringWebSocket.wire (StudentExam.ws p1) =
    (ProctoringWebSocket.wire (StudentExam.ws p) ++
       match (if ProctoringWebSocket.isConnected (StudentExam.ws p)
              then ProctoringWebSocket.live (StudentExam.ws p) else None) with
       | Some id => [ (id, tab_switch) ]
       | None => []
       end)%list.
Proof.
  cbv zeta.
  pose proof (handleVisibilityChange_tallies opts true p) as (Hv & Hr & Ht & _).
  pose proof (handleVisibilityChange_tallies opts true
                (StudentExam.state (StudentExam.handleVisibilityChange opts true p)))
    as (_ & _ & Ht2 & _).
  cbv zeta in *.
  split; [|split; [exact Ht|split; [lia|]]].
  - unfold StudentExam.handleVisibilityChange, ProctoringWebSocket.sendBrowserActivity,
      ProctoringWebSocket.ws_send, ProctoringWebSocket.current_readyState.
    simpl. destruct (ProctoringWebSocket.isConnected (StudentExam.ws p)); [|reflexivity].
    destruct (ProctoringWebSocket.wsRef (StudentExam.ws p)) as [c|]; [|reflexivity].
    destruct (nth_error (ProctoringWebSocket.sockets (StudentExam.ws p)) c) as [w|]; [|reflexivity].
    simpl. destruct (ProctoringWebSocket.readyState w); reflexivity.
  - split; [|split; [exact Hv|split; [exact Hr|]]].
    + unfold StudentExam.handleVisibilityChange, ProctoringWebSocket.sendBrowserActivity,
        ProctoringWebSocket.ws_send, ProctoringWebSocket.current_readyState.
      simpl. destruct (ProctoringWebSocket.isConnected (StudentExam.ws p)); [|reflexivity].
      destruct (ProctoringWebSocket.wsRef (StudentExam.ws p)) as [c|]; [|reflexivity].
      destruct (nth_error (ProctoringWebSocket.sockets (StudentExam.ws p)) c) as [w|]; [|reflexivity].
      simpl. destruct (ProctoringWebSocket.readyState w); reflexivity.
    + unfold StudentExam.handleVisibilityChange, ProctoringWebSocket.sendBrowserActivity,
        ProctoringWebSocket.ws_send, ProctoringWebSocket.live,
        ProctoringWebSocket.current_readyState.
      simpl. destruct (ProctoringWebSocket.isConnected (StudentExam.ws p));
        [|simpl; now rewrite app_nil_r].
      destruct (ProctoringWebSocket.wsRef (StudentExam.ws p)) as [c|];
        [|simpl; now rewrite app_nil_r].
      destruct (nth_error (ProctoringWebSocket.sockets (StudentExam.ws p)) c) as [w|];
        [|simpl; now rewrite app_nil_r].
      simpl. destruct (ProctoringWebSocket.readyState w); simpl;
        try (now rewrite app_nil_r); reflexivity.
Qed.

(** * Further properties of the modelled code *)

(** ** The streaming client *)

Section UrlFacts.
Import Js ProctoringWebSocket.

Lemma substring_all (s : string) : substring 0 (String.length s) s = s.
Proof. induction s as [|c s IH]; simpl; [reflexivity | now rewrite IH]. Qed.

Lemma prefix_app (pat rest : string) : String.prefix pat (pat ++ rest) = true.
Proof.
  induction pat as [|c pat IH]; simpl; [now destruct rest|].
  destruct (ascii_dec c c); [exact IH | congruence].
Qed.

Lemma substring_skip (pat rest : string) :
  substring (String.length pat) (String.length (pat ++ rest) - String.length pat) (pat ++ rest)
  = rest.
Proof.
  induction pat as [|c pat IH]; simpl.
  - rewrite Nat.sub_0_r. apply substring_all.
  - exact IH.
Qed.

Lemma replace_first_unfold (pat r s : string) :
  replace_first pat r s =
  if String.prefix pat s
  then r ++ substring (String.length pat) (String.length s - String.length pat) s
  else match s with
       | EmptyString => EmptyString
       | String a rest => String a (replace_first pat r rest)
       end.
Proof. destruct s; reflexivity. Qed.

Lemma replace_first_prefix (pat r rest : string) :
  replace_first pat r (pat ++ rest) = r ++ rest.
Proof.
  rewrite replace_first_unfold, prefix_app, substring_skip. reflexivity.
Qed.

End UrlFacts.

(** X1: a dedicated socket URL that is not empty is used as it is, whatever
    the API URL.  Without one, an API URL that starts with https:// comes
    back starting with wss://, and one that starts with http:// with
    ws://; the first later occurrence of the other scheme is rewritten as
    well.  With nothing configured the result is ws://localhost:8001. *)
Theorem getWebSocketURL_translates_scheme (rest : string) (a : ascii) (dedicated : string)
        (api : option string) :
  ProctoringWebSocket.getWebSocketURL
    {| ProctoringWebSocket.VITE_PROCTORING_WS_URL := Some (String a dedicated);
       ProctoringWebSocket.VITE_PROCTORING_API_URL := api |} = String a dedicated /\
  ProctoringWebSocket.getWebSocketURL
    {| ProctoringWebSocket.VITE_PROCTORING_WS_URL := None;
       ProctoringWebSocket.VITE_PROCTORING_API_URL := Some ("https://" ++ rest) |}
    = "wss://" ++ Js.replace_first "http://" "ws://" rest /\
  ProctoringWebSocket.getWebSocketURL
    {| ProctoringWebSocket.VITE_PROCTORING_WS_URL := None;
       ProctoringWebSocket.VITE_PROCTORING_API_URL := Some ("http://" ++ rest) |}
    = "ws://" ++ Js.replace_first "https://" "wss://" rest /\
  ProctoringWebSocket.getWebSocketURL
    {| ProctoringWebSocket.VITE_PROCTORING_WS_URL := Some "";
       ProctoringWebSocket.VITE_PROCTORING_API_URL := None |} = "ws://localhost:8001".
Proof.
  split; [reflexivity|]. split; [|split; [|reflexivity]].
  - unfold ProctoringWebSocket.getWebSocketURL. cbn [ProctoringWebSocket.VITE_PROCTORING_WS_URL
      ProctoringWebSocket.VITE_PROCTORING_API_URL Js.or_else].
    change (Js.truthy ("https://" ++ rest)) with true. cbv iota.
    rewrite (replace_first_prefix "https://" "wss://" rest).
    reflexivity.
  - unfold ProctoringWebSocket.getWebSocketURL. cbn [ProctoringWebSocket.VITE_PROCTORING_WS_URL
      ProctoringWebSocket.VITE_PROCTORING_API_URL Js.or_else].
    change (Js.truthy ("http://" ++ rest)) with true. cbv iota.
    assert (H : Js.replace_first "https://" "wss://" ("http://" ++ rest)
                = "http://" ++ Js.replace_first "https://" "wss://" rest) by reflexivity.
    rewrite H. apply (replace_first_prefix "http://" "ws://").
Qed.

Section RunInvariants.
Import Js ProctoringWebSocket.
Variable WS_URL : string.
Variable accepts : string -> bool.
Variable opts : Options.

Lemma Forall_update {A : Type} (P : A -> Prop) (f : A -> A) (n : nat) (l : list A) :
  (forall x, P x -> P (f x)) -> Forall P l -> Forall P (update n f l).
Proof.
  intros Hf H. revert n. induction H as [|x l Hx Hl IH]; intros [|n]; simpl; auto.
Qed.

Variable Ps : WebSocket -> Prop.
Variable Pt : Timeout -> Prop.
Hypothesis Ps_state : forall w r, Ps w -> Ps (set_readyState r w).
Hypothesis Ps_new : forall k,
  Ps {| url := WS_URL ++ "/api/ws/proctoring/" ++ sessionId opts;
        attempts := k; readyState := CONNECTING |}.
Hypothesis Pt_state : forall t s, Pt t -> Pt (set_status s t).
Hypothesis Pt_new : forall k,
  enabled opts = true -> k < maxReconnectAttempts ->
  Pt {| delay := reconnect_delay k; timeout_attempts := k; status := scheduled |}.

Lemma connect_kept (k : nat) (h : Hook) : kept Ps Pt h -> kept Ps Pt (connect WS_URL accepts opts k h).
Proof.
  intros [Hs Ht]. unfold connect.
  destruct (negb (enabled opts) || negb (truthy (sessionId opts))); [now split|].
  destruct (accepts _); [|now split].
  split; [|exact Ht]. simpl. apply Forall_app. split; [exact Hs|]. constructor; [apply Ps_new|constructor].
Qed.

Lemma disconnect_kept (h : Hook) : kept Ps Pt h -> kept Ps Pt (disconnect h).
Proof.
  intros [Hs Ht]. unfold disconnect, clearTimeout, ws_close.
  destruct (reconnectTimeoutRef h) as [tid|]; simpl;
    destruct (wsRef h) as [c|]; simpl; split; auto;
    try (apply Forall_update; [|assumption]; intros w Hw;
         destruct (readyState w); auto);
    try (apply Forall_update; [|assumption]; intros t Hp;
         destruct (pending t); auto).
Qed.

Lemma onclose_kept (k : nat) (h : Hook) : kept Ps Pt h -> kept Ps Pt (onclose opts k h).
Proof.
  intros [Hs Ht]. unfold onclose, kept.
  destruct (enabled opts) eqn:He;
    destruct (Nat.ltb k maxReconnectAttempts) eqn:Hk;
    destruct (Nat.leb maxReconnectAttempts k); cbn [andb];
    try (split; assumption).
  all: split; [exact Hs|]; cbn [timeouts set_reconnectTimeoutRef set_timeouts setIsConnected];
    apply Forall_app; (split; [exact Ht|]);
    constructor; [|constructor]; apply Pt_new; [reflexivity|now apply Nat.ltb_lt].
Qed.

Lemma render_kept (before after : Hook) : kept Ps Pt after -> kept Ps Pt (render WS_URL accepts opts before after).
Proof.
  intros H. unfold render.
  destruct (Nat.eqb _ _); [exact H|]. now apply connect_kept, disconnect_kept.
Qed.

Lemma step_kept (e : Event) (h : Hook) : kept Ps Pt h -> kept Ps Pt (fst (step WS_URL accepts opts e h)).
Proof.
  intros H. unfold step. destruct (fires e h); [|exact H].
  destruct e as [id|id|id|id|id now data|tid|]; simpl.
  - apply render_kept. destruct H as [Hs Ht]. split; simpl; [|exact Ht].
    apply Forall_update; [|exact Hs]. intros w. apply Ps_state.
  - apply render_kept. exact H.
  - apply render_kept, onclose_kept. destruct H as [Hs Ht]. split; simpl; [|exact Ht].
    apply Forall_update; [|exact Hs]. intros w. apply Ps_state.
  - apply render_kept. destruct H as [Hs Ht]. split; simpl; [|exact Ht].
    apply Forall_update; [|exact Hs]. intros w. apply Ps_state.
  - apply render_kept. exact H.
  - destruct (nth_error (timeouts h) tid) as [t|]; simpl; apply render_kept; [|exact H].
    unfold reconnect_callback. apply connect_kept. destruct H as [Hs Ht]. split; simpl; [exact Hs|].
    apply Forall_update; [|exact Ht]. intros x. apply Pt_state.
  - unfold heartbeat, ws_send.
    destruct (wsRef h) as [c|]; simpl; [|apply render_kept; exact H].
    destruct (current_readyState h) as [[]|]; simpl; try (apply render_kept; exact H).
    destruct (option_map readyState (nth_error (sockets h) c)) as [[]|]; simpl;
      apply render_kept; exact H.
Qed.

Lemma after_kept (es : list Event) : kept Ps Pt (after WS_URL accepts opts es).
Proof.
  unfold after.
  assert (Hm : kept Ps Pt (mount WS_URL accepts opts)).
  { apply connect_kept. split; constructor. }
  revert Hm. generalize (mount WS_URL accepts opts).
  induction es as [|e es IH]; intros h Hh; simpl; [exact Hh|].
  apply IH, step_kept, Hh.
Qed.

End RunInvariants.

Section DelayFacts.
Import ProctoringWebSocket.

Lemma reconnect_delay_bounds (k : nat) : (1000 <= reconnect_delay k <= 30000)%Z.
Proof.
  unfold reconnect_delay. split; [|apply Z.le_min_r].
  apply Z.min_glb; [|lia].
  assert (1 <= 2 ^ Z.of_nat k)%Z by (apply Z.pow_le_mono_r with (b := 0%Z) (a := 2%Z); lia).
  lia.
Qed.

Lemma reconnect_delay_monotone (k j : nat) : (reconnect_delay k <= reconnect_delay (k + j))%Z.
Proof.
  unfold reconnect_delay. apply Z.min_le_compat_r.
  apply Z.mul_le_mono_nonneg_l; [lia|].
  apply Z.pow_le_mono_r; lia.
Qed.

Lemma reconnect_delay_capped (k : nat) : reconnect_delay (5 + k) = 30000%Z.
Proof.
  unfold reconnect_delay. apply Z.min_r.
  assert (2 ^ 5 <= 2 ^ Z.of_nat (5 + k))%Z by (apply Z.pow_le_mono_r; lia).
  change (2 ^ 5)%Z with 32%Z in H. lia.
Qed.

End DelayFacts.

(** X2: the reconnect delay is always between 1000 and 30000ms, never
    shrinks as the counter grows, and is at its cap from counter 5 on
    (and not before). *)
Theorem reconnect_delay_grows_to_its_cap (k j : nat) :
  (1000 <= ProctoringWebSocket.reconnect_delay k <= 30000)%Z /\
  (ProctoringWebSocket.reconnect_delay k <= ProctoringWebSocket.reconnect_delay (k + j))%Z /\
  ProctoringWebSocket.reconnect_delay (5 + k) = 30000%Z /\
  (ProctoringWebSocket.reconnect_delay 4 < 30000)%Z.
Proof.
  split; [apply reconnect_delay_bounds|]. split; [apply reconnect_delay_monotone|].
  split; [apply reconnect_delay_capped | reflexivity].
Qed.

(** X3: in any run, every socket the hook has opened targets the same URL:
    the endpoint, /api/ws/proctoring/ and the session id. *)
Theorem every_socket_targets_the_session_url
        (WS_URL : string) (accepts : string -> bool) (opts : ProctoringWebSocket.Options)
        (es : list ProctoringWebSocket.Event) :
  Forall (fun w => ProctoringWebSocket.url w
                   = WS_URL ++ "/api/ws/proctoring/" ++ ProctoringWebSocket.sessionId opts)
         (ProctoringWebSocket.sockets (ProctoringWebSocket.after WS_URL accepts opts es)).
Proof.
  apply (after_kept WS_URL accepts opts
           (fun w => ProctoringWebSocket.url w
                     = WS_URL ++ "/api/ws/proctoring/" ++ ProctoringWebSocket.sessionId opts)
           (fun _ => True)); auto.
Qed.

(** X4: in any run, every reconnect timer ever set has the delay of the
    backoff formula for the counter its socket was made at, that counter
    is below the bound of 50, and the delay is between 1000 and 30000ms. *)
Theorem every_timer_follows_the_backoff
        (WS_URL : string) (accepts : string -> bool) (opts : ProctoringWebSocket.Options)
        (es : list ProctoringWebSocket.Event) :
  Forall (fun t => ProctoringWebSocket.delay t
                   = ProctoringWebSocket.reconnect_delay (ProctoringWebSocket.timeout_attempts t)
                   /\ ProctoringWebSocket.timeout_attempts t < ProctoringWebSocket.maxReconnectAttempts
                   /\ (1000 <= ProctoringWebSocket.delay t <= 30000)%Z)
         (ProctoringWebSocket.timeouts (ProctoringWebSocket.after WS_URL accepts opts es)).
Proof.
  apply (after_kept WS_URL accepts opts (fun _ => True)
           (fun t => ProctoringWebSocket.delay t
                   = ProctoringWebSocket.reconnect_delay (ProctoringWebSocket.timeout_attempts t)
                   /\ ProctoringWebSocket.timeout_attempts t < ProctoringWebSocket.maxReconnectAttempts
                   /\ (1000 <= ProctoringWebSocket.delay t <= 30000)%Z)); auto.
  intros k _ Hk. simpl. repeat split; auto; apply reconnect_delay_bounds.
Qed.

Section HookFacts.
Import Js ProctoringWebSocket.
Variable WS_URL : string.
Variable accepts : string -> bool.
Variable opts : Options.

Lemma step_initial (e : Event) :
  fst (step WS_URL accepts opts e initial) = initial.
Proof.
  unfold step. destruct e as [[|id]|[|id]|[|id]|[|id]|[|id] now data|[|tid]|]; reflexivity.
Qed.

Lemma run_initial (es : list Event) : run WS_URL accepts opts es initial = initial.
Proof.
  induction es as [|e es IH]; simpl; [reflexivity|]. now rewrite step_initial.
Qed.

Lemma mount_disabled :
  enabled opts = false \/ sessionId opts = "" -> mount WS_URL accepts opts = initial.
Proof.
  intros [H|H]; unfold mount, connect; rewrite H; simpl; [reflexivity|].
  now rewrite orb_true_r.
Qed.

Lemma connect_wire (k : nat) (h : Hook) :
  wire (connect WS_URL accepts opts k h) = wire h /\
  isConnected (connect WS_URL accepts opts k h) = isConnected h && isConnected (connect WS_URL accepts opts k h).
Proof.
  unfold connect. destruct (negb (enabled opts) || negb (truthy (sessionId opts)));
    [split; [reflexivity|now rewrite andb_diag]|].
  destruct (accepts _); simpl; split; try reflexivity.
  - now rewrite andb_diag.
  - now rewrite andb_false_r.
Qed.

Lemma disconnect_wire (h : Hook) :
  wire (disconnect h) = wire h /\ isConnected (disconnect h) = false.
Proof.
  unfold disconnect, clearTimeout, ws_close.
  destruct (reconnectTimeoutRef h); simpl; destruct (wsRef h); split; reflexivity.
Qed.

Lemma onclose_wire (k : nat) (h : Hook) :
  wire (onclose opts k h) = wire h /\ isConnected (onclose opts k h) = false.
Proof.
  unfold onclose.
  destruct (enabled opts && Nat.ltb k maxReconnectAttempts); [split; reflexivity|].
  destruct (Nat.leb maxReconnectAttempts k); split; reflexivity.
Qed.

Lemma render_wire (before after : Hook) :
  wire (render WS_URL accepts opts before after) = wire after.
Proof.
  unfold render. destruct (Nat.eqb _ _); [reflexivity|].
  rewrite (proj1 (connect_wire _ _)). apply disconnect_wire.
Qed.

Lemma heartbeat_wire (h : Hook) :
  heartbeat h = Normal (match live h with Some id => transmit id ping h | None => h end).
Proof.
  unfold heartbeat, live, ws_send, current_readyState.
  destruct (wsRef h) as [c|]; [|reflexivity].
  destruct (nth_error (sockets h) c) as [w|]; [|reflexivity].
  simpl. destruct (readyState w); reflexivity.
Qed.

End HookFacts.

(** X5: a hook that is disabled or has an empty session id never opens a
    socket, sets a timer, raises a toast or sends anything, whatever
    events arrive. *)
Theorem disabled_hook_is_inert
        (WS_URL : string) (accepts : string -> bool) (opts : ProctoringWebSocket.Options)
        (es : list ProctoringWebSocket.Event) :
  ProctoringWebSocket.enabled opts = false \/ ProctoringWebSocket.sessionId opts = "" ->
  ProctoringWebSocket.after WS_URL accepts opts es = ProctoringWebSocket.initial.
Proof.
  intros H. unfold ProctoringWebSocket.after. rewrite (mount_disabled WS_URL accepts opts H).
  apply run_initial.
Qed.

Lemma disabled_hook_is_inert_witness :
  ProctoringWebSocket.after sample_endpoint sample_accepts StudentExam.first_render
    [ ProctoringWebSocket.Open 0; ProctoringWebSocket.Heartbeat; ProctoringWebSocket.TimeoutFired 0 ]
  = ProctoringWebSocket.initial.
Proof.
  apply (disabled_hook_is_inert sample_endpoint sample_accepts StudentExam.first_render).
  left. reflexivity.
Defined.

(** X6: no socket event resends or sends anything by itself: one event-loop
    turn leaves the wire as it was, except for the heartbeat, which adds
    exactly one ping on the current socket when the hook reports connected
    and that socket is open. *)
Theorem only_the_heartbeat_writes_to_the_wire
        (WS_URL : string) (accepts : string -> bool) (opts : ProctoringWebSocket.Options)
        (e : ProctoringWebSocket.Event) (h : ProctoringWebSocket.Hook) :
  ProctoringWebSocket.wire (fst (ProctoringWebSocket.step WS_URL accepts opts e h)) =
  (ProctoringWebSocket.wire h ++
     match e with
     | ProctoringWebSocket.Heartbeat =>
         if ProctoringWebSocket.isConnected h then
           match ProctoringWebSocket.live h with
           | Some id => [ (id, ProctoringWebSocket.ping) ]
           | None => []
           end
         else []
     | _ => []
     end)%list.
Proof.
  unfold ProctoringWebSocket.step.
  destruct e as [id|id|id|id|id now data|tid|]; cbn [ProctoringWebSocket.fires].
  1-6: rewrite app_nil_r.
  - destruct (ProctoringWebSocket.socket_in _ _ h); [|reflexivity].
    cbn [ProctoringWebSocket.handle fst]. now rewrite render_wire.
  - destruct (ProctoringWebSocket.socket_in _ _ h); [|reflexivity].
    cbn [ProctoringWebSocket.handle fst]. now rewrite render_wire.
  - destruct (ProctoringWebSocket.socket_in _ _ h); [|reflexivity].
    cbn [ProctoringWebSocket.handle fst]. rewrite render_wire.
    now rewrite (proj1 (onclose_wire opts _ _)).
  - destruct (ProctoringWebSocket.socket_in _ _ h); [|reflexivity].
    cbn [ProctoringWebSocket.handle fst]. now rewrite render_wire.
  - destruct (ProctoringWebSocket.socket_in _ _ h); [|reflexivity].
    cbn [ProctoringWebSocket.handle fst]. now rewrite render_wire.
  - destruct (nth_error (ProctoringWebSocket.timeouts h) tid) as [t|] eqn:Et; [|reflexivity].
    destruct (ProctoringWebSocket.pending t); [|reflexivity].
    cbn [ProctoringWebSocket.handle fst]. rewrite Et. cbn [fst]. rewrite render_wire.
    unfold ProctoringWebSocket.reconnect_callback.
    now rewrite (proj1 (connect_wire WS_URL accepts opts _ _)).
  - destruct (ProctoringWebSocket.isConnected h); [|now rewrite app_nil_r].
    cbn [ProctoringWebSocket.handle]. rewrite heartbeat_wire. cbn [fst].
    rewrite render_wire. destruct (ProctoringWebSocket.live h); [reflexivity|now rewrite app_nil_r].
Qed.

Section ConnectedFacts.
Import Js ProctoringWebSocket.
Variable WS_URL : string.
Variable accepts : string -> bool.
Variable opts : Options.

Lemma existsb_update_open (id : nat) (l : list WebSocket) (w : WebSocket) :
  nth_error l id = Some w ->
  existsb unclosed (update id (set_readyState OPEN) l) = true.
Proof.
  revert id. induction l as [|x l IH]; intros [|id] H; simpl in *; try discriminate.
  - reflexivity.
  - rewrite (IH id H). apply orb_true_r.
Qed.

Lemma existsb_update_closing (id : nat) (l : list WebSocket) :
  existsb unclosed l = true ->
  existsb unclosed (update id (set_readyState CLOSING) l) = true.
Proof.
  revert id. induction l as [|x l IH]; intros [|id] H; cbn [update existsb] in *;
    try discriminate.
  - apply orb_true_iff. apply orb_true_iff in H. destruct H as [H|H]; [left|right; exact H].
    reflexivity.
  - apply orb_true_iff. apply orb_true_iff in H. destruct H as [H|H]; [left; exact H|right].
    now apply IH.
Qed.

Lemma connect_isConnected_false (k : nat) (h : Hook) :
  isConnected h = false -> isConnected (connect WS_URL accepts opts k h) = false.
Proof.
  intros H. unfold connect.
  destruct (negb (enabled opts) || negb (truthy (sessionId opts))); [exact H|].
  destruct (accepts _); [exact H | reflexivity].
Qed.

Lemma disconnect_isConnected (h : Hook) : isConnected (disconnect h) = false.
Proof.
  unfold disconnect, clearTimeout, ws_close.
  destruct (reconnectTimeoutRef h); simpl; destruct (wsRef h); reflexivity.
Qed.

Lemma onclose_isConnected (k : nat) (h : Hook) : isConnected (onclose opts k h) = false.
Proof.
  unfold onclose.
  destruct (enabled opts && Nat.ltb k maxReconnectAttempts); [reflexivity|].
  destruct (Nat.leb maxReconnectAttempts k); reflexivity.
Qed.

Lemma render_sound (before after : Hook) :
  indicator_sound after -> indicator_sound (render WS_URL accepts opts before after).
Proof.
  intros H. unfold render. destruct (Nat.eqb _ _); [exact H|].
  intros Hc. rewrite connect_isConnected_false in Hc; [discriminate|].
  apply disconnect_isConnected.
Qed.

Lemma render_unsound_ok (before after : Hook) :
  isConnected after = false -> indicator_sound (render WS_URL accepts opts before after).
Proof.
  intros H. apply render_sound. intros Hc. congruence.
Qed.

Lemma step_sound (e : Event) (h : Hook) :
  indicator_sound h -> indicator_sound (fst (step WS_URL accepts opts e h)).
Proof.
  intros H. unfold step. destruct (fires e h) eqn:Hf; [|exact H].
  destruct e as [id|id|id|id|id now data|tid|]; cbn [handle fst].
  - apply render_sound. intros _. cbn.
    cbn [fires] in Hf. unfold socket_in in Hf.
    destruct (nth_error (sockets h) id) as [w|] eqn:E; [|discriminate].
    now apply (existsb_update_open id (sockets h) w).
  - apply render_unsound_ok. reflexivity.
  - apply render_unsound_ok. apply onclose_isConnected.
  - apply render_sound. intros Hc. cbn in *. apply existsb_update_closing, H, Hc.
  - apply render_sound. exact H.
  - cbn [fires] in Hf. destruct (nth_error (timeouts h) tid) as [t|]; [|discriminate].
    cbn [fst]. unfold render.
    destruct (Nat.eqb_spec
                (reconnectAttempts (reconnect_callback WS_URL accepts opts (timeout_attempts t) (expire tid h)))
                (reconnectAttempts h)) as [E|E].
    + exfalso. unfold reconnect_callback in E.
      rewrite connect_reconnectAttempts in E. simpl in E. lia.
    + intros Hc. rewrite connect_isConnected_false in Hc; [discriminate|].
      apply disconnect_isConnected.
  - unfold heartbeat, ws_send.
    destruct (wsRef h) as [c|]; [|apply render_sound; exact H].
    destruct (current_readyState h) as [[]|]; try (apply render_sound; exact H).
    destruct (option_map readyState (nth_error (sockets h) c)) as [[]|];
      apply render_sound; exact H.
Qed.

Lemma after_sound (es : list Event) : indicator_sound (after WS_URL accepts opts es).
Proof.
  unfold after.
  assert (Hm : indicator_sound (mount WS_URL accepts opts)).
  { intros Hc. unfold mount in Hc. rewrite connect_isConnected_false in Hc; [discriminate|reflexivity]. }
  revert Hm. generalize (mount WS_URL accepts opts).
  induction es as [|e es IH]; intros h Hh; simpl; [exact Hh|].
  apply IH, step_sound, Hh.
Qed.

Lemma guarded_send (h : Hook) (m : Outbound) :
  match wsRef h, current_readyState h with
  | Some id, Some OPEN => ws_send id m h
  | _, _ => Normal h
  end = Normal (match live h with Some id => transmit id m h | None => h end).
Proof.
  unfold live, ws_send, current_readyState.
  destruct (wsRef h) as [c|]; [|reflexivity].
  destruct (nth_error (sockets h) c) as [w|]; [|reflexivity].
  simpl. destruct (readyState w); reflexivity.
Qed.

Lemma update_update {A : Type} (f : A -> A) (n : nat) (l : list A) :
  (forall x, f (f x) = f x) -> update n f (update n f l) = update n f l.
Proof.
  intros Hf. revert n. induction l as [|x l IH]; intros [|n]; simpl; auto.
  - now rewrite Hf.
  - now rewrite IH.
Qed.

End ConnectedFacts.

(** X7: in any run, the hook reports connected only while at least one of
    its sockets is open or closing, that is, while a close event is still
    to come.  An open socket is not needed: when the server starts the
    closing handshake the socket is CLOSING and no handler has run, so the
    hook still reports connected with no socket open. *)
Theorem connected_indicator_needs_an_unclosed_socket
        (WS_URL : string) (accepts : string -> bool) (opts : ProctoringWebSocket.Options)
        (es : list ProctoringWebSocket.Event) :
  let h := ProctoringWebSocket.after WS_URL accepts opts es in
  let lagging := ProctoringWebSocket.after sample_endpoint sample_accepts sample_options
                   [ ProctoringWebSocket.Open 0; ProctoringWebSocket.PeerClosing 0 ] in
  implb (ProctoringWebSocket.isConnected h)
        (existsb (fun w =>
                    ProctoringWebSocket.ReadyState_eqb
                      (ProctoringWebSocket.readyState w) ProctoringWebSocket.OPEN
                    || ProctoringWebSocket.ReadyState_eqb
                         (ProctoringWebSocket.readyState w) ProctoringWebSocket.CLOSING)
                 (ProctoringWebSocket.sockets h)) = true /\
  ProctoringWebSocket.isConnected lagging = true /\
  map ProctoringWebSocket.readyState (ProctoringWebSocket.sockets lagging)
  = [ ProctoringWebSocket.CLOSING ] /\
  ProctoringWebSocket.live lagging = None.
Proof.
  cbv zeta. split; [|now vm_compute].
  pose proof (after_sound WS_URL accepts opts es) as H.
  unfold ProctoringWebSocket.indicator_sound in H.
  destruct (ProctoringWebSocket.isConnected _); [|reflexivity].
  simpl. now apply H.
Qed.

(** X8: none of the three send functions ever throws.  With the current
    socket open each hands exactly one message to it, with the session
    fields of the hook; a frame carries the override name when that is not
    empty and the hook's student name otherwise.  In every other state
    nothing changes. *)
Theorem sends_never_throw
        (opts : ProctoringWebSocket.Options) (h : ProctoringWebSocket.Hook)
        (frameBase64 : string) (audioLevel : option ProctoringWebSocket.number)
        (overrideStudentName : option string) (level : ProctoringWebSocket.number)
        (violationType message : string) :
  let on_live m :=
    Js.Normal (match ProctoringWebSocket.live h with
               | Some id => ProctoringWebSocket.transmit id m h
               | None => h
               end) in
  ProctoringWebSocket.sendFrame opts frameBase64 audioLevel overrideStudentName h =
    on_live (ProctoringWebSocket.frame frameBase64
               (ProctoringWebSocket.calibratedPitch opts) (ProctoringWebSocket.calibratedYaw opts)
               (ProctoringWebSocket.examId opts) (ProctoringWebSocket.studentId opts)
               (Js.or_else overrideStudentName (ProctoringWebSocket.studentName opts))
               (ProctoringWebSocket.subjectCode opts) (ProctoringWebSocket.subjectName opts)
               audioLevel) /\
  ProctoringWebSocket.sendAudioLevel opts level h =
    on_live (ProctoringWebSocket.audio level
               (ProctoringWebSocket.examId opts) (ProctoringWebSocket.studentId opts)
               (ProctoringWebSocket.studentName opts)
               (ProctoringWebSocket.subjectCode opts) (ProctoringWebSocket.subjectName opts)) /\
  ProctoringWebSocket.sendBrowserActivity opts violationType message h =
    on_live (ProctoringWebSocket.browser_activity violationType message
               (ProctoringWebSocket.examId opts) (ProctoringWebSocket.studentId opts)
               (ProctoringWebSocket.studentName opts)
               (ProctoringWebSocket.subjectCode opts) (ProctoringWebSocket.subjectName opts)).
Proof.
  cbv zeta. repeat split; apply guarded_send.
Qed.

Lemma clear_twice (t : ProctoringWebSocket.Timeout) :
  let f := fun t => if ProctoringWebSocket.pending t
                    then ProctoringWebSocket.set_status ProctoringWebSocket.cleared t else t in
  f (f t) = f t.
Proof.
  cbv zeta. unfold ProctoringWebSocket.pending.
  destruct t as [d k []]; reflexivity.
Qed.

Lemma nth_error_update_at {A : Type} (f : A -> A) (n : nat) (l : list A) :
  nth_error (ProctoringWebSocket.update n f l) n = option_map f (nth_error l n).
Proof.
  revert n. induction l as [|x l IH]; intros [|n]; simpl; auto.
Qed.

(** X9: [disconnect] leaves no current socket, reports disconnected, keeps the
    counter, the wire and the toasts, and makes sure the timer held in
    [reconnectTimeoutRef] cannot fire; calling it again changes nothing. *)
Theorem disconnect_is_idempotent (h : ProctoringWebSocket.Hook) :
  let h' := ProctoringWebSocket.disconnect h in
  ProctoringWebSocket.disconnect h' = h' /\
  ProctoringWebSocket.wsRef h' = None /\
  ProctoringWebSocket.isConnected h' = false /\
  ProctoringWebSocket.current_readyState h' = None /\
  ProctoringWebSocket.reconnectAttempts h' = ProctoringWebSocket.reconnectAttempts h /\
  ProctoringWebSocket.wire h' = ProctoringWebSocket.wire h /\
  ProctoringWebSocket.toasts h' = ProctoringWebSocket.toasts h /\
  match ProctoringWebSocket.reconnectTimeoutRef h with
  | Some tid => ProctoringWebSocket.fires (ProctoringWebSocket.TimeoutFired tid) h'
  | None => false
  end = false.
Proof.
  cbv zeta. unfold ProctoringWebSocket.disconnect, ProctoringWebSocket.clearTimeout,
    ProctoringWebSocket.ws_close, ProctoringWebSocket.current_readyState.
  destruct h as [ic ra wr rt ss ts to wi].
  destruct rt as [tid|]; destruct wr as [c|]; cbn;
    repeat split; try reflexivity.
  1,3: rewrite update_update by (intros t; apply clear_twice); reflexivity.
  all: rewrite nth_error_update_at; destruct (nth_error ts tid) as [t|]; cbn; try reflexivity;
       unfold ProctoringWebSocket.pending; destruct t as [d k []]; reflexivity.
Qed.

(** X10: [disconnect] does not detach the handlers of the socket it closes:
    when that socket was open or connecting, its close event can still
    arrive, and it then sets a new reconnect timer with the delay for the
    socket's counter (hook enabled, counter below the bound). *)
Theorem closing_by_disconnect_still_schedules_a_reconnect
        (WS_URL : string) (accepts : string -> bool) (opts : ProctoringWebSocket.Options)
        (h : ProctoringWebSocket.Hook) (c : nat) (w : ProctoringWebSocket.WebSocket) :
  ProctoringWebSocket.enabled opts = true ->
  ProctoringWebSocket.wsRef h = Some c ->
  nth_error (ProctoringWebSocket.sockets h) c = Some w ->
  ProctoringWebSocket.readyState w = ProctoringWebSocket.CONNECTING \/
  ProctoringWebSocket.readyState w = ProctoringWebSocket.OPEN ->
  ProctoringWebSocket.attempts w < ProctoringWebSocket.maxReconnectAttempts ->
  let h1 := ProctoringWebSocket.disconnect h in
  let h2 := fst (ProctoringWebSocket.step WS_URL accepts opts (ProctoringWebSocket.Close c) h1) in
  option_map ProctoringWebSocket.readyState (nth_error (ProctoringWebSocket.sockets h1) c)
    = Some ProctoringWebSocket.CLOSING /\
  ProctoringWebSocket.fires (ProctoringWebSocket.Close c) h1 = true /\
  ProctoringWebSocket.timeouts h2 =
    (ProctoringWebSocket.timeouts h1 ++
       [ {| ProctoringWebSocket.delay := ProctoringWebSocket.reconnect_delay (ProctoringWebSocket.attempts w);
            ProctoringWebSocket.timeout_attempts := ProctoringWebSocket.attempts w;
            ProctoringWebSocket.status := ProctoringWebSocket.scheduled |} ])%list /\
  ProctoringWebSocket.reconnectTimeoutRef h2 = Some (List.length (ProctoringWebSocket.timeouts h1)).
Proof.
  intros He Hc Hw Hr Hk h1 h2.
  assert (Hs1 : nth_error (ProctoringWebSocket.sockets h1) c
                = Some (ProctoringWebSocket.set_readyState ProctoringWebSocket.CLOSING w)).
  { subst h1. unfold ProctoringWebSocket.disconnect, ProctoringWebSocket.clearTimeout,
      ProctoringWebSocket.ws_close.
    destruct (ProctoringWebSocket.reconnectTimeoutRef h); cbn; rewrite Hc; cbn;
      rewrite nth_error_update_at, Hw; cbn; destruct Hr as [-> | ->]; reflexivity. }
  assert (Hf : ProctoringWebSocket.fires (ProctoringWebSocket.Close c) h1 = true).
  { cbn. unfold ProctoringWebSocket.socket_in. rewrite Hs1. reflexivity. }
  split; [rewrite Hs1; reflexivity|]. split; [exact Hf|].
  subst h2. unfold ProctoringWebSocket.step. rewrite Hf.
  cbn [ProctoringWebSocket.handle fst].
  assert (Hcap : ProctoringWebSocket.captured c h1 = ProctoringWebSocket.attempts w).
  { unfold ProctoringWebSocket.captured. rewrite Hs1. reflexivity. }
  rewrite Hcap.
  set (hc := ProctoringWebSocket.set_sockets _ h1).
  destruct (onclose_same opts (ProctoringWebSocket.attempts w) hc) as (_ & Hra & _).
  destruct (onclose_below_bound opts (ProctoringWebSocket.attempts w) hc He Hk) as (Ht & Href & _).
  unfold ProctoringWebSocket.render. rewrite Hra.
  change (ProctoringWebSocket.reconnectAttempts hc) with (ProctoringWebSocket.reconnectAttempts h1).
  rewrite Nat.eqb_refl. cbn [fst]. rewrite Ht, Href. split; reflexivity.
Qed.

Lemma closing_by_disconnect_still_schedules_a_reconnect_witness :
  let h1 := ProctoringWebSocket.disconnect
              (ProctoringWebSocket.after sample_endpoint sample_accepts sample_options
                 [ ProctoringWebSocket.Open 0 ]) in
  ProctoringWebSocket.delays ProctoringWebSocket.scheduled
    (fst (ProctoringWebSocket.step sample_endpoint sample_accepts sample_options
            (ProctoringWebSocket.Close 0) h1)) = [1000%Z].
Proof.
  pose proof (closing_by_disconnect_still_schedules_a_reconnect
                sample_endpoint sample_accepts sample_options
                (ProctoringWebSocket.after sample_endpoint sample_accepts sample_options
                   [ ProctoringWebSocket.Open 0 ])
                0
                {| ProctoringWebSocket.url := "wss://proctor.example/api/ws/proctoring/exam-42";
                   ProctoringWebSocket.attempts := 0;
                   ProctoringWebSocket.readyState := ProctoringWebSocket.OPEN |}
                eq_refl eq_refl eq_refl (or_intror eq_refl)) as H.
  cbv zeta in *. unfold ProctoringWebSocket.delays.
  destruct H as (_ & _ & Ht & _).
  { unfold ProctoringWebSocket.maxReconnectAttempts. cbn. lia. }
  rewrite Ht. reflexivity.
Defined.

(** ** The streaming client: what an open event resets *)

Section OpenFacts.
Import Js ProctoringWebSocket.
Variable WS_URL : string.
Variable accepts : string -> bool.
Variable opts : Options.

(** The close event of a socket that is not closed yet, whose handlers
    hold a counter below the bound. *)
Lemma close_schedules (h : Hook) (c : nat) (w : WebSocket) :
  enabled opts = true ->
  nth_error (sockets h) c = Some w ->
  readyState w <> CLOSED ->
  attempts w < maxReconnectAttempts ->
  let h2 := fst (step WS_URL accepts opts (Close c) h) in
  fires (Close c) h = true /\
  timeouts h2 =
    (timeouts h ++ [ {| delay := reconnect_delay (attempts w);
                        timeout_attempts := attempts w; status := scheduled |} ])%list /\
  reconnectTimeoutRef h2 = Some (List.length (timeouts h)) /\
  reconnectAttempts h2 = reconnectAttempts h /\
  toasts h2 = toasts h /\
  wsRef h2 = wsRef h.
Proof.
  intros He Hw Hr Hk h2.
  assert (Hf : fires (Close c) h = true).
  { cbn. unfold socket_in. rewrite Hw. destruct (readyState w); try reflexivity. congruence. }
  split; [exact Hf|]. subst h2. unfold step. rewrite Hf. cbn [handle fst].
  assert (Hcap : captured c h = attempts w) by (unfold captured; now rewrite Hw).
  rewrite Hcap.
  set (hc := set_sockets _ h).
  destruct (onclose_same opts (attempts w) hc) as (Hws & Hra & _).
  destruct (onclose_below_bound opts (attempts w) hc He Hk) as (Ht & Href & Hto).
  unfold render. rewrite Hra. change (reconnectAttempts hc) with (reconnectAttempts h).
  rewrite Nat.eqb_refl. cbn [fst]. rewrite Ht, Href, Hto, Hws, Hra. repeat split.
Qed.

Lemma disconnect_socket (h : Hook) (c : nat) (w : WebSocket) :
  wsRef h = Some c ->
  nth_error (sockets h) c = Some w ->
  readyState w = OPEN ->
  nth_error (sockets (disconnect h)) c = Some (set_readyState CLOSING w) /\
  timeouts (disconnect h)
  = match reconnectTimeoutRef h with
    | Some tid => update tid (fun t => if pending t then set_status cleared t else t) (timeouts h)
    | None => timeouts h
    end.
Proof.
  intros Hc Hw Hr. unfold disconnect, clearTimeout, ws_close.
  destruct (reconnectTimeoutRef h); cbn; rewrite Hc; cbn;
    rewrite nth_error_update_at, Hw; cbn; rewrite Hr; split; reflexivity.
Qed.

Lemma connect_socket (k : nat) (h : Hook) (c : nat) (w : WebSocket) :
  nth_error (sockets h) c = Some w ->
  wsRef h = None ->
  isConnected h = false ->
  let h' := connect WS_URL accepts opts k h in
  nth_error (sockets h') c = Some w /\ wsRef h' <> Some c /\ isConnected h' = false /\
  timeouts h' = timeouts h.
Proof.
  intros Hw Hn Hi h'. subst h'. unfold connect.
  destruct (negb (enabled opts) || negb (truthy (sessionId opts))).
  - rewrite Hn. repeat split; auto. discriminate.
  - destruct (accepts _); cbn.
    + assert (Hlt : c < List.length (sockets h)) by (apply nth_error_Some; congruence).
      rewrite nth_error_app1 by exact Hlt. repeat split; auto.
      intros [= E]. lia.
    + rewrite Hn. repeat split; auto. discriminate.
Qed.

End OpenFacts.

(** C10: in any run, when the open event of the hook's current socket is
    handled, with [r] the reconnect counter before it (below the bound),
    the counter is 0 afterwards; but the close event of the socket that
    opened still schedules its reconnect with the delay for [r], and the
    counter stays 0.  Only for [r = 0] is that the base delay of 1000ms:
    then the socket stays open and current.  For [r > 0] the re-render
    that the reset causes has already closed the socket that opened (it
    is CLOSING, no longer current, and the hook reports disconnected), and
    its close schedules at least 2000ms. *)
Theorem open_resets_the_counter_not_the_opened_connection
        (WS_URL : string) (accepts : string -> bool) (opts : ProctoringWebSocket.Options)
        (es : list ProctoringWebSocket.Event) (id : nat) :
  ProctoringWebSocket.enabled opts = true ->
  let h := ProctoringWebSocket.after WS_URL accepts opts es in
  ProctoringWebSocket.wsRef h = Some id ->
  ProctoringWebSocket.fires (ProctoringWebSocket.Open id) h = true ->
  ProctoringWebSocket.reconnectAttempts h < ProctoringWebSocket.maxReconnectAttempts ->
  let r := ProctoringWebSocket.reconnectAttempts h in
  let h' := fst (ProctoringWebSocket.step WS_URL accepts opts (ProctoringWebSocket.Open id) h) in
  let h'' := fst (ProctoringWebSocket.step WS_URL accepts opts (ProctoringWebSocket.Close id) h') in
  ProctoringWebSocket.reconnectAttempts h' = 0 /\
  ProctoringWebSocket.fires (ProctoringWebSocket.Close id) h' = true /\
  ProctoringWebSocket.timeouts h'' =
    (ProctoringWebSocket.timeouts h' ++
       [ {| ProctoringWebSocket.delay := ProctoringWebSocket.reconnect_delay r;
            ProctoringWebSocket.timeout_attempts := r;
            ProctoringWebSocket.status := ProctoringWebSocket.scheduled |} ])%list /\
  ProctoringWebSocket.reconnectAttempts h'' = 0 /\
  (r = 0 ->
   ProctoringWebSocket.isConnected h' = true /\
   ProctoringWebSocket.wsRef h' = Some id /\
   ProctoringWebSocket.current_readyState h' = Some ProctoringWebSocket.OPEN /\
   ProctoringWebSocket.reconnect_delay r = 1000%Z) /\
  (0 < r ->
   ProctoringWebSocket.isConnected h' = false /\
   ProctoringWebSocket.wsRef h' <> Some id /\
   option_map ProctoringWebSocket.readyState (nth_error (ProctoringWebSocket.sockets h') id)
     = Some ProctoringWebSocket.CLOSING /\
   (2000 <= ProctoringWebSocket.reconnect_delay r)%Z).
Proof.
  intros He h Hc Hfire Hk r h' h''.
  pose proof (captured_fresh h id (after_fresh WS_URL accepts opts es) Hc) as Hcap.
  assert (Hw : exists w, nth_error (ProctoringWebSocket.sockets h) id = Some w /\
                         ProctoringWebSocket.attempts w = r).
  { unfold ProctoringWebSocket.captured in Hcap. cbn in Hfire.
    unfold ProctoringWebSocket.socket_in in Hfire.
    destruct (nth_error (ProctoringWebSocket.sockets h) id) as [w|]; [|discriminate].
    exists w. split; [reflexivity|exact Hcap]. }
  destruct Hw as (w & Hw & Hat).
  set (w1 := ProctoringWebSocket.set_readyState ProctoringWebSocket.OPEN w).
  set (h1 := ProctoringWebSocket.onopen id
               (ProctoringWebSocket.set_sockets
                  (ProctoringWebSocket.update id
                     (ProctoringWebSocket.set_readyState ProctoringWebSocket.OPEN)
                     (ProctoringWebSocket.sockets h)) h)).
  assert (Hh' : h' = ProctoringWebSocket.render WS_URL accepts opts h h1).
  { subst h'. unfold ProctoringWebSocket.step. rewrite Hfire. reflexivity. }
  assert (Hw1 : nth_error (ProctoringWebSocket.sockets h1) id = Some w1).
  { cbn. rewrite nth_error_update_at, Hw. reflexivity. }
  assert (Hc1 : ProctoringWebSocket.wsRef h1 = Some id) by exact Hc.
  destruct (Nat.eq_dec r 0) as [Hr0|Hr0].
  - assert (E : h' = h1).
    { rewrite Hh'. unfold ProctoringWebSocket.render. cbn [ProctoringWebSocket.reconnectAttempts h1].
      change (ProctoringWebSocket.reconnectAttempts h1) with 0.
      fold r. rewrite Hr0. reflexivity. }
    destruct (close_schedules WS_URL accepts opts h1 id w1 He Hw1) as (Hf & Ht & _ & Hra & _).
    { discriminate. } { cbn. rewrite Hat. exact Hk. }
    subst h''. rewrite E. cbn [ProctoringWebSocket.attempts w1] in Ht.
    change (ProctoringWebSocket.attempts w1) with (ProctoringWebSocket.attempts w) in Ht.
    rewrite Hat in Ht.
    split; [reflexivity|]. split; [exact Hf|]. split; [exact Ht|]. split; [exact Hra|].
    split; [|lia]. intros _. split; [reflexivity|]. split; [exact Hc|].
    split; [|rewrite Hr0; reflexivity].
    unfold ProctoringWebSocket.current_readyState. rewrite Hc1, Hw1. reflexivity.
  - assert (E : h' = ProctoringWebSocket.connect WS_URL accepts opts 0
                       (ProctoringWebSocket.disconnect h1)).
    { rewrite Hh'. unfold ProctoringWebSocket.render.
      change (ProctoringWebSocket.reconnectAttempts h1) with 0.
      fold r. destruct (Nat.eqb_spec 0 r) as [E0|E0]; [congruence|reflexivity]. }
    destruct (disconnect_socket h1 id w1 Hc1 Hw1 eq_refl) as (Hd & _).
    destruct (connect_socket WS_URL accepts opts 0 (ProctoringWebSocket.disconnect h1) id _ Hd)
      as (Hs' & Hnc & Hic & _).
    { apply disconnect_wsRef. } { apply disconnect_isConnected. }
    rewrite <- E in Hs', Hnc, Hic.
    assert (H0 : ProctoringWebSocket.reconnectAttempts h' = 0).
    { rewrite E, connect_reconnectAttempts, disconnect_reconnectAttempts. reflexivity. }
    destruct (close_schedules WS_URL accepts opts h' id _ He Hs') as (Hf & Ht & _ & Hra & _).
    { discriminate. } { cbn. rewrite Hat. exact Hk. }
    cbn [ProctoringWebSocket.attempts ProctoringWebSocket.set_readyState w1] in Ht.
    change (ProctoringWebSocket.attempts
              (ProctoringWebSocket.set_readyState ProctoringWebSocket.CLOSING w1))
      with (ProctoringWebSocket.attempts w) in Ht.
    rewrite Hat in Ht.
    split; [exact H0|]. split; [exact Hf|]. split; [exact Ht|].
    split; [fold h'' in Hra; rewrite Hra; exact H0|].
    split; [intros; lia|]. intros _. split; [exact Hic|]. split; [exact Hnc|].
    split; [rewrite Hs'; reflexivity|].
    destruct (reconnect_delay_bounds r) as [_ _].
    pose proof (reconnect_delay_monotone 1 (r - 1)) as Hm.
    replace (1 + (r - 1)) with r in Hm by lia.
    change (ProctoringWebSocket.reconnect_delay 1) with 2000%Z in Hm. exact Hm.
Qed.

Lemma open_resets_the_counter_not_the_opened_connection_witness :
  let h := ProctoringWebSocket.after sample_endpoint sample_accepts sample_options
             [ ProctoringWebSocket.Close 0; ProctoringWebSocket.TimeoutFired 0;
               ProctoringWebSocket.Close 1 ] in
  let h' := fst (ProctoringWebSocket.step sample_endpoint sample_accepts sample_options
                   (ProctoringWebSocket.Open 2) h) in
  let h'' := fst (ProctoringWebSocket.step sample_endpoint sample_accepts sample_options
                    (ProctoringWebSocket.Close 2) h') in
  ProctoringWebSocket.reconnectAttempts h = 1 /\
  ProctoringWebSocket.reconnectAttempts h' = 0 /\
  ProctoringWebSocket.isConnected h' = false /\
  ProctoringWebSocket.delays ProctoringWebSocket.scheduled h'' = [2000%Z].
Proof.
  pose proof (open_resets_the_counter_not_the_opened_connection
                sample_endpoint sample_accepts sample_options
                [ ProctoringWebSocket.Close 0; ProctoringWebSocket.TimeoutFired 0;
                  ProctoringWebSocket.Close 1 ] 2 eq_refl eq_refl eq_refl) as H.
  cbv zeta in *.
  destruct H as (H0 & _ & Ht & _ & _ & Hbug).
  { unfold ProctoringWebSocket.maxReconnectAttempts. cbn. lia. }
  split; [reflexivity|]. split; [exact H0|].
  split; [apply Hbug; cbn; lia|].
  unfold ProctoringWebSocket.delays. rewrite Ht. reflexivity.
Defined.

(** ** The exam page *)

Section PageSends.
Import Js ProctoringWebSocket StudentExam.

Lemma live_transmit (id : nat) (m : Outbound) (h : Hook) :
  live (transmit id m h) = live h.
Proof. reflexivity. Qed.

End PageSends.

(** X11: a copy or paste event always returns normally and raises
    [copyPasteCount] by one, leaving the other counters, the warnings and
    the focus flag alone.  It sends one copy_paste message, worded for a
    copy when the event type is copy and for a paste otherwise, exactly
    when the hook reports connected and the current socket is open. *)
Theorem copy_paste_always_counts_and_sends_only_when_open
        (opts : ProctoringWebSocket.Options) (type : string) (p : StudentExam.Page) :
  let report :=
    ProctoringWebSocket.browser_activity "copy_paste"
      (if String.eqb type "copy" then "Copy operation attempted" else "Paste operation attempted")
      (ProctoringWebSocket.examId opts) (ProctoringWebSocket.studentId opts)
      (ProctoringWebSocket.studentName opts) (ProctoringWebSocket.subjectCode opts)
      (ProctoringWebSocket.subjectName opts) in
  let p' := StudentExam.state (StudentExam.handleCopyPaste opts type p) in
  StudentExam.handleCopyPaste opts type p = Js.Normal p' /\
  StudentExam.copyPasteCount p' = StudentExam.copyPasteCount p + 1 /\
  StudentExam.tabSwitchCount p' = StudentExam.tabSwitchCount p /\
  StudentExam.violationCount p' = StudentExam.violationCount p /\
  StudentExam.recentWarnings p' = StudentExam.recentWarnings p /\
  StudentExam.windowFocused p' = StudentExam.windowFocused p /\
  ProctoringWebSocket.wire (StudentExam.ws p') =
    (ProctoringWebSocket.wire (StudentExam.ws p) ++
       match (if ProctoringWebSocket.isConnected (StudentExam.ws p)
              then ProctoringWebSocket.live (StudentExam.ws p) else None) with
       | Some id => [ (id, report) ]
       | None => []
       end)%list.
Proof.
  cbv zeta. unfold StudentExam.handleCopyPaste, ProctoringWebSocket.sendBrowserActivity.
  cbn [StudentExam.ws StudentExam.setCopyPasteCount].
  rewrite guarded_send.
  destruct (ProctoringWebSocket.isConnected (StudentExam.ws p));
    [|cbn; rewrite app_nil_r; repeat split].
  destruct (ProctoringWebSocket.live (StudentExam.ws p)) as [id|];
    [|cbn; rewrite app_nil_r; repeat split].
  destruct (String.eqb type "copy"); cbn; repeat split.
Qed.

(** X12: a sampler tick that finds a stream, a video with non-zero dimensions
    and a 2d context returns normally and stores the audio level (0
    without an analyser).  With the current socket open it sends a frame
    message and then an audio message with that level, the frame under the
    name held in [studentNameRef], both with the session fields of the
    hook's first render; otherwise it sends nothing. *)
Theorem samplerTick_sends_frame_then_audio
        (m : StudentExam.Media) (v : StudentExam.VideoElement) (p : StudentExam.Page) :
  StudentExam.video m = Some v ->
  StudentExam.stream m = true ->
  StudentExam.videoWidth v <> 0%N ->
  StudentExam.videoHeight v <> 0%N ->
  StudentExam.context2d m = true ->
  let level := match StudentExam.analyser m with Some l => l | None => 0%Q end in
  let p' := StudentExam.state (StudentExam.samplerTick m p) in
  StudentExam.samplerTick m p = Js.Normal p' /\
  StudentExam.audioLevel p' = level /\
  ProctoringWebSocket.wire (StudentExam.ws p') =
    (ProctoringWebSocket.wire (StudentExam.ws p) ++
       match ProctoringWebSocket.live (StudentExam.ws p) with
       | Some id =>
           [ (id, ProctoringWebSocket.frame (StudentExam.dataURL m) 0%Q 0%Q "" ""
                    (Js.or_else (Some (StudentExam.studentNameRef p)) "") "" "" (Some level));
             (id, ProctoringWebSocket.audio level "" "" "" "" "") ]
       | None => []
       end)%list.
Proof.
  intros Hv Hs Hw Hh Hc. cbv zeta. unfold StudentExam.samplerTick.
  rewrite Hv, Hs, Hc.
  apply N.eqb_neq in Hw. apply N.eqb_neq in Hh. rewrite Hw, Hh.
  cbn [orb negb]. cbv iota.
  unfold ProctoringWebSocket.sendFrame, ProctoringWebSocket.sendAudioLevel.
  cbn [StudentExam.ws StudentExam.setAudioLevel StudentExam.studentNameRef].
  rewrite guarded_send.
  destruct (ProctoringWebSocket.live (StudentExam.ws p)) as [id|] eqn:El.
  - rewrite guarded_send. rewrite live_transmit, El. cbn. rewrite <- app_assoc.
    repeat split.
  - rewrite guarded_send, El. cbn. rewrite app_nil_r. repeat split.
Qed.

Lemma samplerTick_sends_frame_then_audio_witness :
  let media := {| StudentExam.video := Some {| StudentExam.videoWidth := 640%N;
                                               StudentExam.videoHeight := 480%N |};
                  StudentExam.stream := true;
                  StudentExam.context2d := true;
                  StudentExam.dataURL := "data:image/jpeg;base64,AAAA";
                  StudentExam.analyser := Some 40%Q |} in
  let p := StudentExam.turn sample_endpoint sample_accepts sample_options
             (StudentExam.Socket (ProctoringWebSocket.Open 0))
             (StudentExam.start sample_endpoint sample_accepts sample_options "Ada") in
  StudentExam.audioLevel (StudentExam.state (StudentExam.samplerTick media p)) = 40%Q.
Proof.
  apply (samplerTick_sends_frame_then_audio
           {| StudentExam.video := Some {| StudentExam.videoWidth := 640%N;
                                           StudentExam.videoHeight := 480%N |};
              StudentExam.stream := true;
              StudentExam.context2d := true;
              StudentExam.dataURL := "data:image/jpeg;base64,AAAA";
              StudentExam.analyser := Some 40%Q |}
           {| StudentExam.videoWidth := 640%N; StudentExam.videoHeight := 480%N |});
    try reflexivity; discriminate.
Defined.

(** X13: unparseable data, pong, audio_level and unknown messages, and
    detection results without violations, leave the page and the hook
    exactly as they were. *)
Theorem silent_messages_change_nothing
        (WS_URL : string) (accepts : string -> bool) (opts : ProctoringWebSocket.Options)
        (id : nat) (now type : string) (level : ProctoringWebSocket.number)
        (snapshot : option string) (p : StudentExam.Page) :
  let receive data :=
    StudentExam.turn WS_URL accepts opts
      (StudentExam.Socket (ProctoringWebSocket.Message id now data)) p in
  receive None = p /\
  receive (Some ProctoringWebSocket.pong) = p /\
  receive (Some (ProctoringWebSocket.audio_level level)) = p /\
  receive (Some (ProctoringWebSocket.unknown type)) = p /\
  receive (Some (ProctoringWebSocket.detection_result
                   {| ProctoringWebSocket.violations := None;
                      ProctoringWebSocket.snapshot_base64 := snapshot |})) = p /\
  receive (Some (ProctoringWebSocket.detection_result
                   {| ProctoringWebSocket.violations := Some [];
                      ProctoringWebSocket.snapshot_base64 := snapshot |})) = p.
Proof.
  cbv zeta. unfold StudentExam.turn, ProctoringWebSocket.step.
  cbn [ProctoringWebSocket.fires ProctoringWebSocket.handle].
  destruct (ProctoringWebSocket.socket_in id [ProctoringWebSocket.OPEN] (StudentExam.ws p));
    cbn; unfold ProctoringWebSocket.render; rewrite ?Nat.eqb_refl;
    destruct p; repeat split.
Qed.

Section ToasterFacts.
Import Js ProctoringWebSocket StudentExam.
Variable WS_URL : string.
Variable accepts : string -> bool.
Variable opts : Options.

Lemma hook_only_refl (l : list Toast) : hook_only l l.
Proof. exists []. now rewrite app_nil_r. Qed.

Lemma hook_only_one (l : list Toast) (t : Toast) :
  is_hook_toast t = true -> hook_only l (l ++ [t]).
Proof. intros H. exists [t]. cbn. now rewrite H. Qed.

Lemma connect_toasts (k : nat) (h : Hook) : toasts (connect WS_URL accepts opts k h) = toasts h.
Proof.
  unfold connect. destruct (negb (enabled opts) || negb (truthy (sessionId opts))); [reflexivity|].
  destruct (accepts _); reflexivity.
Qed.

Lemma disconnect_toasts (h : Hook) : toasts (disconnect h) = toasts h.
Proof.
  unfold disconnect, clearTimeout, ws_close.
  destruct (reconnectTimeoutRef h); simpl; destruct (wsRef h); reflexivity.
Qed.

Lemma render_toasts (before after : Hook) :
  toasts (render WS_URL accepts opts before after) = toasts after.
Proof.
  unfold render. destruct (Nat.eqb _ _); [reflexivity|].
  now rewrite connect_toasts, disconnect_toasts.
Qed.

Lemma onclose_toasts (k : nat) (h : Hook) : hook_only (toasts h) (toasts (onclose opts k h)).
Proof.
  unfold onclose. destruct (enabled opts && Nat.ltb k maxReconnectAttempts); [apply hook_only_refl|].
  destruct (Nat.leb maxReconnectAttempts k); [|apply hook_only_refl].
  now apply hook_only_one.
Qed.

Lemma ws_send_toasts (id : nat) (m : Outbound) (h : Hook) :
  toasts (state (ws_send id m h)) = toasts h.
Proof.
  unfold ws_send. destruct (option_map readyState (nth_error (sockets h) id)) as [[]|]; reflexivity.
Qed.

Lemma guarded_send_toasts (m : Outbound) (h : Hook) :
  toasts (state (match wsRef h, current_readyState h with
                 | Some id, Some OPEN => ws_send id m h
                 | _, _ => Normal h
                 end)) = toasts h.
Proof.
  destruct (wsRef h) as [c|]; [|reflexivity].
  destruct (current_readyState h) as [[]|]; try reflexivity. apply ws_send_toasts.
Qed.

Lemma step_toasts (e : Event) (h : Hook) :
  hook_only (toasts h) (toasts (fst (step WS_URL accepts opts e h))).
Proof.
  unfold step. destruct (fires e h); [|apply hook_only_refl].
  destruct e as [id|id|id|id|id now data|tid|]; cbn [handle fst]; rewrite ?render_toasts.
  - now apply hook_only_one.
  - apply hook_only_refl.
  - exact (onclose_toasts _ (set_sockets (update id (set_readyState CLOSED) (sockets h)) h)).
  - apply hook_only_refl.
  - apply hook_only_refl.
  - destruct (nth_error (timeouts h) tid) as [t|]; cbn [fst]; rewrite render_toasts;
      [|apply hook_only_refl].
    unfold reconnect_callback. rewrite connect_toasts. apply hook_only_refl.
  - pose proof (guarded_send_toasts ping h) as H. unfold heartbeat.
    destruct (match wsRef h, current_readyState h with
              | Some id, Some OPEN => ws_send id ping h
              | _, _ => Normal h
              end); cbn in *; rewrite render_toasts, H; apply hook_only_refl.
Qed.

Lemma onViolations_toasts (vs : list ViolationData) (p : Page) :
  toasts (ws (fold_left (fun q v => onViolation v q) vs p))
  = (toasts (ws p) ++ map toast_of vs)%list.
Proof.
  revert p. induction vs as [|v vs IH]; intros p; cbn [fold_left map].
  - now rewrite app_nil_r.
  - rewrite IH. cbn. now rewrite <- app_assoc.
Qed.

Lemma toast_of_announces (vs : list ViolationData) :
  filter is_violation_toast (map toast_of vs) = map toast_of vs.
Proof.
  induction vs as [|v vs IH]; [reflexivity|]. cbn [map filter].
  unfold toast_of at 1. unfold is_violation_toast at 1. rewrite prefix_app. now rewrite IH.
Qed.

Lemma hook_toasts_silent (l : list Toast) :
  forallb is_hook_toast l = true -> filter is_violation_toast l = [].
Proof.
  induction l as [|t l IH]; [reflexivity|]. cbn [forallb filter].
  intros H. apply andb_true_iff in H. destruct H as [Ht Hl].
  rewrite (IH Hl).
  destruct t as [text|text|text]; cbn in *; try reflexivity.
  apply String.eqb_eq in Ht. subst text. reflexivity.
Qed.

(** The toaster after one turn: what the hook added, then one toast per
    violation delivered in that turn. *)
Lemma turn_toaster (i : Input) (p : Page) :
  exists extra,
    forallb is_hook_toast extra = true /\
    toasts (ws (turn WS_URL accepts opts i p))
    = (toasts (ws p) ++ extra ++ map toast_of (deliveries WS_URL accepts opts i p))%list.
Proof.
  destruct i as [e|hidden|type|m|level]; cbn [turn deliveries map].
  - destruct (step_toasts e (ws p)) as (extra & He & Hx).
    exists extra. split; [exact Hx|].
    destruct (step WS_URL accepts opts e (ws p)) as [h vs]. cbn [fst snd] in *.
    rewrite onViolations_toasts. cbn [ws set_ws]. rewrite He. now rewrite <- app_assoc.
  - exists []. split; [reflexivity|]. cbn [app]. rewrite app_nil_r.
    destruct (enabled opts); [|reflexivity].
    unfold handleVisibilityChange. destruct hidden; [|reflexivity].
    cbn. destruct (isConnected (ws p)); [|reflexivity].
    pose proof (guarded_send_toasts
                  (browser_activity "tab_switch"
                     "Tab switched - student navigated away from exam page"
                     (examId opts) (studentId opts) (studentName opts)
                     (subjectCode opts) (subjectName opts)) (ws p)) as H.
    unfold sendBrowserActivity.
    destruct (match wsRef (ws p), current_readyState (ws p) with
              | Some id, Some OPEN => ws_send id _ (ws p)
              | _, _ => Normal (ws p)
              end); exact H.
  - exists []. split; [reflexivity|]. cbn [app]. rewrite app_nil_r.
    destruct (enabled opts); [|reflexivity].
    unfold handleCopyPaste. cbn.
    destruct (isConnected (ws p)); [|reflexivity].
    match goal with
    | |- context [sendBrowserActivity opts ?a ?b (ws p)] =>
        pose proof (guarded_send_toasts
                      (browser_activity a b (examId opts) (studentId opts) (studentName opts)
                                        (subjectCode opts) (subjectName opts)) (ws p)) as H
    end.
    unfold sendBrowserActivity.
    destruct (match wsRef (ws p), current_readyState (ws p) with
              | Some id, Some OPEN => ws_send id _ (ws p)
              | _, _ => Normal (ws p)
              end); exact H.
  - exists []. split; [reflexivity|]. cbn [app]. rewrite app_nil_r.
    unfold samplerTick.
    destruct (video m) as [v|]; [|reflexivity].
    destruct (stream m); [|reflexivity].
    destruct (N.eqb (videoWidth v) 0 || N.eqb (videoHeight v) 0); [reflexivity|].
    destruct (negb (context2d m)); [reflexivity|].
    cbn [setAudioLevel studentNameRef ws].
    match goal with
    | |- context [sendFrame first_render ?a ?b ?c (ws p)] =>
        pose proof (guarded_send_toasts
                      (frame a (calibratedPitch first_render) (calibratedYaw first_render)
                             (examId first_render) (studentId first_render)
                             (or_else c (studentName first_render))
                             (subjectCode first_render) (subjectName first_render) b) (ws p)) as H;
        change (toasts (state (sendFrame first_render a b c (ws p))) = toasts (ws p)) in H;
        destruct (sendFrame first_render a b c (ws p)) as [h|x h]
    end; cbn [state ws set_ws] in *; [|exact H].
    rewrite <- H.
    apply (guarded_send_toasts (audio _ _ _ _ _ _) h).
  - exists []. split; [reflexivity|]. cbn [app]. rewrite app_nil_r.
    destruct level; reflexivity.
Qed.

Lemma session_toaster (ins : list Input) (p : Page) :
  let p' := session WS_URL accepts opts ins p in
  filter is_violation_toast (toasts (ws p'))
  = (filter is_violation_toast (toasts (ws p))
     ++ map toast_of (delivered WS_URL accepts opts ins p))%list /\
  (forallb (fun t => is_violation_toast t || is_hook_toast t) (toasts (ws p)) = true ->
   forallb (fun t => is_violation_toast t || is_hook_toast t) (toasts (ws p')) = true).
Proof.
  revert p. induction ins as [|i ins IH]; intros p; cbn [session delivered map].
  - split; [now rewrite app_nil_r|auto].
  - destruct (IH (turn WS_URL accepts opts i p)) as [Hf Ha]. cbv zeta in *.
    destruct (turn_toaster i p) as (extra & Hx & Ht).
    split.
    + rewrite Hf, Ht, !filter_app, (hook_toasts_silent extra Hx), toast_of_announces.
      cbn [app]. rewrite map_app, app_assoc. reflexivity.
    + intros H. apply Ha. rewrite Ht. apply forallb_forall. intros t Hin.
      apply in_app_or in Hin. destruct Hin as [Hin|Hin].
      * rewrite forallb_forall in H. now apply H.
      * apply in_app_or in Hin. destruct Hin as [Hin|Hin].
        -- rewrite forallb_forall in Hx. rewrite (Hx t Hin). apply orb_true_r.
        -- apply in_map_iff in Hin. destruct Hin as (v & <- & _).
           unfold toast_of, is_violation_toast. now rewrite prefix_app.
Qed.

End ToasterFacts.

(** X14: after any sequence of inputs from the start of monitoring, the
    error toasts of the toaster whose text starts with Violation: are one
    per delivered violation, in delivery order, each with the violation's
    warning text; so their number is [violationCount], and the warnings
    list holds the smaller of 3 and that count.  The toaster is shared:
    the other toasts these inputs put there are the hook's own, its
    success toast on open and its error toast at the retry bound. *)
Theorem every_delivered_violation_is_announced_once
        (WS_URL : string) (accepts : string -> bool) (opts : ProctoringWebSocket.Options)
        (name : string) (ins : list StudentExam.Input) :
  let p0 := StudentExam.start WS_URL accepts opts name in
  let p := StudentExam.session WS_URL accepts opts ins p0 in
  let toaster := ProctoringWebSocket.toasts (StudentExam.ws p) in
  let announced := filter StudentExam.is_violation_toast toaster in
  announced =
    map (fun v => ProctoringWebSocket.toast_error ("Violation: " ++ StudentExam.warning_of v))
        (StudentExam.delivered WS_URL accepts opts ins p0) /\
  List.length announced = StudentExam.violationCount p /\
  List.length (StudentExam.recentWarnings p) = Nat.min 3 (StudentExam.violationCount p) /\
  forallb (fun t => StudentExam.is_violation_toast t || ProctoringWebSocket.is_hook_toast t) toaster
  = true.
Proof.
  cbv zeta.
  destruct (session_toaster WS_URL accepts opts ins (StudentExam.start WS_URL accepts opts name))
    as [Hn Hall].
  destruct (session_tallies WS_URL accepts opts ins (StudentExam.start WS_URL accepts opts name))
    as (Hv & Hr & _ & _).
  { simpl. lia. }
  cbv zeta in *.
  assert (H0 : ProctoringWebSocket.toasts
                 (StudentExam.ws (StudentExam.start WS_URL accepts opts name)) = []).
  { cbn. unfold ProctoringWebSocket.mount. now rewrite connect_toasts. }
  rewrite H0 in Hn, Hall. cbn [filter app] in Hn.
  split; [exact Hn|].
  split; [|split; [|apply Hall; reflexivity]].
  - rewrite Hn, Hv, length_map. cbn [StudentExam.violationCount StudentExam.start]. reflexivity.
  - rewrite Hv, Hr. cbn [StudentExam.violationCount StudentExam.start StudentExam.recentWarnings].
    rewrite app_nil_r, length_firstn, length_rev, length_map. lia.
Qed.

Section TimeFacts.
Import Js StudentExam.

Lemma countdown_spec (k n s : nat) :
  countdown k {| timeRemaining := n; timer := true; submits := s |} =
  {| timeRemaining := n - k;
     timer := Nat.ltb k (Nat.max n 1);
     submits := s + (if Nat.ltb k (Nat.max n 1) then 0 else 1) |}.
Proof.
  revert n s. induction k as [|k IH]; intros n s.
  - cbn [countdown]. rewrite Nat.sub_0_r.
    assert (Nat.ltb 0 (Nat.max n 1) = true) as -> by (apply Nat.ltb_lt; lia).
    now rewrite Nat.add_0_r.
  - cbn [countdown]. unfold countdownTick at 1. cbn [timer timeRemaining submits].
    destruct (Nat.leb_spec n 1) as [Hn|Hn].
    + assert (Nat.ltb (S k) (Nat.max n 1) = false) as -> by (apply Nat.ltb_ge; lia).
      replace (n - S k) with 0 by lia.
      clear IH. induction k as [|k IHk]; [reflexivity|exact IHk].
    + rewrite IH. f_equal; try lia.
      * destruct (Nat.ltb_spec k (Nat.max (n - 1) 1)), (Nat.ltb_spec (S k) (Nat.max n 1));
          try reflexivity; lia.
      * destruct (Nat.ltb_spec k (Nat.max (n - 1) 1)), (Nat.ltb_spec (S k) (Nat.max n 1));
          try reflexivity; lia.
Qed.

End TimeFacts.

(** X15: from [n] seconds, after [k] ticks the countdown shows [n - k] (never
    below 0); [handleSubmit] has been called exactly once if [k] has
    reached [n] (or 1, when [n] is 0) and not at all before, and from then
    on the interval is cleared. *)
Theorem countdown_submits_exactly_once (n k : nat) :
  let c := StudentExam.countdown k
             {| StudentExam.timeRemaining := n; StudentExam.timer := true;
                StudentExam.submits := 0 |} in
  StudentExam.timeRemaining c = n - k /\
  StudentExam.submits c = (if Nat.ltb k (Nat.max n 1) then 0 else 1) /\
  StudentExam.timer c = Nat.ltb k (Nat.max n 1).
Proof.
  cbv zeta. rewrite countdown_spec. repeat split.
Qed.

Section ClockFacts.
Import Js StudentExam.

Lemma digits_of_uint (d : Decimal.uint) : all_chars is_digit (NilEmpty.string_of_uint d) = true.
Proof. induction d; simpl; auto. Qed.

Lemma to_uint_nonnil (n : nat) : Nat.to_uint n <> Decimal.Nil.
Proof.
  rewrite <- (Unsigned.of_to n) at 1. rewrite Unsigned.to_of. apply DecimalFacts.unorm_nonnil.
Qed.

Lemma toString_digits (n : nat) : all_chars is_digit (toString n) = true.
Proof.
  unfold toString, NilZero.string_of_uint.
  destruct (Nat.to_uint n) eqn:E; try apply digits_of_uint. reflexivity.
Qed.

Lemma toString_read (n : nat) : readNumber (toString n) = Some n.
Proof.
  unfold readNumber, toString. rewrite NilZero.usu by apply to_uint_nonnil.
  simpl. now rewrite Unsigned.of_to.
Qed.

Lemma toString_nonempty (n : nat) : toString n <> "".
Proof.
  intros H. pose proof (toString_read n) as R. rewrite H in R. discriminate.
Qed.

Lemma padStart_digits (n : nat) : all_chars is_digit (padStart 2 "0" (toString n)) = true.
Proof.
  unfold padStart. pose proof (toString_digits n) as H.
  destruct (toString n) as [|a [|b s]]; simpl in *; auto.
Qed.

Lemma padStart_read (n : nat) : readNumber (padStart 2 "0" (toString n)) = Some n.
Proof.
  pose proof (toString_read n) as R. pose proof (toString_nonempty n) as Hne.
  unfold padStart. destruct (toString n) as [|a [|b s]]; [congruence| |exact R].
  cbn [String.length Nat.sub filler append].
  unfold readNumber in *. cbn [NilZero.uint_of_string NilEmpty.uint_of_string] in *.
  destruct (uint_of_char a (Some Decimal.Nil)) as [d|]; [|discriminate].
  cbn in *. exact R.
Qed.

Lemma before_first_digits (a b : string) :
  all_chars is_digit a = true -> before_first ":" (a ++ ":" ++ b) = a.
Proof.
  induction a as [|c a IH]; intros H; simpl in *; [reflexivity|].
  apply andb_true_iff in H. destruct H as [Hc Ha].
  destruct (Ascii.eqb_spec c ":") as [->|_]; [discriminate|]. now rewrite IH.
Qed.

Lemma after_first_digits (a b : string) :
  all_chars is_digit a = true -> after_first ":" (a ++ ":" ++ b) = b.
Proof.
  induction a as [|c a IH]; intros H; simpl in *; [reflexivity|].
  apply andb_true_iff in H. destruct H as [Hc Ha].
  destruct (Ascii.eqb_spec c ":") as [->|_]; [discriminate|]. now apply IH.
Qed.

Lemma string_length_append (a b : string) : String.length (a ++ b) = String.length a + String.length b.
Proof. induction a; simpl; auto. Qed.

Lemma two_digits_below_100 (n : nat) :
  n < 100 -> String.length (padStart 2 "0" (toString n)) = 2.
Proof.
  intros H.
  assert (Hall : forallb (fun k => Nat.eqb (String.length (padStart 2 "0" (toString k))) 2)
                         (seq 0 100) = true) by (vm_compute; reflexivity).
  rewrite forallb_forall in Hall. apply Nat.eqb_eq, Hall, in_seq. lia.
Qed.

End ClockFacts.

(** X16: the displayed time reads back as the number of seconds it was made
    from, and for less than 100 minutes it is exactly five characters
    long. *)
Theorem formatTime_reads_back (seconds : nat) :
  StudentExam.readTime (StudentExam.formatTime seconds) = Some seconds /\
  (seconds < 100 * 60 -> String.length (StudentExam.formatTime seconds) = 5).
Proof.
  unfold StudentExam.formatTime, StudentExam.readTime. cbv zeta. split.
  - rewrite before_first_digits, after_first_digits by apply padStart_digits.
    rewrite !padStart_read. f_equal.
    pose proof (Nat.div_mod_eq seconds 60). lia.
  - intros H. rewrite !string_length_append.
    assert (Hm : seconds / 60 < 100) by (apply Nat.Div0.div_lt_upper_bound; lia).
    assert (Hs : seconds mod 60 < 100).
    { pose proof (Nat.mod_upper_bound seconds 60). lia. }
    rewrite (two_digits_below_100 _ Hm), (two_digits_below_100 _ Hs). reflexivity.
Qed.

Lemma formatTime_reads_back_witness :
  String.length (StudentExam.formatTime 3600) = 5.
Proof.
  apply (formatTime_reads_back 3600). lia.
Defined.

Section WaitFacts.
Import StudentExam.

Lemma checks_stopped (obs : list bool) (e : N) (s : nat) :
  checks obs {| elapsedTime := e; waiting := false; monitoringStarts := s |}
  = {| elapsedTime := e; waiting := false; monitoringStarts := s |}.
Proof. induction obs as [|r obs IH]; simpl; auto. Qed.

Lemma checks_spec (obs : list bool) (j : nat) :
  j < 100 ->
  let w := checks obs {| elapsedTime := 100 * N.of_nat j; waiting := true; monitoringStarts := 0 |} in
  let started := existsb (fun r => r) obs || Nat.leb 100 (j + List.length obs) in
  monitoringStarts w = (if started then 1 else 0) /\
  waiting w = negb started /\
  (elapsedTime w <= 10000)%N.
Proof.
  revert j. induction obs as [|r obs IH]; intros j Hj; cbv zeta.
  - cbn [checks existsb List.length orb]. rewrite Nat.add_0_r.
    assert (Nat.leb 100 j = false) as -> by (apply Nat.leb_gt; exact Hj).
    cbn [orb negb monitoringStarts waiting elapsedTime]. repeat split. lia.
  - cbn [checks]. unfold waitForConnection. cbn [waiting elapsedTime monitoringStarts].
    unfold checkInterval, maxWaitTime.
    destruct r.
    + rewrite checks_stopped.
      cbn [existsb orb negb monitoringStarts waiting elapsedTime Nat.add]. repeat split. lia.
    + destruct (N.leb_spec 10000 (100 * N.of_nat j + 100)) as [Hle|Hgt].
      * rewrite checks_stopped. cbn [existsb orb monitoringStarts waiting elapsedTime List.length].
        assert (Nat.leb 100 (j + S (List.length obs)) = true) as -> by (apply Nat.leb_le; lia).
        rewrite orb_true_r. repeat split. lia.
      * replace (100 * N.of_nat j + 100)%N with (100 * N.of_nat (S j))%N by lia.
        destruct (IH (S j)) as (H1 & H2 & H3); [lia|].
        cbv zeta in *. cbn [existsb orb List.length].
        replace (j + S (List.length obs)) with (S j + List.length obs) by lia.
        repeat split; assumption.
Qed.

End WaitFacts.

(** X17: whatever the socket does, [startAIMonitoring] is called exactly once:
    at the first check that finds the socket ready, or at the hundredth
    check (10 seconds); never before, never twice, and the elapsed time
    never passes the maximum. *)
Theorem monitoring_starts_once_within_ten_seconds (ready : list bool) :
  let w := StudentExam.checks ready StudentExam.waitStart in
  let started := existsb (fun r => r) ready || Nat.leb 100 (List.length ready) in
  StudentExam.monitoringStarts w = (if started then 1 else 0) /\
  StudentExam.waiting w = negb started /\
  (StudentExam.elapsedTime w <= StudentExam.maxWaitTime)%N.
Proof.
  exact (checks_spec ready 0 ltac:(lia)).
Qed.

(** ** The report generator *)

Section CountFacts.
Import Js PDFGenerator.

Lemma bump_count_of (t type : string) (counts : list (string * nat)) :
  count_of type (bump t counts) = count_of type counts + (if String.eqb t type then 1 else 0).
Proof.
  induction counts as [|[k n] counts IH]; cbn [bump count_of].
  - destruct (String.eqb t type); reflexivity.
  - destruct (String.eqb_spec k t) as [->|Hkt]; cbn [count_of].
    + destruct (String.eqb t type); lia.
    + destruct (String.eqb_spec k type) as [->|Hk].
      * destruct (String.eqb_spec t type); [congruence|lia].
      * exact IH.
Qed.

Lemma bump_sum (t : string) (counts : list (string * nat)) :
  list_sum (map snd (bump t counts)) = list_sum (map snd counts) + 1.
Proof.
  induction counts as [|[k n] counts IH]; cbn [bump map snd list_sum fold_right]; [reflexivity|].
  destruct (String.eqb k t); cbn [map snd list_sum fold_right]; [lia|].
  change (fold_right Nat.add 0 (map snd (bump t counts))) with (list_sum (map snd (bump t counts))).
  rewrite IH. unfold list_sum. lia.
Qed.

Lemma bump_keys (t : string) (counts : list (string * nat)) (k : string) :
  In k (map fst (bump t counts)) <-> k = t \/ In k (map fst counts).
Proof.
  induction counts as [|[k' n] counts IH]; cbn [bump map fst In].
  - intuition.
  - destruct (String.eqb_spec k' t) as [->|Hne]; cbn [map fst In]; intuition.
Qed.

Lemma bump_NoDup (t : string) (counts : list (string * nat)) :
  NoDup (map fst counts) -> NoDup (map fst (bump t counts)).
Proof.
  induction counts as [|[k n] counts IH]; cbn [bump map fst]; intros H.
  - constructor; [intros []|constructor].
  - inversion H as [|x l Hnin Hnd]; subst.
    destruct (String.eqb_spec k t) as [->|Hne]; cbn [map fst].
    + constructor; assumption.
    + constructor; [|now apply IH].
      intros Hin. apply bump_keys in Hin. destruct Hin as [->|Hin]; [congruence|contradiction].
Qed.

Lemma bump_positive (t : string) (counts : list (string * nat)) :
  Forall (fun kn => 1 <= snd kn) counts -> Forall (fun kn => 1 <= snd kn) (bump t counts).
Proof.
  induction counts as [|[k n] counts IH]; cbn [bump]; intros H.
  - constructor; [cbn; lia|constructor].
  - inversion H; subst. destruct (String.eqb k t); constructor; cbn in *; auto; lia.
Qed.

Lemma counts_invariant (vs : list ViolationData) (acc : list (string * nat)) :
  NoDup (map fst acc) -> Forall (fun kn => 1 <= snd kn) acc ->
  let counts := fold_left (fun counts v => bump (counted_as v) counts) vs acc in
  list_sum (map snd counts) = list_sum (map snd acc) + List.length vs /\
  NoDup (map fst counts) /\
  Forall (fun kn => 1 <= snd kn) counts /\
  forall type, count_of type counts
               = count_of type acc
                 + List.length (filter (fun v => String.eqb (counted_as v) type) vs).
Proof.
  revert acc. induction vs as [|v vs IH]; intros acc Hnd Hpos; cbn [fold_left].
  - cbn. repeat split; auto; intros; lia.
  - destruct (IH (bump (counted_as v) acc)) as (Hs & Hn & Hp & Hc).
    { now apply bump_NoDup. } { now apply bump_positive. }
    cbv zeta in *. rewrite Hs, bump_sum. repeat split; auto; [cbn [List.length]; lia|].
    intros type. rewrite Hc, bump_count_of. cbn [filter].
    destruct (String.eqb (counted_as v) type); cbn [List.length]; lia.
Qed.

Lemma violationCounts_numbers (vs : list ViolationData) (acc : list (string * nat)) :
  Forall (fun v => inherited (counted_as v) = false) vs ->
  fold_left (fun counts v =>
               match counts with
               | Some c => if String.eqb (counted_as v) "__proto__" then Some c
                           else if inherited (counted_as v) then None
                           else Some (bump (counted_as v) c)
               | None => None
               end) vs (Some acc)
  = Some (fold_left (fun counts v => bump (counted_as v) counts) vs acc).
Proof.
  revert acc. induction vs as [|v vs IH]; intros acc H; cbn [fold_left]; [reflexivity|].
  inversion H as [|x l Hv Hvs]; subst. rewrite Hv.
  destruct (String.eqb_spec (counted_as v) "__proto__") as [E|_]; [|now apply IH].
  rewrite E in Hv. discriminate.
Qed.

End CountFacts.

(** X18: the breakdown of a report counts every violation once, as long as no
    violation type is a name inherited from [Object.prototype]: the counts
    add up to the number of violations, no type is listed twice, every
    listed count is at least 1, and the count of a type is the number of
    violations counted under it (those without a type count as unknown). *)
Theorem violationCounts_add_up (violations : list PDFGenerator.ViolationData) (type : string) :
  Forall (fun v => Js.inherited (PDFGenerator.counted_as v) = false) violations ->
  exists counts,
    PDFGenerator.violationCounts violations = Some counts /\
    list_sum (map snd counts) = List.length violations /\
    NoDup (map fst counts) /\
    Forall (fun kn => 1 <= snd kn) counts /\
    PDFGenerator.count_of type counts
    = List.length (filter (fun v => String.eqb (PDFGenerator.counted_as v) type) violations).
Proof.
  intros H.
  destruct (counts_invariant violations []) as (Hs & Hn & Hp & Hc);
    [constructor | constructor |].
  cbv zeta in *. eexists. split.
  - unfold PDFGenerator.violationCounts. apply violationCounts_numbers, H.
  - repeat split; auto.
Qed.

Lemma violationCounts_add_up_witness :
  exists counts,
    PDFGenerator.violationCounts [bare_violation; bare_violation] = Some counts /\
    PDFGenerator.count_of "tab_switch" counts = 2.
Proof.
  destruct (violationCounts_add_up [bare_violation; bare_violation] "tab_switch")
    as (counts & Hc & _ & _ & _ & Hn).
  - repeat constructor.
  - exists counts. split; [exact Hc | exact Hn].
Defined.

Section LayoutFacts.
Import Js PDFGenerator.

Lemma detailLayout_bounds (vs : list ViolationData) (yPos : nat) :
  20 <= yPos ->
  Forall (fun by_ => 20 <= snd by_ <= 220) (detailLayout yPos vs) /\
  List.length (detailLayout yPos vs) = List.length vs.
Proof.
  revert yPos. induction vs as [|v vs IH]; intros y Hy; cbn [detailLayout List.length].
  - split; [constructor|reflexivity].
  - destruct (Nat.ltb_spec 220 y) as [Hb|Hb].
    + destruct (IH (20 + (if has_image v then 45 else 30))) as [Hf Hl];
        [destruct (has_image v); lia|].
      split; [constructor; [cbn; lia|exact Hf] | now rewrite Hl].
    + destruct (IH (y + (if has_image v then 45 else 30))) as [Hf Hl];
        [destruct (has_image v); lia|].
      split; [constructor; [cbn; lia|exact Hf] | now rewrite Hl].
Qed.

Lemma evidenceLayout_bounds (vs : list ViolationData) (idx y : nat) :
  20 <= y ->
  Forall (fun e => 20 <= snd e <= 270) (evidenceLayout idx y vs) /\
  map (fun e => fst (fst e)) (evidenceLayout idx y vs) = seq (idx + 1) (List.length vs).
Proof.
  revert idx y. induction vs as [|v vs IH]; intros idx y Hy; cbn [evidenceLayout List.length seq map].
  - split; [constructor|reflexivity].
  - destruct (Nat.ltb_spec 270 y) as [Hb|Hb].
    + destruct (IH (idx + 1) (20 + 7)) as [Hf Hl]; [lia|].
      split; [constructor; [cbn; lia|exact Hf]|]. cbn [fst]. rewrite Hl.
      replace (idx + 1 + 1) with (S (idx + 1)) by lia. reflexivity.
    + destruct (IH (idx + 1) (y + 7)) as [Hf Hl]; [lia|].
      split; [constructor; [cbn; lia|exact Hf]|]. cbn [fst]. rewrite Hl.
      replace (idx + 1 + 1) with (S (idx + 1)) by lia. reflexivity.
Qed.

End LayoutFacts.

(** X19: whatever the number of rows of the breakdown table, the detailed
    section of a report shows the first ten violations at most, each drawn between 20 and 220 units from the top; the evidence
    appendix lists the violations with an image, numbered from 1 in
    order, each between 20 and 270. *)
Theorem report_entries_stay_on_the_page
        (hasScore : bool) (types : nat) (violations : list PDFGenerator.ViolationData) :
  let details := PDFGenerator.detailedViolations hasScore types violations in
  let appendix := PDFGenerator.evidenceAppendix violations in
  List.length details = Nat.min 10 (List.length violations) /\
  Forall (fun entry => 20 <= snd entry <= 220) details /\
  Forall (fun line => 20 <= snd line <= 270) appendix /\
  map (fun line => fst (fst line)) appendix
  = seq 1 (List.length (filter PDFGenerator.has_image violations)).
Proof.
  cbv zeta. unfold PDFGenerator.detailedViolations, PDFGenerator.evidenceAppendix.
  destruct (detailLayout_bounds (firstn 10 violations)
              (PDFGenerator.detailsStart hasScore types)) as [Hf Hl].
  { unfold PDFGenerator.detailsStart. destruct (Nat.ltb 200 _); lia. }
  destruct (evidenceLayout_bounds (filter PDFGenerator.has_image violations) 0 44) as [Hf' Hl'];
    [lia|].
  rewrite Hl, length_firstn. repeat split; assumption.
Qed.

Section NameFacts.
Import Js.

Lemma all_chars_append (f : ascii -> bool) (a b : string) :
  all_chars f (a ++ b) = all_chars f a && all_chars f b.
Proof. induction a as [|c a IH]; simpl; [reflexivity|]. now rewrite IH, andb_assoc. Qed.

Lemma occurrences_append (c : ascii) (a b : string) :
  occurrences c (a ++ b) = occurrences c a + occurrences c b.
Proof. induction a as [|x a IH]; simpl; [reflexivity|]. rewrite IH. lia. Qed.

Lemma occurrences_none (f : ascii -> bool) (c : ascii) (s : string) :
  f c = false -> all_chars f s = true -> occurrences c s = 0.
Proof.
  intros Hc. induction s as [|x s IH]; simpl; [reflexivity|].
  intros H. apply andb_true_iff in H. destruct H as [Hx Hs].
  destruct (Ascii.eqb_spec x c) as [->|_]; [congruence|]. now apply IH.
Qed.

Lemma replace_unsafe_safe (s : string) : all_chars is_safe (replace_unsafe "_" s) = true.
Proof.
  induction s as [|c s IH]; simpl; [reflexivity|].
  destruct (is_safe c) eqn:E; simpl; [now rewrite E|exact IH].
Qed.

Lemma replace_unsafe_length (s : string) :
  String.length (replace_unsafe "_" s) = String.length s.
Proof.
  induction s as [|c s IH]; simpl; [reflexivity|].
  destruct (is_safe c); simpl; now rewrite IH.
Qed.

Lemma replace_unsafe_fixed (r s : string) :
  all_chars is_safe s = true -> replace_unsafe r s = s.
Proof.
  induction s as [|c s IH]; simpl; [reflexivity|].
  intros H. apply andb_true_iff in H. destruct H as [Hc Hs]. now rewrite Hc, IH.
Qed.

Lemma drop_unsafe_safe (s : string) : all_chars is_safe (replace_unsafe "" s) = true.
Proof.
  induction s as [|c s IH]; simpl; [reflexivity|].
  destruct (is_safe c) eqn:E; simpl; [now rewrite E|exact IH].
Qed.

Lemma drop_unsafe_length (s : string) :
  String.length (replace_unsafe "" s) <= String.length s.
Proof.
  induction s as [|c s IH]; simpl; [lia|]. destruct (is_safe c); simpl; lia.
Qed.

Lemma replace_space_runs_length (b : bool) (s : string) :
  String.length (replace_space_runs b s) <= String.length s.
Proof.
  revert b. induction s as [|c s IH]; intros b; simpl; [lia|].
  destruct (is_space c); [destruct b|]; simpl;
    [pose proof (IH true) | pose proof (IH true) | pose proof (IH false)]; lia.
Qed.

Lemma prefix_chars (f : ascii -> bool) (n : nat) (s : string) :
  all_chars f s = true -> all_chars f (substring 0 n s) = true.
Proof.
  revert n. induction s as [|c s IH]; intros [|n] H; simpl in *; auto.
  apply andb_true_iff in H. destruct H as [Hc Hs]. now rewrite Hc, IH.
Qed.

Lemma prefix_length (n : nat) (s : string) :
  String.length (substring 0 n s) = Nat.min n (String.length s).
Proof.
  revert n. induction s as [|c s IH]; intros [|n]; simpl; auto.
Qed.

Lemma prefix_all (n : nat) (s : string) :
  String.length s <= n -> substring 0 n s = s.
Proof.
  revert n. induction s as [|c s IH]; intros [|n] H; simpl in *; auto; try lia.
  now rewrite IH by lia.
Qed.

Lemma replace_colon_none (s : string) :
  occurrences ":" (replace_all_char ":" "-" s) = 0.
Proof.
  induction s as [|c s IH]; simpl; [reflexivity|].
  destruct (Ascii.eqb_spec c ":") as [->|Hc]; simpl; [exact IH|].
  destruct (Ascii.eqb_spec c ":"); [congruence|exact IH].
Qed.

Lemma before_first_le (c x : ascii) (s : string) :
  occurrences x (before_first c s) <= occurrences x s.
Proof.
  induction s as [|a s IH]; simpl; [lia|].
  destruct (Ascii.eqb a c); simpl; lia.
Qed.

Lemma before_first_none (c : ascii) (s : string) : occurrences c (before_first c s) = 0.
Proof.
  induction s as [|a s IH]; simpl; [reflexivity|].
  destruct (Ascii.eqb a c) eqn:E; simpl; [reflexivity|]. now rewrite E.
Qed.

Lemma digits_no_slash (n : nat) : occurrences "/" (toString n) = 0.
Proof.
  unfold toString, NilZero.string_of_uint.
  assert (H : forall d, occurrences "/" (NilEmpty.string_of_uint d) = 0)
    by (intros d; induction d; simpl; auto).
  destruct (Nat.to_uint n); try apply H. reflexivity.
Qed.

End NameFacts.

(** X20: a sanitized name holds only letters, digits, underscores and hyphens,
    at most 50 of them, and sanitizing it again changes nothing; the
    report's storage path therefore has exactly two slashes whatever the
    student's name and id are. *)
Theorem report_file_name_is_a_safe_path (studentName studentId : string) (now : nat) :
  let name := PDFGenerator.sanitized studentName in
  Js.all_chars Js.is_safe name = true /\
  String.length name = Nat.min 50 (String.length studentName) /\
  PDFGenerator.sanitized name = name /\
  Js.occurrences "/" (PDFGenerator.reportFileName studentName studentId now) = 2.
Proof.
  cbv zeta. unfold PDFGenerator.sanitized.
  assert (Hsafe : forall s, Js.all_chars Js.is_safe (substring 0 50 (Js.replace_unsafe "_" s)) = true).
  { intros s. apply prefix_chars, replace_unsafe_safe. }
  assert (Hlen : forall s, String.length (substring 0 50 (Js.replace_unsafe "_" s))
                           = Nat.min 50 (String.length s)).
  { intros s. now rewrite prefix_length, replace_unsafe_length. }
  split; [apply Hsafe|]. split; [apply Hlen|]. split.
  - rewrite (replace_unsafe_fixed "_" _ (Hsafe studentName)).
    apply prefix_all. rewrite Hlen. lia.
  - unfold PDFGenerator.reportFileName, PDFGenerator.sanitized. cbv zeta.
    rewrite !occurrences_append.
    rewrite !(occurrences_none Js.is_safe "/" _ eq_refl (Hsafe _)).
    rewrite digits_no_slash. reflexivity.
Qed.

(** X21: the student segment of a snapshot path holds only letters, digits,
    underscores and hyphens (so no slash) and is no longer than the name,
    and the time stamp in the file name has neither a colon nor a dot. *)
Theorem snapshot_file_name_parts_are_clean (studentName iso : string) :
  Js.all_chars Js.is_safe (ViolationLogger.sanitizedName studentName) = true /\
  String.length (ViolationLogger.sanitizedName studentName) <= String.length studentName /\
  Js.occurrences "/" (ViolationLogger.sanitizedName studentName) = 0 /\
  Js.occurrences ":" (ViolationLogger.fileTimestamp iso) = 0 /\
  Js.occurrences "." (ViolationLogger.fileTimestamp iso) = 0.
Proof.
  unfold ViolationLogger.sanitizedName, ViolationLogger.fileTimestamp.
  split; [apply drop_unsafe_safe|]. split.
  { pose proof (drop_unsafe_length (Js.replace_space_runs false studentName)).
    pose proof (replace_space_runs_length false studentName). lia. }
  split; [apply (occurrences_none Js.is_safe); [reflexivity|apply drop_unsafe_safe]|].
  split; [|apply before_first_none].
  pose proof (before_first_le "." ":" (Js.replace_all_char ":" "-" iso)).
  rewrite replace_colon_none in H. lia.
Qed.

Section ReaderFacts.
Import Js PDFGenerator CsvReader.

Lemma string_app_nil_r (s : string) : s ++ "" = s.
Proof. induction s as [|c s IH]; simpl; [reflexivity|now rewrite IH]. Qed.

Lemma string_app_assoc (a b c : string) : (a ++ b) ++ c = a ++ (b ++ c).
Proof. induction a as [|x a IH]; simpl; [reflexivity|now rewrite IH]. Qed.

Lemma read_escaped (cell acc : string) (F : list string) (R : list (list string)) (rest : string) :
  read (Quoted acc) F R
       (replace_all_char dquote (String dquote (String dquote EmptyString)) cell
        ++ String dquote rest)
  = read (QuoteSeen (acc ++ cell)) F R rest.
Proof.
  revert acc. induction cell as [|c cell IH]; intros acc.
  - cbn. now rewrite string_app_nil_r.
  - cbn [replace_all_char]. destruct (Ascii.eqb c dquote) eqn:E.
    + apply Ascii.eqb_eq in E. subst c.
      cbn [append read]. change (Ascii.eqb dquote dquote) with true. cbv iota.
      cbn [read]. change (Ascii.eqb dquote dquote) with true. cbv iota.
      rewrite IH. unfold snoc. now rewrite string_app_assoc.
    + cbn [append read]. rewrite E. rewrite IH. unfold snoc. now rewrite string_app_assoc.
Qed.

Lemma read_quoted_field (cell : string) (F : list string) (R : list (list string)) (rest : string) :
  read FieldStart F R (quote cell ++ rest) = read (QuoteSeen cell) F R rest.
Proof.
  unfold quote. cbn [append read]. change (Ascii.eqb dquote dquote) with true. cbv iota.
  rewrite string_app_assoc. cbn [append]. apply read_escaped.
Qed.

Lemma line_cons (c : string) (cells : list string) (last : string) :
  line (c :: (cells ++ [last])%list) = quote c ++ "," ++ line (cells ++ [last])%list.
Proof.
  unfold line. cbn [map join]. destruct (cells ++ [last])%list eqn:E; [|reflexivity].
  destruct cells; discriminate.
Qed.

Lemma read_line (cells : list string) (last : string) (F : list string)
      (R : list (list string)) (rest : string) :
  read FieldStart F R (line (cells ++ [last])%list ++ rest)
  = read (QuoteSeen last) (rev cells ++ F)%list R rest.
Proof.
  revert F. induction cells as [|c cells IH]; intros F.
  - cbn [app rev]. unfold line. cbn [map join]. apply read_quoted_field.
  - change ((c :: cells) ++ [last])%list with (c :: (cells ++ [last])%list).
    rewrite line_cons, !string_app_assoc, read_quoted_field.
    cbn [append read]. change (Ascii.eqb "," dquote) with false.
    change (Ascii.eqb "," ",") with true. cbv iota.
    rewrite IH. cbn [rev]. now rewrite <- app_assoc.
Qed.

Lemma join_cons (sep x y : string) (rest : list string) :
  join sep (x :: y :: rest) = x ++ sep ++ join sep (y :: rest).
Proof. reflexivity. Qed.

Lemma read_lines (rows : list (list string)) (r : list string) (R : list (list string)) :
  Forall (fun x => x <> []) (r :: rows) ->
  read FieldStart [] R (join newline (map line (r :: rows))) = Some (rev R ++ r :: rows)%list.
Proof.
  revert r R. induction rows as [|r2 rows IH]; intros r R H.
  - inversion H as [|x l Hr _]; subst.
    destruct (exists_last Hr) as (cells & last & ->).
    cbn [map join]. rewrite <- (string_app_nil_r (line (cells ++ [last])%list)).
    rewrite read_line. cbn [read]. rewrite app_nil_r.
    cbn [rev]. now rewrite rev_involutive.
  - inversion H as [|x l Hr Hrest]; subst.
    destruct (exists_last Hr) as (cells & last & ->).
    cbn [map]. rewrite join_cons, read_line.
    unfold newline at 1. cbn [append read].
    change (Ascii.eqb (ascii_of_nat 10) dquote) with false.
    change (Ascii.eqb (ascii_of_nat 10) ",") with false.
    change (Ascii.eqb (ascii_of_nat 10) (ascii_of_nat 10)) with true. cbv iota.
    change (join newline (line r2 :: map line rows)) with (join newline (map line (r2 :: rows))).
    rewrite IH by exact Hrest. rewrite app_nil_r.
    cbn [rev]. rewrite rev_involutive, <- app_assoc. reflexivity.
Qed.

Lemma read_header (R : list (list string)) (rest : string) :
  read FieldStart [] R (join "," headers ++ newline ++ rest)
  = read FieldStart [] (headers :: R) rest.
Proof. reflexivity. Qed.

End ReaderFacts.

(** X22: read as comma-separated text, the export gives back the header cells
    followed by the cells of every violation's row, in order, whatever
    commas, quotes or line feeds the cells contain. *)
Theorem exported_csv_reads_back
        (toLocaleString : string -> string)
        (percent_toFixed1 : PDFGenerator.number -> string)
        (violations : list PDFGenerator.ViolationData) :
  CsvReader.parse (PDFGenerator.exportToCSV toLocaleString percent_toFixed1 violations)
  = Some (PDFGenerator.headers
            :: map (PDFGenerator.row toLocaleString percent_toFixed1) violations).
Proof.
  unfold CsvReader.parse, PDFGenerator.exportToCSV, PDFGenerator.lines.
  destruct violations as [|v vs]; [reflexivity|].
  change (map (fun r => Js.join "," (map PDFGenerator.quote r))
              (map (PDFGenerator.row toLocaleString percent_toFixed1) (v :: vs)))
    with (map PDFGenerator.line (PDFGenerator.row toLocaleString percent_toFixed1 v
                      :: map (PDFGenerator.row toLocaleString percent_toFixed1) vs)).
  cbn [map]. rewrite join_cons, read_header.
  change (PDFGenerator.line (PDFGenerator.row toLocaleString percent_toFixed1 v)
            :: map PDFGenerator.line (map (PDFGenerator.row toLocaleString percent_toFixed1) vs))
    with (map PDFGenerator.line (PDFGenerator.row toLocaleString percent_toFixed1 v
                      :: map (PDFGenerator.row toLocaleString percent_toFixed1) vs)).
  rewrite read_lines; [reflexivity|].
  constructor; [discriminate|].
  apply Forall_forall. intros r Hr. apply in_map_iff in Hr. destruct Hr as (x & <- & _).
  discriminate.
Qed.

(** ** The report generator: the cells of the export *)

Section CellFacts.
Import Js PDFGenerator.

Lemma or_else_falls_back (a b : option string) (d : string) :
  falls_back a b d (or_else (or_opt a b) d).
Proof.
  unfold falls_back, absent, or_opt, or_else. repeat split.
  - intros [|c s] [= ->] Hs; [congruence|reflexivity].
  - intros [-> | ->] [|c s] -> Hs; congruence || reflexivity.
  - intros [-> | ->] [-> | ->]; reflexivity.
Qed.

Lemma or_else_falls_back_one (a : option string) (d : string) :
  falls_back a None d (or_else a d).
Proof.
  unfold falls_back, absent, or_else. repeat split.
  - intros [|c s] [= ->] Hs; [congruence|reflexivity].
  - intros _ s [=].
  - intros [-> | ->] _; reflexivity.
Qed.

End CellFacts.

(** C8, amended: for no violations the document is the header line alone;
    read as comma-separated text, any export gives back the header cells
    followed by one record of eleven cells per violation, in input order.
    Timestamp, Violation Type and Severity have no placeholder: they hold
    the formatted time stamp, the type with underscores as spaces and the
    severity as given, also when that is empty.  Each of the other eight
    cells shows the first of its sources that is present and not empty,
    and its placeholder otherwise, so none of them is ever empty.  In a
    row passed as stored, a null severity is written as the text null
    and a null time stamp as the date of the epoch. *)
Theorem exportToCSV_rows_cells_and_placeholders
        (toLocaleString : string -> string)
        (percent_toFixed1 : PDFGenerator.number -> string)
        (violations : list PDFGenerator.ViolationData) :
  let row := PDFGenerator.row toLocaleString percent_toFixed1 in
  let csv := PDFGenerator.exportToCSV toLocaleString percent_toFixed1 in
  let cell i v := nth i (row v) "" in
  let confidence v := match PDFGenerator.details v with
                      | Some d => PDFGenerator.confidence d
                      | None => None
                      end in
  csv [] =
    "Timestamp,Student ID,Student Name,Subject Name,Subject Code,Violation Type,Severity,Details,Confidence,Evidence Image URL,Has Evidence" /\
  CsvReader.parse (csv violations) = Some (PDFGenerator.headers :: map row violations) /\
  (forall v, List.length (row v) = 11) /\
  (forall v,
      cell 0 v = toLocaleString (PDFGenerator.timestamp v) /\
      cell 5 v = Js.replace_all_char Js.underscore " " (PDFGenerator.violation_type v) /\
      cell 6 v = PDFGenerator.severity v) /\
  (forall v,
      PDFGenerator.falls_back (PDFGenerator.detail PDFGenerator.student_id v)
        (PDFGenerator.detail PDFGenerator.studentId v) "ID Not Available" (cell 1 v) /\
      PDFGenerator.falls_back (PDFGenerator.detail PDFGenerator.student_name v)
        (PDFGenerator.detail PDFGenerator.studentName v) "Name Not Available" (cell 2 v) /\
      PDFGenerator.falls_back (PDFGenerator.detail PDFGenerator.subject_name v)
        (PDFGenerator.detail PDFGenerator.subjectName v) "Subject Not Available" (cell 3 v) /\
      PDFGenerator.falls_back (PDFGenerator.detail PDFGenerator.subject_code v)
        (PDFGenerator.detail PDFGenerator.subjectCode v) "Code Not Available" (cell 4 v) /\
      PDFGenerator.falls_back (PDFGenerator.detail PDFGenerator.message v) None
        "No details available" (cell 7 v) /\
      (forall c, confidence v = Some c -> ~ (c == 0)%Q ->
                 cell 8 v = percent_toFixed1 c ++ "%") /\
      (confidence v = None \/ (exists c, confidence v = Some c /\ (c == 0)%Q) ->
       cell 8 v = "N/A") /\
      PDFGenerator.falls_back (PDFGenerator.image_url v) None
        "No evidence captured" (cell 9 v) /\
      (forall u, PDFGenerator.image_url v = Some u -> u <> "" -> cell 10 v = "Yes") /\
      (PDFGenerator.absent (PDFGenerator.image_url v) -> cell 10 v = "No") /\
      Forall (fun i => cell i v <> "") [1; 2; 3; 4; 7; 8; 9; 10]) /\
  (forall r,
      cell 0 (PDFGenerator.as_exported r)
      = toLocaleString (match PDFGenerator.stored_timestamp r with
                        | Some t => t
                        | None => "1970-01-01T00:00:00.000Z"
                        end) /\
      cell 6 (PDFGenerator.as_exported r)
      = match PDFGenerator.stored_severity r with Some s => s | None => "null" end).
Proof.
  cbv zeta. split; [reflexivity|]. split.
  { unfold CsvReader.parse, PDFGenerator.exportToCSV, PDFGenerator.lines.
    destruct violations as [|v vs]; [reflexivity|].
    change (map (fun r => Js.join "," (map PDFGenerator.quote r))
                (map (PDFGenerator.row toLocaleString percent_toFixed1) (v :: vs)))
      with (map PDFGenerator.line (PDFGenerator.row toLocaleString percent_toFixed1 v
                        :: map (PDFGenerator.row toLocaleString percent_toFixed1) vs)).
    cbn [map]. rewrite join_cons, read_header.
    change (PDFGenerator.line (PDFGenerator.row toLocaleString percent_toFixed1 v)
              :: map PDFGenerator.line (map (PDFGenerator.row toLocaleString percent_toFixed1) vs))
      with (map PDFGenerator.line (PDFGenerator.row toLocaleString percent_toFixed1 v
                        :: map (PDFGenerator.row toLocaleString percent_toFixed1) vs)).
    rewrite read_lines; [reflexivity|].
    constructor; [discriminate|].
    apply Forall_forall. intros r Hr. apply in_map_iff in Hr. destruct Hr as (x & <- & _).
    discriminate. }
  split; [reflexivity|]. split; [intros v; repeat split|]. split; [|intros r; split; reflexivity].
  intros v.
  split; [apply or_else_falls_back|]. split; [apply or_else_falls_back|].
  split; [apply or_else_falls_back|]. split; [apply or_else_falls_back|].
  split; [apply or_else_falls_back_one|].
  split.
  { intros c Hc Hn. cbn. destruct (PDFGenerator.details v) as [d|]; [|discriminate].
    rewrite Hc. unfold PDFGenerator.truthy_number.
    destruct (Qeq_bool c 0) eqn:E; [|reflexivity].
    apply Qeq_bool_iff in E. contradiction. }
  split.
  { intros H. cbn. destruct (PDFGenerator.details v) as [d|]; [|reflexivity].
    destruct H as [-> | (c & -> & Hz)]; [reflexivity|].
    unfold PDFGenerator.truthy_number. apply Qeq_bool_iff in Hz. now rewrite Hz. }
  split; [apply or_else_falls_back_one|].
  split.
  { intros u Hu Hne. cbn. rewrite Hu. destruct u; [congruence|reflexivity]. }
  split.
  { intros [H|H]; cbn; rewrite H; reflexivity. }
  repeat constructor; simpl;
    try (apply truthy_nonempty, or_else_truthy; reflexivity).
  + destruct (PDFGenerator.details v) as [d|]; [|discriminate].
    destruct (PDFGenerator.confidence d) as [c|]; [|discriminate].
    destruct (PDFGenerator.truthy_number c); [|discriminate].
    apply append_nonempty_r. discriminate.
  + destruct (PDFGenerator.image_url v) as [u|]; [|discriminate].
    destruct (Js.truthy u); discriminate.
Qed.

(** C8 as stated fails for the fields the export has no placeholder for.
    A violation whose severity is empty gets an empty Severity cell, and a
    stored row whose severity and time stamp are null gets the text null
    and the date of the epoch (the formatting being the identity here). *)
Lemma exportToCSV_writes_missing_fields_without_placeholder :
  let export := PDFGenerator.exportToCSV (fun t => t) (fun _ => "90.0") in
  let stored := PDFGenerator.exportStored (fun t => t) (fun _ => "90.0") in
  CsvReader.parse (export [blank_severity_violation])
  = Some [ PDFGenerator.headers;
           [ "2025-01-01T00:00:00.000Z"; "ID Not Available"; "Name Not Available";
             "Subject Not Available"; "Code Not Available"; "tab switch"; "";
             "No details available"; "N/A"; "No evidence captured"; "No" ] ] /\
  CsvReader.parse (stored [stored_without_severity])
  = Some [ PDFGenerator.headers;
           [ "1970-01-01T00:00:00.000Z"; "ID Not Available"; "Name Not Available";
             "Subject Not Available"; "Code Not Available"; "tab switch"; "null";
             "No details available"; "N/A"; "No evidence captured"; "No" ] ].
Proof.
  vm_compute. split; reflexivity.
Qed.

(** ** The object detector *)

Section DetectorFacts.
Import Js AIProctorDetector.

Lemma maximum_ge_first (rest : list Q) (first : Q) : (first <= maximum first rest)%Q.
Proof.
  unfold maximum. revert first. induction rest as [|x rest IH]; intros m; cbn [fold_left].
  - apply Qle_refl.
  - destruct (Qle_bool m x) eqn:E.
    + apply Qle_trans with x; [now apply Qle_bool_iff|apply IH].
    + apply IH.
Qed.

Lemma maximum_ge_rest (rest : list Q) (first : Q) :
  Forall (fun x => (x <= maximum first rest)%Q) rest.
Proof.
  unfold maximum. revert first. induction rest as [|x rest IH]; intros m; cbn [fold_left].
  - constructor.
  - constructor; [|apply IH].
    destruct (Qle_bool m x) eqn:E.
    + apply (maximum_ge_first rest x).
    + apply Qle_trans with m; [|apply (maximum_ge_first rest m)].
      apply Qlt_le_weak, Qnot_le_lt. intros H. apply Qle_bool_iff in H. congruence.
Qed.

Lemma first_confident (f : Prediction -> bool) (ps : list Prediction) (p : Prediction)
      (rest : list Prediction) :
  filter f (filter confident ps) = p :: rest ->
  (confidenceThreshold <= score p)%Q.
Proof.
  intros H. assert (Hin : In p (filter f (filter confident ps))) by (rewrite H; now left).
  apply filter_In in Hin. destruct Hin as [Hin _].
  apply filter_In in Hin. destruct Hin as [_ Hc]. now apply Qle_bool_iff.
Qed.

End DetectorFacts.

(** X23: without a model [detectObjects] throws.  With one it returns at most
    three violations, of pairwise different types, never both no_person
    and multiple_person; every reported confidence other than the fixed
    one of no_person is at least the threshold, and every violation it
    reports ranks medium or high. *)
Theorem detectObjects_reports_each_kind_once
        (predictions : list AIProctorDetector.Prediction) (now : string) :
  let found := AIProctorDetector.returned
                 (AIProctorDetector.detectObjects (Some predictions) now) in
  AIProctorDetector.detectObjects None now = Js.Throw "Models not initialized" [] /\
  AIProctorDetector.detectObjects (Some predictions) now = Js.Normal found /\
  List.length found <= 3 /\
  NoDup (map AIProctorDetector.type found) /\
  (In "no_person" (map AIProctorDetector.type found) /\
   In "multiple_person" (map AIProctorDetector.type found) -> False) /\
  Forall (fun d => AIProctorDetector.type d = "no_person" \/
                   (AIProctorDetector.confidenceThreshold <= AIProctorDetector.confidence d)%Q)
         found /\
  Forall (fun d => 1 <= ViolationLogger.rank
                         (ViolationLogger.determineSeverity (AIProctorDetector.type d)))
         found.
Proof.
  cbv zeta. split; [reflexivity|]. split; [reflexivity|].
  unfold AIProctorDetector.detectObjects, AIProctorDetector.returned.
  destruct (filter AIProctorDetector.is_person
              (filter AIProctorDetector.confident predictions)) as [|p [|q others]] eqn:Ep;
    destruct (filter AIProctorDetector.is_phone
                (filter AIProctorDetector.confident predictions)) as [|ph phs] eqn:Eh;
    destruct (filter AIProctorDetector.is_suspicious
                (filter AIProctorDetector.confident predictions)) as [|ob obs] eqn:Eo;
    cbn [app map List.length AIProctorDetector.type].
  all: split; [lia|].
  all: split; [repeat constructor; cbn; intuition discriminate|].
  all: split; [cbn; intuition discriminate|].
  all: split; [|repeat (apply Forall_cons || apply Forall_nil); cbn; lia].
  all: repeat (apply Forall_cons || apply Forall_nil);
    cbn [AIProctorDetector.type AIProctorDetector.confidence].
  all: try (left; reflexivity).
  all: try (right; eapply first_confident; eassumption).
  all: right; apply Qle_trans with (AIProctorDetector.score p);
    [eapply first_confident; exact Ep | apply maximum_ge_first].
Qed.

Section ThresholdFacts.
Import AIProctorDetector.

Lemma incrementViolation_counter (k : Kind) (c : ViolationCounts) :
  counter k (fst (incrementViolation k c)) = counter k c + 1 /\
  snd (incrementViolation k c) = Nat.leb 3 (counter k c + 1).
Proof. destruct k; split; reflexivity. Qed.

Lemma incrementTimes_answer (n : nat) (k : Kind) (c : ViolationCounts) :
  snd (incrementTimes (S n) k c) = Nat.leb 3 (counter k c + S n).
Proof.
  revert c. induction n as [|n IH]; intros c.
  - cbn [incrementTimes]. apply incrementViolation_counter.
  - change (incrementTimes (S (S n)) k c)
      with (incrementTimes (S n) k (fst (incrementViolation k c))).
    rewrite IH. rewrite (proj1 (incrementViolation_counter k c)). f_equal. lia.
Qed.

End ThresholdFacts.

(** X24: after a reset, the [n]-th increment in a row for a kind answers true
    exactly when [n] is at least 3, whatever the other counter holds. *)
Theorem third_increment_in_a_row_reaches_the_threshold
        (n : nat) (k : AIProctorDetector.Kind) (c : AIProctorDetector.ViolationCounts) :
  snd (AIProctorDetector.incrementTimes n k (AIProctorDetector.resetViolation k c))
  = Nat.leb 3 n.
Proof.
  destruct n as [|n]; [reflexivity|].
  rewrite incrementTimes_answer. destruct k; reflexivity.
Qed.
